(** * HighlightTracker: the engagement accounting engine

    A shallow embedding of [src/highlight-tracker.js].  The source file holds
    two editions of the class:

    - the interval edition (a plain class driven by [setInterval]), embedded
      in [Module V1];
    - the frame edition (an [EventEmitter] subclass driven by
      [requestAnimationFrame]), embedded in [Module V2].

    JavaScript numbers are modelled by [JsNum.num]: exact rationals extended
    with [NaN] and the two infinities.  Rounding and overflow of IEEE doubles
    and the sign of zero are not modelled.  Clock readings are passed to each method as
    arguments: all readings taken inside one synchronous call are one
    instant. *)

From Stdlib Require Import QArith Qround Lqa ZArith Lia Ascii String.
From stdpp Require Import gmap strings list pretty.
Local Close Scope Q_scope.

(** ** JavaScript numbers *)

Module JsNum.

Inductive num := NaN | NegInf | PosInf | Fin (q : Q).

Definition Qltb (x y : Q) : bool := negb (Qle_bool y x).

(** [a < b]; any comparison with [NaN] is false. *)
Definition lt (a b : num) : bool :=
  match a, b with
  | NaN, _ | _, NaN => false
  | Fin x, Fin y => Qltb x y
  | NegInf, NegInf => false
  | NegInf, _ => true
  | _, NegInf => false
  | PosInf, _ => false
  | Fin _, PosInf => true
  end.

Definition gt (a b : num) : bool := lt b a.

(** [a >= b] *)
Definition ge (a b : num) : bool :=
  match a, b with
  | NaN, _ | _, NaN => false
  | _, _ => negb (lt a b)
  end.

(** ToBoolean on a number: [NaN] and zero are falsy. *)
Definition truthy (a : num) : bool :=
  match a with
  | NaN => false
  | Fin q => negb (Qeq_bool q 0)
  | _ => true
  end.

Definition sgn (a : num) : Z :=
  match a with
  | NaN => 0
  | NegInf => -1
  | PosInf => 1
  | Fin q => Z.sgn (Qnum q)
  end.

Definition of_sign (z : Z) : num :=
  match z with
  | Z0 => NaN
  | Zpos _ => PosInf
  | Zneg _ => NegInf
  end.

Definition neg (a : num) : num :=
  match a with
  | NaN => NaN
  | NegInf => PosInf
  | PosInf => NegInf
  | Fin q => Fin (- q)
  end.

Definition add (a b : num) : num :=
  match a, b with
  | NaN, _ | _, NaN => NaN
  | Fin x, Fin y => Fin (x + y)
  | PosInf, NegInf | NegInf, PosInf => NaN
  | PosInf, _ | _, PosInf => PosInf
  | NegInf, _ | _, NegInf => NegInf
  end.

Definition sub (a b : num) : num := add a (neg b).

Definition mul (a b : num) : num :=
  match a, b with
  | NaN, _ | _, NaN => NaN
  | Fin x, Fin y => Fin (x * y)
  | _, _ => of_sign (sgn a * sgn b)
  end.

Definition div (a b : num) : num :=
  match a, b with
  | NaN, _ | _, NaN => NaN
  | Fin x, Fin y => if Qeq_bool y 0 then of_sign (sgn a) else Fin (x / y)
  | Fin _, _ => Fin 0
  | _, Fin y => if Qeq_bool y 0 then a else of_sign (sgn a * sgn b)
  | _, _ => NaN
  end.

(** Math.floor *)
Definition floor (a : num) : num :=
  match a with
  | Fin q => Fin (inject_Z (Qfloor q))
  | _ => a
  end.

(** Math.round: the nearest integer, ties towards +Infinity. *)
Definition round (a : num) : num :=
  match a with
  | Fin q => Fin (inject_Z (Qfloor (q + (1 # 2))))
  | _ => a
  end.

(** Math.max and Math.min of two arguments. *)
Definition max (a b : num) : num :=
  match a, b with
  | NaN, _ | _, NaN => NaN
  | _, _ => if lt a b then b else a
  end.

Definition min (a b : num) : num :=
  match a, b with
  | NaN, _ | _, NaN => NaN
  | _, _ => if lt b a then b else a
  end.

Definition Qtrunc (q : Q) : Z := Z.quot (Qnum q) (Zpos (Qden q)).

(** The remainder operator [%]: the result takes the sign of the dividend. *)
Definition rem (a b : num) : num :=
  match a, b with
  | Fin x, Fin y =>
      if Qeq_bool y 0 then NaN else Fin (x - y * inject_Z (Qtrunc (x / y)))
  | Fin x, (PosInf | NegInf) => Fin x
  | _, _ => NaN
  end.

Definition of_nat (n : nat) : num := Fin (inject_Z (Z.of_nat n)).

(** An array index: a non-negative integer.  Anything else used as an index
    reads [undefined]. *)
Definition to_index (a : num) : option nat :=
  match a with
  | Fin q =>
      let r := Qred q in
      if (Pos.eqb (Qden r) 1 && Z.leb 0 (Qnum r))%bool
      then Some (Z.to_nat (Qnum r)) else None
  | _ => None
  end.

(** Number of iterations of [for (let i = 0; i < b; i++)].  For [PosInf] the
    JavaScript loop does not terminate; no caller in the source passes it
    (see [batchSize_not_PosInf]). *)
Definition loopCount (b : num) : nat :=
  match b with
  | Fin q => Z.to_nat (Qceiling q)
  | _ => 0
  end.

End JsNum.

Export JsNum (num, NaN, NegInf, PosInf, Fin).

(** ** JavaScript values: option bags, exported reports *)

#[warnings="-register-all"]
Inductive JsVal :=
| VUndefined
| VNull
| VBool (b : bool)
| VNum (n : num)
| VStr (s : string)
| VObj (fields : list (string * JsVal)).

Definition JsObj := list (string * JsVal).

(** Plain objects used as string-keyed maps, in insertion order. *)
Section AList.
Context {A : Type}.

Fixpoint aget (o : list (string * A)) (k : string) : option A :=
  match o with
  | [] => None
  | (k', v) :: o' => if String.eqb k' k then Some v else aget o' k
  end.

(** [o[k] = v]: an existing key keeps its position. *)
Fixpoint aset (o : list (string * A)) (k : string) (v : A) : list (string * A) :=
  match o with
  | [] => [(k, v)]
  | (k', v') :: o' =>
      if String.eqb k' k then (k, v) :: o' else (k', v') :: aset o' k v
  end.

(** Object.values *)
Definition avalues (o : list (string * A)) : list A := map snd o.

(** Apply [f] to every value (a [forEach] that mutates each value). *)
Definition amap (f : A -> A) (o : list (string * A)) : list (string * A) :=
  map (fun kv => (fst kv, f (snd kv))) o.
End AList.

Definition getField (o : JsObj) (k : string) : option JsVal := aget o k.

(** [o[k]]: a missing property reads [undefined]. *)
Definition getProp (o : JsObj) (k : string) : JsVal :=
  match getField o k with
  | Some v => v
  | None => VUndefined
  end.

Definition setProp (o : JsObj) (k : string) (v : JsVal) : JsObj := aset o k v.

(** [{...a, ...b}] *)
Definition spread (a b : JsObj) : JsObj :=
  fold_left (fun acc kv => setProp acc (fst kv) (snd kv)) b a.

Definition typeof (v : JsVal) : string :=
  match v with
  | VUndefined => "undefined"
  | VNull => "object"
  | VBool _ => "boolean"
  | VNum _ => "number"
  | VStr _ => "string"
  | VObj _ => "object"
  end.

Definition truthy (v : JsVal) : bool :=
  match v with
  | VUndefined | VNull => false
  | VBool b => b
  | VNum n => JsNum.truthy n
  | VStr s => negb (String.eqb s "")
  | VObj _ => true
  end.

(** [a ?? b] *)
Definition nullish (a b : JsVal) : JsVal :=
  match a with
  | VUndefined | VNull => b
  | _ => a
  end.

(** [a || b] *)
Definition orElse (a b : JsVal) : JsVal := if truthy a then a else b.

(** *** StringToNumber

    The numeric value of a string: white space around a decimal literal
    (digits, fraction, exponent, sign, [Infinity]) or a binary, octal or
    hexadecimal integer literal; the empty string is 0 and anything else is
    [NaN].  Strings are ASCII text. *)

Module StrNum.

Definition isWhiteSpace (c : ascii) : bool :=
  let n := nat_of_ascii c in
  ((9 <=? n)%nat && (n <=? 13)%nat || (n =? 32)%nat)%bool.

Fixpoint skipWhiteSpace (t : string) : string :=
  match t with
  | String c t' => if isWhiteSpace c then skipWhiteSpace t' else t
  | EmptyString => EmptyString
  end.

Fixpoint allWhiteSpace (t : string) : bool :=
  match t with
  | String c t' => (isWhiteSpace c && allWhiteSpace t')%bool
  | EmptyString => true
  end.

(** The value of a digit in [base], if it is one. *)
Definition digitOf (base : Z) (c : ascii) : option Z :=
  let n := Z.of_nat (nat_of_ascii c) in
  let d :=
    if ((48 <=? n) && (n <=? 57))%Z%bool then Some (n - 48)%Z
    else if ((97 <=? n) && (n <=? 102))%Z%bool then Some (n - 87)%Z
    else if ((65 <=? n) && (n <=? 70))%Z%bool then Some (n - 55)%Z
    else None in
  match d with
  | Some v => if (v <? base)%Z then Some v else None
  | None => None
  end.

(** The longest run of digits at the head of [t]: its value, its length and
    what follows it. *)
Fixpoint readDigits (base : Z) (t : string) (acc : Z) (count : nat) : Z * nat * string :=
  match t with
  | String c t' =>
      match digitOf base c with
      | Some d => readDigits base t' (base * acc + d)%Z (S count)
      | None => (acc, count, t)
      end
  | EmptyString => (acc, count, t)
  end.

(** A binary, octal or hexadecimal integer literal, after its prefix. *)
Definition nonDecimal (base : Z) (t : string) : num :=
  let '(v, count, rest) := readDigits base t 0%Z 0%nat in
  if ((0 <? count)%nat && allWhiteSpace rest)%bool then Fin (inject_Z v) else NaN.

(** An exponent part, after its [e]. *)
Definition exponent (mantissa : Q) (t : string) : num :=
  let '(sign, t') :=
    match t with
    | String "+" r => (1%Z, r)
    | String "-" r => ((-1)%Z, r)
    | _ => (1%Z, t)
    end in
  let '(v, count, rest) := readDigits 10 t' 0%Z 0%nat in
  if ((0 <? count)%nat && allWhiteSpace rest)%bool
  then Fin (mantissa * Qpower (inject_Z 10) (sign * v))
  else NaN.

(** An unsigned decimal literal followed by white space. *)
Definition unsignedDecimal (t : string) : num :=
  if String.prefix "Infinity" t then
    if allWhiteSpace (String.substring 8 (String.length t - 8) t) then PosInf else NaN
  else
    let '(whole, n1, r1) := readDigits 10 t 0%Z 0%nat in
    let '(fraction, n2, r2) :=
      match r1 with
      | String "." r => readDigits 10 r 0%Z 0%nat
      | _ => (0%Z, 0%nat, r1)
      end in
    if (n1 + n2 =? 0)%nat then NaN
    else
      let mantissa :=
        (inject_Z whole + inject_Z fraction / inject_Z (10 ^ Z.of_nat n2))%Q in
      match r2 with
      | String "e" r | String "E" r => exponent mantissa r
      | _ => if allWhiteSpace r2 then Fin mantissa else NaN
      end.

Definition negate (n : num) : num :=
  match n with
  | NaN => NaN
  | NegInf => PosInf
  | PosInf => NegInf
  | Fin q => Fin (- q)
  end.

Definition stringToNumber (t : string) : num :=
  match skipWhiteSpace t with
  | EmptyString => Fin 0
  | String "+" r => unsignedDecimal r
  | String "-" r => negate (unsignedDecimal r)
  | String "0" (String "x" r) | String "0" (String "X" r) => nonDecimal 16 r
  | String "0" (String "o" r) | String "0" (String "O" r) => nonDecimal 8 r
  | String "0" (String "b" r) | String "0" (String "B" r) => nonDecimal 2 r
  | t' => unsignedDecimal t'
  end.

End StrNum.

(** ToNumber.  A plain object converts through ["[object Object]"], which is
    not numeric. *)
Definition toNumber (v : JsVal) : num :=
  match v with
  | VUndefined => NaN
  | VNull => Fin 0
  | VBool b => if b then Fin 1 else Fin 0
  | VNum n => n
  | VStr t => StrNum.stringToNumber t
  | VObj _ => NaN
  end.

Arguments StrNum.stringToNumber : simpl never.

(** ** Exceptions *)

Inductive ErrKind := KError | KTypeError | KRangeError.

Record Exn := mkExn { ekind : ErrKind; emsg : string }.

Inductive Outcome (A : Type) :=
| Ret (a : A)
| Throw (e : Exn).
Arguments Ret {A} a.
Arguments Throw {A} e.

(** ** The interval edition *)

Module V1.

Record Element := mkElement { textContent : string }.

(** One entry of [this.engagementData]. *)
Record Data := mkData {
  element : Element;
  timeSpent : Z;
  inView : bool;
  lastViewTimestamp : option Z;   (* [None] is [null] *)
  index : nat
}.

Record State := mkState {
  options : JsObj;
  paragraphs : list Element;
  engagementData : list (string * Data);   (* keyed by [p-<index>] *)
  isTracking : bool;
  trackingInterval : bool;                 (* the interval timer is armed *)
  scrollbarCreated : bool
}.

(** Truthiness of a timestamp: [null] and [0] are falsy. *)
Definition live (t : option Z) : bool :=
  match t with
  | Some z => negb (Z.eqb z 0)
  | None => false
  end.

Definition defaultColors : JsVal :=
  VObj [("low", VStr "#C6E2FF"); ("medium", VStr "#4F97FF"); ("high", VStr "#0047AB")].

Definition num_of_Z (z : Z) : num := Fin (inject_Z z).

(** [constructor(options = {})] *)
Definition constructor (opts : JsObj) : Outcome State :=
  let minT := getProp opts "minTimeThreshold" in
  let rate := getProp opts "samplingRate" in
  if (truthy minT && JsNum.lt (toNumber minT) (Fin 0))%bool then
    Throw (mkExn KError "minTimeThreshold must be non-negative")
  else if (truthy rate && JsNum.lt (toNumber rate) (Fin 0))%bool then
    Throw (mkExn KError "samplingRate must be non-negative")
  else
    Ret {| options :=
             [("minTimeThreshold", orElse minT (VNum (num_of_Z 1000)));
              ("samplingRate", orElse rate (VNum (num_of_Z 200)));
              ("heatmapContainer", orElse (getProp opts "heatmapContainer") VNull);
              ("heatmapHeight", orElse (getProp opts "heatmapHeight") (VNum (num_of_Z 30)));
              ("colors", orElse (getProp opts "colors") defaultColors)];
           paragraphs := [];
           engagementData := [];
           isTracking := false;
           trackingInterval := false;
           scrollbarCreated := false |}.

Definition paragraphId (i : nat) : string := "p-" +:+ pretty i.

Fixpoint initData (ps : list Element) (i : nat) (ed : list (string * Data))
  : list (string * Data) :=
  match ps with
  | [] => ed
  | p :: ps' =>
      initData ps' (S i)
        (aset ed (paragraphId i)
           {| element := p; timeSpent := 0%Z; inView := false;
              lastViewTimestamp := None; index := i |})
  end.

(** [init(container)]; [found] is the list of [p] elements of the resolved
    container, [None] when the container is not found. *)
Definition init (found : option (list Element)) (s : State) : State :=
  match found with
  | None => s
  | Some ps =>
      {| options := options s;
         paragraphs := ps;
         engagementData := initData ps 0 (engagementData s);
         isTracking := isTracking s;
         trackingInterval := trackingInterval s;
         scrollbarCreated := scrollbarCreated s |}
  end.

(** An IntersectionObserverEntry: the target's [dataset.highlightId] and the
    reported ratio. *)
Record Entry := mkEntry { targetId : string; intersectionRatio : Q }.

Definition withData (ed : list (string * Data)) (s : State) : State :=
  {| options := options s;
     paragraphs := paragraphs s;
     engagementData := ed;
     isTracking := isTracking s;
     trackingInterval := trackingInterval s;
     scrollbarCreated := scrollbarCreated s |}.

Definition onEntry (now : Z) (e : Entry) (d : Data) : Data :=
  let isNowVisible := Qle_bool (1 # 2) (intersectionRatio e) in
  if (isNowVisible && negb (inView d))%bool then
    {| element := element d; timeSpent := timeSpent d; inView := true;
       lastViewTimestamp := Some now; index := index d |}
  else if (negb isNowVisible && inView d)%bool then
    if live (lastViewTimestamp d) then
      {| element := element d;
         timeSpent := (timeSpent d + (now - default 0 (lastViewTimestamp d)))%Z;
         inView := false; lastViewTimestamp := None; index := index d |}
    else
      {| element := element d; timeSpent := timeSpent d; inView := false;
         lastViewTimestamp := lastViewTimestamp d; index := index d |}
  else d.

(** [handleIntersection(entries)] *)
Definition handleIntersection (now : Z) (entries : list Entry) (s : State) : State :=
  if negb (isTracking s) then s
  else
    withData
      (fold_left
         (fun ed e =>
            match aget ed (targetId e) with
            | None => ed
            | Some d => aset ed (targetId e) (onEntry now e d)
            end)
         entries (engagementData s))
      s.

(** [startTracking()] *)
Definition startTracking (s : State) : State :=
  if isTracking s then s
  else
    {| options := options s;
       paragraphs := paragraphs s;
       engagementData := engagementData s;
       isTracking := true;
       trackingInterval := true;
       scrollbarCreated := scrollbarCreated s |}.

(** A record with an open interval: in view, with a live timestamp. *)
Definition openInterval (d : Data) : bool := (inView d && live (lastViewTimestamp d))%bool.

Definition flush (now : Z) (d : Data) : Data :=
  if (inView d && live (lastViewTimestamp d))%bool then
    {| element := element d;
       timeSpent := (timeSpent d + (now - default 0 (lastViewTimestamp d)))%Z;
       inView := false; lastViewTimestamp := None; index := index d |}
  else d.

(** [stopTracking()] *)
Definition stopTracking (now : Z) (s : State) : State :=
  if negb (isTracking s) then s
  else
    {| options := options s;
       paragraphs := paragraphs s;
       engagementData := amap (flush now) (engagementData s);
       isTracking := false;
       trackingInterval := false;
       scrollbarCreated := scrollbarCreated s |}.

Definition tick (now : Z) (d : Data) : Data :=
  if (inView d && live (lastViewTimestamp d))%bool then
    {| element := element d;
       timeSpent := (timeSpent d + (now - default 0 (lastViewTimestamp d)))%Z;
       inView := inView d; lastViewTimestamp := Some now; index := index d |}
  else d.

(** [checkVisibility()], the interval callback. *)
Definition checkVisibility (now : Z) (s : State) : State :=
  withData (amap (tick now) (engagementData s)) s.

(** Math.max(...xs); the maximum of no argument is [-Infinity]. *)
Definition maxOf (xs : list num) : num := fold_right JsNum.max NegInf xs.

Definition exportEntry (d : Data) : JsObj :=
  [("index", VNum (JsNum.of_nat (index d)));
   ("timeSpent", VNum (num_of_Z (timeSpent d)));
   ("timeSpentSeconds",
      VNum (JsNum.round (JsNum.div (num_of_Z (timeSpent d)) (num_of_Z 1000))));
   ("text", VStr (String.substring 0 50 (textContent (element d)) +:+ "..."));
   ("normalizedEngagement", VNum (Fin 0))].

Definition entryTime (e : JsObj) : num := toNumber (getProp e "timeSpent").

Definition normalize (maxTime : num) (e : JsObj) : JsObj :=
  setProp e "normalizedEngagement" (VNum (JsNum.div (entryTime e) maxTime)).

(** The first loop of [exportData]: one entry per record. *)
Definition collect (s : State) : list (string * JsObj) :=
  fold_left (fun r kd => aset r (fst kd) (exportEntry (snd kd))) (engagementData s) [].

(** [Math.max(...Object.values(result).map(d => d.timeSpent))] *)
Definition maxTime (s : State) : num := maxOf (map entryTime (avalues (collect s))).

(** [exportData()] *)
Definition exportData (s : State) : list (string * JsObj) :=
  if JsNum.gt (maxTime s) (Fin 0) then amap (normalize (maxTime s)) (collect s)
  else collect s.

End V1.

(** ** The frame edition *)

Module V2.

(** A DOM node is known by its identity; what the tracker reads or writes of
    it is kept in the [dom] store of the state. *)
Definition Elem := nat.

Record Node := mkNode {
  nodeName : string;              (* also [tagName] *)
  highlightId : option string;    (* [dataset.highlightId]; [None] is [undefined] *)
  textContent : string;
  className : string
}.

(** A node the page has said nothing about is read as a bare paragraph. *)
Definition blankNode : Node :=
  {| nodeName := "P"; highlightId := None; textContent := ""; className := "" |}.

(** One value of the [engagementData] WeakMap. *)
Record Data := mkData {
  visibleRatio : Q;
  timeSpent : Q;
  weightedTime : Q;
  lastUpdate : option Q;          (* [None] is [null] *)
  inView : bool
}.

Definition emptyData (stamp : option Q) : Data :=
  {| visibleRatio := 0; timeSpent := 0; weightedTime := 0;
     lastUpdate := stamp; inView := false |}.

(** Truthiness of [data.lastUpdate]: [null] and [0] are falsy. *)
Definition live (t : option Q) : bool :=
  match t with
  | Some q => negb (Qeq_bool q 0)
  | None => false
  end.

(** A record with an open interval: in view, with a live stamp. *)
Definition openInterval (data : Data) : bool := (inView data && live (lastUpdate data))%bool.

(** Events of the emitter, with the payload fields the statements use. *)
Inductive Event :=
| EvVisibilityChange (visible : bool)
| EvUnload (data : list (string * JsObj))
| EvReady (paragraphCount : nat)
| EvWarning (message : string)
| EvError (message : string) (error : Exn)
| EvTrackingStarted
| EvTrackingStopped (duration : Q)
| EvHeatmapCreated
| EvHeatmapHidden
| EvDestroyed.

Definition eventName (ev : Event) : string :=
  match ev with
  | EvVisibilityChange _ => "visibilityChange"
  | EvUnload _ => "unload"
  | EvReady _ => "ready"
  | EvWarning _ => "warning"
  | EvError _ _ => "error"
  | EvTrackingStarted => "trackingStarted"
  | EvTrackingStopped _ => "trackingStopped"
  | EvHeatmapCreated => "heatmapCreated"
  | EvHeatmapHidden => "heatmapHidden"
  | EvDestroyed => "destroyed"
  end.

(** A registered listener, by what calling it does to control flow.
    Listeners are taken not to call back into the tracker. *)
Inductive Listener := Returns | Throws (e : Exn).

(** [this.heatmapContainer] *)
Inductive Mount := NoMount | ProvidedMount | CreatedMount.

Record State := mkState {
  options : JsObj;
  paragraphs : list Elem;
  engagementData : gmap Elem Data;
  dom : gmap Elem Node;
  observer : option (list Elem);   (* IntersectionObserver and its targets *)
  resizeObserver : bool;
  mutationObserver : bool;
  rafId : bool;                    (* a frame callback is pending *)
  tabVisible : bool;
  isTracking : bool;
  trackingStartTime : Q;
  lastProcessedIndex : num;
  lastFrameTime : option Q;        (* [None] is [undefined] *)
  heatmapVisible : bool;
  heatmapContainer : Mount;
  maxEngagement : Q;
  globalListeners : bool;          (* visibilitychange and beforeunload hooks *)
  listeners : list (string * Listener);
  emitted : list Event             (* every [emit] call, newest first *)
}.

Definition set_paragraphs (v : list Elem) (s : State) : State :=
  mkState (options s) v (engagementData s) (dom s) (observer s) (resizeObserver s)
    (mutationObserver s) (rafId s) (tabVisible s) (isTracking s) (trackingStartTime s)
    (lastProcessedIndex s) (lastFrameTime s) (heatmapVisible s) (heatmapContainer s)
    (maxEngagement s) (globalListeners s) (listeners s) (emitted s).

Definition set_engagementData (v : gmap Elem Data) (s : State) : State :=
  mkState (options s) (paragraphs s) v (dom s) (observer s) (resizeObserver s)
    (mutationObserver s) (rafId s) (tabVisible s) (isTracking s) (trackingStartTime s)
    (lastProcessedIndex s) (lastFrameTime s) (heatmapVisible s) (heatmapContainer s)
    (maxEngagement s) (globalListeners s) (listeners s) (emitted s).

Definition set_dom (v : gmap Elem Node) (s : State) : State :=
  mkState (options s) (paragraphs s) (engagementData s) v (observer s) (resizeObserver s)
    (mutationObserver s) (rafId s) (tabVisible s) (isTracking s) (trackingStartTime s)
    (lastProcessedIndex s) (lastFrameTime s) (heatmapVisible s) (heatmapContainer s)
    (maxEngagement s) (globalListeners s) (listeners s) (emitted s).

Definition set_observer (v : option (list Elem)) (s : State) : State :=
  mkState (options s) (paragraphs s) (engagementData s) (dom s) v (resizeObserver s)
    (mutationObserver s) (rafId s) (tabVisible s) (isTracking s) (trackingStartTime s)
    (lastProcessedIndex s) (lastFrameTime s) (heatmapVisible s) (heatmapContainer s)
    (maxEngagement s) (globalListeners s) (listeners s) (emitted s).

Definition set_resizeObserver (v : bool) (s : State) : State :=
  mkState (options s) (paragraphs s) (engagementData s) (dom s) (observer s) v
    (mutationObserver s) (rafId s) (tabVisible s) (isTracking s) (trackingStartTime s)
    (lastProcessedIndex s) (lastFrameTime s) (heatmapVisible s) (heatmapContainer s)
    (maxEngagement s) (globalListeners s) (listeners s) (emitted s).

Definition set_mutationObserver (v : bool) (s : State) : State :=
  mkState (options s) (paragraphs s) (engagementData s) (dom s) (observer s)
    (resizeObserver s) v (rafId s) (tabVisible s) (isTracking s) (trackingStartTime s)
    (lastProcessedIndex s) (lastFrameTime s) (heatmapVisible s) (heatmapContainer s)
    (maxEngagement s) (globalListeners s) (listeners s) (emitted s).

Definition set_rafId (v : bool) (s : State) : State :=
  mkState (options s) (paragraphs s) (engagementData s) (dom s) (observer s)
    (resizeObserver s) (mutationObserver s) v (tabVisible s) (isTracking s)
    (trackingStartTime s) (lastProcessedIndex s) (lastFrameTime s) (heatmapVisible s)
    (heatmapContainer s) (maxEngagement s) (globalListeners s) (listeners s) (emitted s).

Definition set_tabVisible (v : bool) (s : State) : State :=
  mkState (options s) (paragraphs s) (engagementData s) (dom s) (observer s)
    (resizeObserver s) (mutationObserver s) (rafId s) v (isTracking s)
    (trackingStartTime s) (lastProcessedIndex s) (lastFrameTime s) (heatmapVisible s)
    (heatmapContainer s) (maxEngagement s) (globalListeners s) (listeners s) (emitted s).

Definition set_isTracking (v : bool) (s : State) : State :=
  mkState (options s) (paragraphs s) (engagementData s) (dom s) (observer s)
    (resizeObserver s) (mutationObserver s) (rafId s) (tabVisible s) v
    (trackingStartTime s) (lastProcessedIndex s) (lastFrameTime s) (heatmapVisible s)
    (heatmapContainer s) (maxEngagement s) (globalListeners s) (listeners s) (emitted s).

Definition set_trackingStartTime (v : Q) (s : State) : State :=
  mkState (options s) (paragraphs s) (engagementData s) (dom s) (observer s)
    (resizeObserver s) (mutationObserver s) (rafId s) (tabVisible s) (isTracking s)
    v (lastProcessedIndex s) (lastFrameTime s) (heatmapVisible s)
    (heatmapContainer s) (maxEngagement s) (globalListeners s) (listeners s) (emitted s).

Definition set_lastProcessedIndex (v : num) (s : State) : State :=
  mkState (options s) (paragraphs s) (engagementData s) (dom s) (observer s)
    (resizeObserver s) (mutationObserver s) (rafId s) (tabVisible s) (isTracking s)
    (trackingStartTime s) v (lastFrameTime s) (heatmapVisible s)
    (heatmapContainer s) (maxEngagement s) (globalListeners s) (listeners s) (emitted s).

Definition set_heatmapVisible (v : bool) (s : State) : State :=
  mkState (options s) (paragraphs s) (engagementData s) (dom s) (observer s)
    (resizeObserver s) (mutationObserver s) (rafId s) (tabVisible s) (isTracking s)
    (trackingStartTime s) (lastProcessedIndex s) (lastFrameTime s) v
    (heatmapContainer s) (maxEngagement s) (globalListeners s) (listeners s) (emitted s).

Definition set_heatmapContainer (v : Mount) (s : State) : State :=
  mkState (options s) (paragraphs s) (engagementData s) (dom s) (observer s)
    (resizeObserver s) (mutationObserver s) (rafId s) (tabVisible s) (isTracking s)
    (trackingStartTime s) (lastProcessedIndex s) (lastFrameTime s) (heatmapVisible s)
    v (maxEngagement s) (globalListeners s) (listeners s) (emitted s).

Definition set_maxEngagement (v : Q) (s : State) : State :=
  mkState (options s) (paragraphs s) (engagementData s) (dom s) (observer s)
    (resizeObserver s) (mutationObserver s) (rafId s) (tabVisible s) (isTracking s)
    (trackingStartTime s) (lastProcessedIndex s) (lastFrameTime s) (heatmapVisible s)
    (heatmapContainer s) v (globalListeners s) (listeners s) (emitted s).

Definition set_globalListeners (v : bool) (s : State) : State :=
  mkState (options s) (paragraphs s) (engagementData s) (dom s) (observer s)
    (resizeObserver s) (mutationObserver s) (rafId s) (tabVisible s) (isTracking s)
    (trackingStartTime s) (lastProcessedIndex s) (lastFrameTime s) (heatmapVisible s)
    (heatmapContainer s) (maxEngagement s) v (listeners s) (emitted s).

Definition set_listeners (v : list (string * Listener)) (s : State) : State :=
  mkState (options s) (paragraphs s) (engagementData s) (dom s) (observer s)
    (resizeObserver s) (mutationObserver s) (rafId s) (tabVisible s) (isTracking s)
    (trackingStartTime s) (lastProcessedIndex s) (lastFrameTime s) (heatmapVisible s)
    (heatmapContainer s) (maxEngagement s) (globalListeners s) v (emitted s).

Definition set_emitted (v : list Event) (s : State) : State :=
  mkState (options s) (paragraphs s) (engagementData s) (dom s) (observer s)
    (resizeObserver s) (mutationObserver s) (rafId s) (tabVisible s) (isTracking s)
    (trackingStartTime s) (lastProcessedIndex s) (lastFrameTime s) (heatmapVisible s)
    (heatmapContainer s) (maxEngagement s) (globalListeners s) (listeners s) v.

(** *** Methods that may throw: state passing with an outcome

    A method maps the state to an outcome and the state it leaves behind; the
    mutations done before a [throw] stay. *)

Definition M (A : Type) : Type := State -> Outcome A * State.

Definition ret {A} (a : A) : M A := fun s => (Ret a, s).

Definition throw {A} (e : Exn) : M A := fun s => (Throw e, s).

Definition bind {A B} (m : M A) (k : A -> M B) : M B :=
  fun s =>
    match m s with
    | (Ret a, s') => k a s'
    | (Throw e, s') => (Throw e, s')
    end.

Definition modify (f : State -> State) : M unit := fun s => (Ret tt, f s).

Definition gets {A} (f : State -> A) : M A := fun s => (Ret (f s), s).

(** [try { body } catch (error) { handler(error) }] *)
Definition tryCatch {A} (body : M A) (handler : Exn -> M A) : M A :=
  fun s =>
    match body s with
    | (Ret a, s') => (Ret a, s')
    | (Throw e, s') => handler e s'
    end.

#[global] Instance M_ret : MRet M := @ret.
#[global] Instance M_bind : MBind M := fun A B k m => bind m k.

Definition when (b : bool) (m : M unit) : M unit := if b then m else ret tt.

(** *** The emitter

    After the [events] package, which is imported and not part of the
    sources: [on] appends a listener; [emit] calls the listeners of the event
    in registration order and lets what they throw escape; emitting ["error"]
    with no listener registered throws. *)

Definition on (name : string) (l : Listener) (s : State) : State :=
  set_listeners (listeners s ++ [(name, l)]) s.

Definition listenersOf (name : string) (s : State) : list Listener :=
  map snd (filter (fun kl => String.eqb (fst kl) name) (listeners s)).

Fixpoint callAll (ls : list Listener) : option Exn :=
  match ls with
  | [] => None
  | Returns :: ls' => callAll ls'
  | Throws e :: _ => Some e
  end.

Definition unhandled (ev : Event) : Exn :=
  match ev with
  | EvError message _ => mkExn KError ("Unhandled error. (" +:+ message +:+ ")")
  | _ => mkExn KError "Unhandled error."
  end.

Definition emit (ev : Event) : M bool :=
  fun s =>
    let s' := set_emitted (ev :: emitted s) s in
    match listenersOf (eventName ev) s with
    | [] =>
        if String.eqb (eventName ev) "error" then (Throw (unhandled ev), s')
        else (Ret false, s')
    | ls =>
        match callAll ls with
        | Some e => (Throw e, s')
        | None => (Ret true, s')
        end
    end.

(** *** Construction *)

Record Config := mkConfig {
  ctype : string;
  cmin : option num;
  cmax : option num;
  cdefault : JsVal
}.

Definition defaultColors : JsVal :=
  VObj [("low", VStr "#C6E2FF"); ("medium", VStr "#4F97FF"); ("high", VStr "#0047AB")].

Definition validationSchema : list (string * Config) :=
  [("minTimeThreshold", mkConfig "number" (Some (Fin 0)) None (VNum (Fin 1000)));
   ("samplingRate", mkConfig "number" (Some (Fin 10)) (Some (Fin 1000)) (VNum (Fin 200)));
   ("visibilityThreshold", mkConfig "number" (Some (Fin 0)) (Some (Fin 1)) (VNum (Fin (1 # 2))));
   ("colors", mkConfig "object" None None defaultColors);
   ("heatmapContainer", mkConfig "string" None None VNull)].

(** A number inside a template string; the bounds of the schema are
    integers, other finite values are shown as a fraction. *)
Definition showNum (n : num) : string :=
  match n with
  | NaN => "NaN"
  | PosInf => "Infinity"
  | NegInf => "-Infinity"
  | Fin q =>
      let r := Qred q in
      if Pos.eqb (Qden r) 1 then pretty (Qnum r)
      else pretty (Qnum r) +:+ "/" +:+ pretty (Zpos (Qden r))
  end.

Definition fieldsOf (v : JsVal) : JsObj :=
  match v with
  | VObj f => f
  | _ => []
  end.

Definition isNull (v : JsVal) : bool :=
  match v with
  | VNull => true
  | _ => false
  end.

Definition belowMin (config : Config) (value : JsVal) : bool :=
  match cmin config with
  | Some m => negb (isNull value) && JsNum.lt (toNumber value) m
  | None => false
  end.

Definition aboveMax (config : Config) (value : JsVal) : bool :=
  match cmax config with
  | Some m => negb (isNull value) && JsNum.gt (toNumber value) m
  | None => false
  end.

(** The body of the loop of [validateOptions] for one schema entry. *)
Definition validateOption (key : string) (config : Config) (input : JsObj)
  : Outcome JsVal :=
  let value := getProp input key in
  let merged :=
    if (String.eqb (ctype config) "object" && truthy value)%bool then
      if negb (String.eqb (typeof value) "object") then
        Throw (mkExn KTypeError (key +:+ " must be an object"))
      else Ret (VObj (spread (fieldsOf (cdefault config)) (fieldsOf value)))
    else Ret (nullish value (cdefault config)) in
  match merged with
  | Throw e => Throw e
  | Ret value =>
      if (negb (isNull value) && negb (String.eqb (ctype config) "object")
          && negb (String.eqb (typeof value) (ctype config)))%bool then
        Throw (mkExn KTypeError (key +:+ " must be " +:+ ctype config))
      else if belowMin config value then
        Throw (mkExn KRangeError
                 (key +:+ " cannot be less than " +:+ showNum (default NaN (cmin config))))
      else if aboveMax config value then
        Throw (mkExn KRangeError
                 (key +:+ " cannot be greater than " +:+ showNum (default NaN (cmax config))))
      else Ret value
  end.

(** [validateOptions(input, schema)] *)
Fixpoint validateFrom (input : JsObj) (schema : list (string * Config)) (acc : JsObj)
  : Outcome JsObj :=
  match schema with
  | [] => Ret acc
  | (key, config) :: schema' =>
      match validateOption key config input with
      | Throw e => Throw e
      | Ret value => validateFrom input schema' (setProp acc key value)
      end
  end.

Definition validateOptions (input : JsObj) (schema : list (string * Config))
  : Outcome JsObj :=
  validateFrom input schema [].

(** [initializeState()] followed by [setupEventListeners()].  The property
    [lastFrameTime] is assigned nowhere in the class: it reads [undefined]. *)
Definition initializeState (opts : JsObj) : State :=
  {| options := opts;
     paragraphs := [];
     engagementData := ∅;
     dom := ∅;
     observer := None;
     resizeObserver := false;
     mutationObserver := false;
     rafId := false;
     tabVisible := true;
     isTracking := false;
     trackingStartTime := 0;
     lastProcessedIndex := Fin 0;
     lastFrameTime := None;
     heatmapVisible := false;
     heatmapContainer := NoMount;
     maxEngagement := 0;
     globalListeners := true;
     listeners := [];
     emitted := [] |}.

(** [constructor(options = {})]: a throw leaves no instance. *)
Definition constructor (opts : JsObj) : Outcome State :=
  match validateOptions opts validationSchema with
  | Throw e => Throw e
  | Ret o => Ret (initializeState o)
  end.

Definition visibilityThreshold (s : State) : num :=
  toNumber (getProp (options s) "visibilityThreshold").

Definition minTimeThreshold (s : State) : num :=
  toNumber (getProp (options s) "minTimeThreshold").

(** *** Time accrual *)

Definition nodeAt (s : State) (e : Elem) : Node := default blankNode (dom s !! e).

Definition idTruthy (o : option string) : bool :=
  match o with
  | Some i => negb (String.eqb i "")
  | None => false
  end.

Definition stamp (now : Q) (data : Data) : Data :=
  {| visibleRatio := visibleRatio data; timeSpent := timeSpent data;
     weightedTime := weightedTime data; lastUpdate := Some now;
     inView := inView data |}.

(** [this.paragraphs.forEach(p => { data = get(p); if (data) data.lastUpdate = now })] *)
Definition stampAll (now : Q) (s : State) : State :=
  set_engagementData
    (fold_left (fun ed p => alter (stamp now) p ed) (paragraphs s) (engagementData s)) s.

(** [handleVisibilityChange]; [visible] is [document.visibilityState === 'visible']. *)
Definition handleVisibilityChange (now : Q) (visible : bool) : M unit :=
  modify (set_tabVisible visible);;
  when visible (modify (stampAll now));;
  emit (EvVisibilityChange visible);;
  mret tt.

Record Entry := mkEntry {
  target : Elem;
  intersectionRatio : Q;
  isIntersecting : bool
}.

Definition onEntry (now : Q) (s : State) (entry : Entry) : State :=
  match engagementData s !! target entry with
  | None => s
  | Some data =>
      let ratio := intersectionRatio entry in
      let seen := isIntersecting entry in
      let delta := (now - default 0 (lastUpdate data))%Q in
      if (live (lastUpdate data) && (seen && isTracking s))%bool then
        let spent := (timeSpent data + delta)%Q in
        let s' :=
          set_engagementData
            (<[target entry :=
                 {| visibleRatio := ratio; timeSpent := spent;
                    weightedTime := (weightedTime data + delta * ratio)%Q;
                    lastUpdate := Some now; inView := seen |}]> (engagementData s)) s in
        if JsNum.Qltb (maxEngagement s) spent then set_maxEngagement spent s' else s'
      else
        set_engagementData
          (<[target entry :=
               {| visibleRatio := ratio; timeSpent := timeSpent data;
                  weightedTime := weightedTime data;
                  lastUpdate := Some now; inView := seen |}]> (engagementData s)) s
  end.

(** [handleIntersection(entries)] *)
Definition handleIntersection (now : Q) (entries : list Entry) (s : State) : State :=
  if negb (tabVisible s) then s
  else fold_left (onEntry now) entries s.

(** One turn of the loop of [processBatch]. *)
Definition processOne (now : Q) (s : State) (i : nat) : State :=
  let index :=
    JsNum.rem (JsNum.add (lastProcessedIndex s) (JsNum.of_nat i))
      (JsNum.of_nat (length (paragraphs s))) in
  match JsNum.to_index index ≫= (fun k => paragraphs s !! k) with
  | None => s
  | Some paragraph =>
      match engagementData s !! paragraph with
      | None => s
      | Some data =>
          let delta := (now - default 0 (lastUpdate data))%Q in
          if (JsNum.ge (Fin (visibleRatio data)) (visibilityThreshold s)
              && live (lastUpdate data))%bool then
            let spent := (timeSpent data + delta)%Q in
            let s' :=
              set_engagementData
                (<[paragraph :=
                     {| visibleRatio := visibleRatio data; timeSpent := spent;
                        weightedTime := (weightedTime data + delta * visibleRatio data)%Q;
                        lastUpdate := Some now; inView := inView data |}]>
                   (engagementData s)) s in
            if JsNum.Qltb (maxEngagement s) spent then set_maxEngagement spent s' else s'
          else
            set_engagementData (<[paragraph := stamp now data]> (engagementData s)) s
      end
  end.

(** [processBatch(batchSize)] *)
Definition processBatch (now : Q) (batchSize : num) (s : State) : State :=
  let s' := fold_left (processOne now) (seq 0 (JsNum.loopCount batchSize)) s in
  set_lastProcessedIndex
    (JsNum.rem (JsNum.add (lastProcessedIndex s') batchSize)
       (JsNum.of_nat (length (paragraphs s')))) s'.

Definition readFrameTime (s : State) : num :=
  match lastFrameTime s with
  | Some t => Fin t
  | None => NaN
  end.

(** The batch size computed by [trackingFrame]. *)
Definition batchSize (now : Q) (s : State) : num :=
  let targetFrameTime := Fin 16 in
  let measuredFrameTime := JsNum.sub (Fin now) (readFrameTime s) in
  JsNum.min
    (JsNum.floor (JsNum.mul (Fin 5) (JsNum.div targetFrameTime measuredFrameTime)))
    (JsNum.of_nat (length (paragraphs s))).

(** [trackingFrame], the animation-frame callback. *)
Definition trackingFrame (now : Q) (s : State) : State :=
  if (negb (isTracking s) || negb (tabVisible s))%bool then set_rafId true s
  else set_rafId true (processBatch now (batchSize now s) s).

(** [startTracking()] *)
Definition startTracking (now : Q) : M unit :=
  fun s =>
    if isTracking s then (Ret tt, s)
    else
      (modify (set_isTracking true);;
       modify (set_trackingStartTime now);;
       modify (stampAll now);;
       modify (trackingFrame now);;
       emit EvTrackingStarted;;
       mret tt) s.

(** [stopTracking()] *)
Definition stopTracking (now : Q) : M unit :=
  fun s =>
    if negb (isTracking s) then (Ret tt, s)
    else
      (modify (set_isTracking false);;
       modify (set_rafId false);;
       emit (EvTrackingStopped (now - trackingStartTime s)%Q);;
       mret tt) s.

(** *** Export *)

Definition isSpace (c : ascii) : bool :=
  let n := nat_of_ascii c in
  ((9 <=? n)%nat && (n <=? 13)%nat || (n =? 32)%nat)%bool.

Fixpoint trimStart (t : string) : string :=
  match t with
  | String c t' => if isSpace c then trimStart t' else t
  | EmptyString => EmptyString
  end.

Fixpoint trimEnd (t : string) : string :=
  match t with
  | String c t' =>
      match trimEnd t' with
      | EmptyString => if isSpace c then EmptyString else String c EmptyString
      | r => String c r
      end
  | EmptyString => EmptyString
  end.

Fixpoint escapeAngles (t : string) : string :=
  match t with
  | String c t' =>
      if Ascii.eqb c "<"%char then "&lt;" +:+ escapeAngles t'
      else if Ascii.eqb c ">"%char then "&gt;" +:+ escapeAngles t'
      else String c (escapeAngles t')
  | EmptyString => EmptyString
  end.

(** [sanitizeText(text)]; [trim] removes ASCII white space. *)
Definition sanitizeText (text : string) : string :=
  trimEnd (trimStart (escapeAngles (String.substring 0 100 text))).

(** A property key made of [dataset.highlightId]. *)
Definition idKey (o : option string) : string := default "undefined" o.

(** The body of the [forEach] of [exportData]. *)
Definition exportOne (now : Q) (acc : list (string * JsObj) * State) (element : Elem)
  : list (string * JsObj) * State :=
  let (result, s) := acc in
  match engagementData s !! element with
  | None => acc
  | Some data =>
      let delta := (now - default 0 (lastUpdate data))%Q in
      let data' :=
        if ((live (lastUpdate data) && isTracking s)
            && JsNum.ge (Fin (visibleRatio data)) (visibilityThreshold s))%bool then
          {| visibleRatio := visibleRatio data;
             timeSpent := (timeSpent data + delta * visibleRatio data)%Q;
             weightedTime := (weightedTime data + delta * visibleRatio data)%Q;
             lastUpdate := lastUpdate data; inView := inView data |}
        else data in
      let adjustedTime :=
        JsNum.max (JsNum.sub (Fin (timeSpent data')) (minTimeThreshold s)) (Fin 0) in
      let node := nodeAt s element in
      (aset result (idKey (highlightId node))
         [("rawTime", VNum (JsNum.round (Fin (timeSpent data'))));
          ("adjustedTime", VNum (JsNum.round adjustedTime));
          ("weightedTime", VNum (JsNum.round (Fin (weightedTime data'))));
          ("text", VStr (sanitizeText (textContent node)));
          ("visibleRatio", VNum (Fin (visibleRatio data')));
          ("element", VObj [("tagName", VStr (nodeName node));
                            ("className", VStr (className node))])],
       set_engagementData (<[element := data']> (engagementData s)) s)
  end.

(** [exportData()]: the report, and the state with the records it updated. *)
Definition exportData (now : Q) (s : State) : list (string * JsObj) * State :=
  fold_left (exportOne now) (paragraphs s) ([], s).

(** [handleUnload] *)
Definition handleUnload (now : Q) : M unit :=
  fun s =>
    if isTracking s then
      tryCatch
        (data ← (fun s0 => let (r, s1) := exportData now s0 in (Ret r, s1));
         emit (EvUnload data);;
         mret tt)
        (fun _ => mret tt) s
    else (Ret tt, s).

(** *** Heat map input *)

Inductive Band := Low | Medium | High.

(** [intensity] of [_updateHeatmap] *)
Definition intensity (s : State) (data : Data) : Q :=
  if JsNum.Qltb 0 (maxEngagement s) then (timeSpent data / maxEngagement s)%Q else 0%Q.

Definition band (i : Q) : Band :=
  if JsNum.Qltb i (33 # 100) then Low
  else if JsNum.Qltb i (66 # 100) then Medium
  else High.

Record Segment := mkSegment {
  paragraphId : option string;
  segIntensity : Q;
  segBand : Band
}.

(** The segments built by [_updateHeatmap], in the order of [paragraphs]
    (the source sorts them by their position on the page, which is not part
    of this model); [None] when there is no mount point. *)
Definition _updateHeatmap (s : State) : option (list Segment) :=
  match heatmapContainer s with
  | NoMount => None
  | _ =>
      Some (omap
              (fun paragraph =>
                 data ← engagementData s !! paragraph;
                 Some {| paragraphId := highlightId (nodeAt s paragraph);
                         segIntensity := intensity s data;
                         segBand := band (intensity s data) |})
              (paragraphs s))
  end.

(** [createHeatmap()] *)
Definition createHeatmap : M unit :=
  modify (fun s =>
            match heatmapContainer s with
            | NoMount => set_heatmapContainer CreatedMount s
            | _ => s
            end);;
  modify (set_heatmapVisible true);;
  emit EvHeatmapCreated;;
  mret tt.

(** [hideHeatmap()] *)
Definition hideHeatmap : M unit :=
  fun s =>
    match heatmapContainer s with
    | NoMount => (Ret tt, s)
    | _ => (modify (set_heatmapVisible false);; emit EvHeatmapHidden;; mret tt) s
    end.

(** *** Tracked set: initialisation, mutation, teardown *)

Definition setId (i : option string) (n : Node) : Node :=
  {| nodeName := nodeName n; highlightId := i;
     textContent := textContent n; className := className n |}.

(** [`p-${Date.now()}-${index}`] *)
Definition freshId (dateNow : Z) (index : nat) : string :=
  "p-" +:+ pretty dateNow +:+ "-" +:+ pretty index.

(** [cleanupPrevious()] *)
Definition cleanupPrevious (now : Q) : M unit :=
  tracking ← gets isTracking;
  when tracking (stopTracking now);;
  modify (set_observer None);;
  modify (set_resizeObserver false);;
  modify (fun s =>
            match heatmapContainer s with
            | NoMount => s
            | _ =>
                if negb (truthy (getProp (options s) "heatmapContainer"))
                then set_heatmapContainer NoMount s
                else s
            end);;
  modify (set_paragraphs []);;
  modify (set_engagementData ∅);;
  modify (set_maxEngagement 0).

(** The argument of [init], with what the document answers to the queries
    made on it: the [p] elements under the container. *)
Inductive ContainerArg :=
| CSelector (selector : string) (found : option (list Elem))
| CElement (found : list Elem)
| COther.

(** [validateContainer(container)] then [container.querySelectorAll('p')] *)
Definition validateContainer (container : ContainerArg) : M (list Elem) :=
  match container with
  | CSelector selector None =>
      throw (mkExn KError ("Container not found: " +:+ selector))
  | CSelector _ (Some ps) => mret ps
  | CElement ps => mret ps
  | COther => throw (mkExn KTypeError "Container must be a CSS selector or HTMLElement")
  end.

Fixpoint assignIds (dateNow : Z) (ps : list Elem) (index : nat) (d : gmap Elem Node)
  : gmap Elem Node :=
  match ps with
  | [] => d
  | p :: ps' =>
      let n := default blankNode (d !! p) in
      assignIds dateNow ps' (S index)
        (if idTruthy (highlightId n) then d
         else <[p := setId (Some (freshId dateNow index)) n]> d)
  end.

(** [getParagraphs(container)] *)
Definition getParagraphs (dateNow : Z) (ps : list Elem) : M (list Elem) :=
  when (bool_decide (length ps = 0%nat))
    (emit (EvWarning "No paragraphs found in container");; mret tt);;
  modify (fun s => set_dom (assignIds dateNow ps 0 (dom s)) s);;
  mret ps.

(** [initializeEngagementData()] *)
Definition initializeEngagementData (s : State) : State :=
  set_engagementData
    (fold_left (fun ed p => <[p := emptyData None]> ed) (paragraphs s) (engagementData s)) s.

(** [setupObservers()]; creating and attaching the observers does not throw. *)
Definition setupObservers (s : State) : State :=
  set_observer (Some (paragraphs s)) (set_mutationObserver true (set_resizeObserver true s)).

(** [setupHeatmapContainer()]; [mountFound] tells whether the selector of the
    option resolves. *)
Definition setupHeatmapContainer (mountFound : bool) : M unit :=
  fun s =>
    let sel := getProp (options s) "heatmapContainer" in
    if truthy sel then
      if mountFound then (Ret tt, set_heatmapContainer ProvidedMount s)
      else
        (Throw (mkExn KError
                  ("Heatmap container not found: "
                   +:+ match sel with VStr t => t | _ => "" end)), s)
    else (Ret tt, s).

(** [init(container)] *)
Definition init (dateNow : Z) (now : Q) (container : ContainerArg) (mountFound : bool)
  : M unit :=
  tryCatch
    (cleanupPrevious now;;
     found ← validateContainer container;
     ps ← getParagraphs dateNow found;
     modify (set_paragraphs ps);;
     modify initializeEngagementData;;
     modify setupObservers;;
     setupHeatmapContainer mountFound;;
     count ← gets (fun s => length (paragraphs s));
     emit (EvReady count);;
     mret tt)
    (fun error => emit (EvError "Initialization failed" error);; throw error).

Record Mutation := mkMutation {
  addedNodes : list Elem;
  removedNodes : list Elem
}.

Fixpoint forEach {A} (f : A -> M unit) (l : list A) : M unit :=
  match l with
  | [] => mret tt
  | x :: l' => f x;; forEach f l'
  end.

(** The callback over [mutation.addedNodes]. *)
Definition addNode (dateNow : Z) (now : Q) (node : Elem) : M unit :=
  fun s =>
    if String.eqb (nodeName (nodeAt s node)) "P" then
      let id := freshId dateNow (length (paragraphs s)) in
      let s1 := set_dom (<[node := setId (Some id) (nodeAt s node)]> (dom s)) s in
      let s2 := set_paragraphs (paragraphs s ++ [node]) s1 in
      let s3 :=
        set_engagementData
          (<[node := emptyData (if isTracking s then Some now else None)]>
             (engagementData s)) s2 in
      match observer s with
      | Some targets => (Ret tt, set_observer (Some (targets ++ [node])) s3)
      | None =>
          (Throw (mkExn KTypeError "Cannot read properties of null (reading 'observe')"), s3)
      end
    else (Ret tt, s).

(** The callback over [mutation.removedNodes]. *)
Definition removeNode (node : Elem) (s : State) : State :=
  let n := nodeAt s node in
  if (String.eqb (nodeName n) "P" && idTruthy (highlightId n))%bool then
    match list_find (fun p => highlightId (nodeAt s p) = highlightId n) (paragraphs s) with
    | Some (index, _) =>
        set_engagementData (delete node (engagementData s))
          (set_paragraphs (delete index (paragraphs s)) s)
    | None => s
    end
  else s.

(** [handleDOMChanges(mutation)]; the heat map refresh it requests is
    deferred to a later frame. *)
Definition handleDOMChanges (dateNow : Z) (now : Q) (mutation : Mutation) : M unit :=
  forEach (addNode dateNow now) (addedNodes mutation);;
  modify (fun s => fold_left (fun s node => removeNode node s) (removedNodes mutation) s).

(** [destroy()] *)
Definition destroy (now : Q) : M unit :=
  tryCatch
    (stopTracking now;;
     modify (set_observer None);;
     modify (set_resizeObserver false);;
     modify (set_mutationObserver false);;
     modify (set_globalListeners false);;
     modify (set_heatmapContainer NoMount);;
     modify (set_paragraphs []);;
     modify (set_engagementData ∅);;
     emit EvDestroyed;;
     mret tt)
    (fun error => emit (EvError "Error during cleanup" error);; mret tt).

(** *** Runs of the engine

    What the host can do to a constructed tracker: call its methods, deliver
    the callbacks of the observers and of the frame scheduler, register a
    listener, or change a node of the page.  An exception that escapes a call
    goes to the host; the tracker keeps the state the call left. *)

Inductive Call :=
| CallInit (dateNow : Z) (now : Q) (container : ContainerArg) (mountFound : bool)
| CallStartTracking (now : Q)
| CallStopTracking (now : Q)
| CallTrackingFrame (now : Q)
| CallProcessBatch (now : Q) (size : num)
| CallHandleIntersection (now : Q) (entries : list Entry)
| CallHandleVisibilityChange (now : Q) (visible : bool)
| CallHandleDOMChanges (dateNow : Z) (now : Q) (mutation : Mutation)
| CallExportData (now : Q)
| CallHandleUnload (now : Q)
| CallCreateHeatmap
| CallHideHeatmap
| CallDestroy (now : Q)
| CallOn (name : string) (l : Listener)
| PageSetNode (e : Elem) (n : Node).

Definition step (s : State) (c : Call) : State :=
  match c with
  | CallInit dateNow now container mountFound =>
      snd (init dateNow now container mountFound s)
  | CallStartTracking now => snd (startTracking now s)
  | CallStopTracking now => snd (stopTracking now s)
  | CallTrackingFrame now => trackingFrame now s
  | CallProcessBatch now size => processBatch now size s
  | CallHandleIntersection now entries => handleIntersection now entries s
  | CallHandleVisibilityChange now visible => snd (handleVisibilityChange now visible s)
  | CallHandleDOMChanges dateNow now mutation =>
      snd (handleDOMChanges dateNow now mutation s)
  | CallExportData now => snd (exportData now s)
  | CallHandleUnload now => snd (handleUnload now s)
  | CallCreateHeatmap => snd (createHeatmap s)
  | CallHideHeatmap => snd (hideHeatmap s)
  | CallDestroy now => snd (destroy now s)
  | CallOn name l => on name l s
  | PageSetNode e n => set_dom (<[e := n]> (dom s)) s
  end.

Definition run (s : State) (calls : list Call) : State := fold_left step calls s.

(** The reading of [performance.now()] made by a call, if it makes one. *)
Definition callTime (c : Call) : option Q :=
  match c with
  | CallInit _ now _ _ | CallStartTracking now | CallStopTracking now
  | CallTrackingFrame now | CallProcessBatch now _ | CallHandleIntersection now _
  | CallHandleVisibilityChange now _ | CallHandleDOMChanges _ now _
  | CallExportData now | CallHandleUnload now | CallDestroy now => Some now
  | CallCreateHeatmap | CallHideHeatmap | CallOn _ _ | PageSetNode _ _ => None
  end.

(** A report of the visibility source carries a ratio in [0, 1]. *)
Definition validEntry (entry : Entry) : bool :=
  (Qle_bool 0 (intersectionRatio entry) && Qle_bool (intersectionRatio entry) 1)%bool.

Definition validCall (c : Call) : bool :=
  match c with
  | CallHandleIntersection _ entries => forallb validEntry entries
  | CallProcessBatch _ PosInf => false
  | _ => true
  end.

(** The host side of a run: the clock never goes back (starting from [t])
    and every call is valid. *)
Fixpoint hostOk (t : Q) (calls : list Call) : bool :=
  match calls with
  | [] => true
  | c :: calls' =>
      (validCall c
       && match callTime c with
          | Some now => Qle_bool t now && hostOk now calls'
          | None => hostOk t calls'
          end)%bool
  end.

End V2.

(** ** Runs of the interval edition *)

Module V1Host.
Import V1.

(** What the host can do to a tracker of the interval edition: call its
    methods, deliver the reports of the observer, and fire the interval
    timer, which runs [checkVisibility] only between [setInterval] and
    [clearInterval]. *)
Inductive Call :=
| CallInit (found : option (list Element))
| CallStartTracking
| CallStopTracking (now : Z)
| CallTimer (now : Z)
| CallHandleIntersection (now : Z) (entries : list Entry).

Definition step (s : State) (c : Call) : State :=
  match c with
  | CallInit found => init found s
  | CallStartTracking => startTracking s
  | CallStopTracking now => stopTracking now s
  | CallTimer now => if trackingInterval s then checkVisibility now s else s
  | CallHandleIntersection now entries => handleIntersection now entries s
  end.

Definition run (s : State) (calls : list Call) : State := fold_left step calls s.

(** The reading of [Date.now()] made by a call, if it makes one. *)
Definition callTime (c : Call) : option Z :=
  match c with
  | CallStopTracking now | CallTimer now | CallHandleIntersection now _ => Some now
  | CallInit _ | CallStartTracking => None
  end.

(** The clock reads positive instants and never goes back (starting from [t]). *)
Fixpoint hostOk (t : Z) (calls : list Call) : bool :=
  match calls with
  | [] => true
  | c :: calls' =>
      match callTime c with
      | Some now => ((0 <? now)%Z && (t <=? now)%Z && hostOk now calls')%bool
      | None => hostOk t calls'
      end
  end.

(** A record as the accounting keeps it at instant [t]: the time credited is
    not negative, and the record is either out of view with no timestamp or
    in view with a positive timestamp not after [t]. *)
Definition okData (t : Z) (d : Data) : Prop :=
  (0 <= timeSpent d)%Z
  /\ ((inView d = false /\ lastViewTimestamp d = None)
      \/ (inView d = true
          /\ exists z, lastViewTimestamp d = Some z /\ (0 < z)%Z /\ (z <= t)%Z)).

Definition okState (t : Z) (s : State) : Prop :=
  Forall (fun kd => okData t (snd kd)) (engagementData s)
  /\ trackingInterval s = isTracking s
  /\ (isTracking s = false -> Forall (fun kd => inView (snd kd) = false) (engagementData s)).

(** The record [init] writes for the paragraph [p] at position [i]. *)
Definition freshData (p : Element) (i : nat) : Data :=
  {| element := p; timeSpent := 0%Z; inView := false;
     lastViewTimestamp := None; index := i |}.

End V1Host.

(** ** The heat map of the interval edition *)

Module V1Heat.
Import V1.

(** [v.k] on a value that is neither [null] nor [undefined]. *)
Definition member (v : JsVal) (k : string) : JsVal :=
  match v with
  | VObj o => getProp o k
  | _ => VUndefined
  end.

Fixpoint insertByIndex (d : Data) (l : list Data) : list Data :=
  match l with
  | [] => [d]
  | x :: l' => if (index x <=? index d)%nat then x :: insertByIndex d l' else d :: l
  end.

(** [values.sort((a, b) => a.index - b.index)]; the sort is stable. *)
Definition sortByIndex (l : list Data) : list Data :=
  fold_left (fun acc d => insertByIndex d acc) l [].

(** [Math.max(...engagementValues.map(d => d.timeSpent))] *)
Definition heatMax (s : State) : num :=
  maxOf (map (fun d => num_of_Z (timeSpent d)) (avalues (engagementData s))).

(** [maxTime ? data.timeSpent / maxTime : 0] *)
Definition intensity (maxTime : num) (d : Data) : num :=
  if JsNum.truthy maxTime then JsNum.div (num_of_Z (timeSpent d)) maxTime else Fin 0.

Definition color (s : State) (i : num) : JsVal :=
  let colors := getProp (options s) "colors" in
  if JsNum.lt i (Fin (3 # 10)) then member colors "low"
  else if JsNum.lt i (Fin (7 # 10)) then member colors "medium"
  else member colors "high".

(** A segment of the heat map: the paragraph it scrolls to, its colour and
    its tooltip (its position comes from the layout, which is not part of
    this model). *)
Record Segment := mkSegment {
  segElement : Element;
  segColor : JsVal;
  segTitle : string
}.

Definition segment (s : State) (d : Data) : Segment :=
  {| segElement := element d;
     segColor := color s (intensity (heatMax s) d);
     segTitle :=
       "Time spent: "
       +:+ V2.showNum (JsNum.round (JsNum.div (num_of_Z (timeSpent d)) (num_of_Z 1000)))
       +:+ "s" |}.

(** [createHeatmap(container)]; [mountFound] tells whether the container
    resolves.  The result is the list of segments put in the wrapper. *)
Definition createHeatmap (mountFound : bool) (s : State) : option (list Segment) * State :=
  if negb mountFound then (None, s)
  else
    (Some (map (segment s) (sortByIndex (avalues (engagementData s)))),
     {| options := options s;
        paragraphs := paragraphs s;
        engagementData := engagementData s;
        isTracking := isTracking s;
        trackingInterval := trackingInterval s;
        scrollbarCreated := true |}).

End V1Heat.

(** ** Properties used in the statements *)

Module Props.
Import V2.

(** A property of the state kept by a method, whatever its outcome. *)
Definition preserves {A} (P : State -> Prop) (m : M A) : Prop :=
  forall s, P s -> P (snd (m s)).

(** A property that does not look at the log of emitted events. *)
Definition logBlind (P : State -> Prop) : Prop :=
  forall v s, P s -> P (set_emitted v s).

(** The accounting invariant of one record at clock reading [now]. *)
Definition okData (now : Q) (data : Data) : Prop :=
  (weightedTime data <= timeSpent data)%Q
  /\ (visibleRatio data <= 1)%Q
  /\ forall u, lastUpdate data = Some u -> (u <= now)%Q.

Definition okState (now : Q) (s : State) : Prop :=
  map_Forall (fun _ data => okData now data) (engagementData s).

(** A validated numeric option: a number that compares neither below its
    minimum nor above its maximum. *)
Definition numberWithin (v : JsVal) (lo : num) (hi : option num) : bool :=
  match v with
  | VNum n =>
      (negb (JsNum.lt n lo)
       && match hi with
          | Some h => negb (JsNum.gt n h)
          | None => true
          end)%bool
  | _ => false
  end.

(** The [colors] option of a tracker: an object, or a falsy value other than
    [null] and [undefined], which the validation lets through as it is. *)
Definition colorsShape (v : JsVal) : bool :=
  match v with
  | VObj _ => true
  | VUndefined | VNull => false
  | _ => negb (truthy v)
  end.

Definition mountShape (v : JsVal) : bool :=
  match v with
  | VNull | VStr _ => true
  | _ => false
  end.

(** What holds of the options of every constructed tracker. *)
Definition inRange (o : JsObj) : bool :=
  (numberWithin (getProp o "minTimeThreshold") (Fin 0) None
   && numberWithin (getProp o "samplingRate") (Fin 10) (Some (Fin 1000))
   && numberWithin (getProp o "visibilityThreshold") (Fin 0) (Some (Fin 1))
   && colorsShape (getProp o "colors")
   && mountShape (getProp o "heatmapContainer"))%bool.

(** The errors the constructor of the frame edition can throw. *)
Definition violationErrors : list Exn :=
  [mkExn KTypeError "minTimeThreshold must be number";
   mkExn KRangeError "minTimeThreshold cannot be less than 0";
   mkExn KTypeError "samplingRate must be number";
   mkExn KRangeError "samplingRate cannot be less than 10";
   mkExn KRangeError "samplingRate cannot be greater than 1000";
   mkExn KTypeError "visibilityThreshold must be number";
   mkExn KRangeError "visibilityThreshold cannot be less than 0";
   mkExn KRangeError "visibilityThreshold cannot be greater than 1";
   mkExn KTypeError "colors must be an object";
   mkExn KTypeError "heatmapContainer must be string"].

(** The error of a number out of the range of its schema entry. *)
Definition rangeError (key : string) (config : Config) (n : num) : Exn :=
  if belowMin config (VNum n) then
    mkExn KRangeError (key +:+ " cannot be less than " +:+ showNum (default NaN (cmin config)))
  else
    mkExn KRangeError (key +:+ " cannot be greater than " +:+ showNum (default NaN (cmax config))).

(** The part of the accounting invariant about signs. *)
Definition signedData (data : Data) : Prop :=
  (0 <= visibleRatio data)%Q /\ (0 <= weightedTime data)%Q.

Definition signedState (s : State) : Prop :=
  map_Forall (fun _ data => signedData data) (engagementData s).

(** The full accounting invariant at clock reading [now]. *)
Definition soundState (now : Q) (s : State) : Prop := okState now s /\ signedState s.

(** [maxEngagement] bounds every accounted time. *)
Definition cappedState (s : State) : Prop :=
  (0 <= maxEngagement s)%Q
  /\ map_Forall (fun _ data => (timeSpent data <= maxEngagement s)%Q) (engagementData s).

(** A call that runs the export-time update. *)
Definition exporting (c : Call) : bool :=
  match c with
  | CallExportData _ | CallHandleUnload _ => true
  | _ => false
  end.

(** The callbacks through which time is credited or stamps are moved. *)
Definition measuring (c : Call) : bool :=
  match c with
  | CallTrackingFrame _ | CallHandleIntersection _ _ | CallExportData _
  | CallHandleUnload _ | CallHandleVisibilityChange _ _ => true
  | _ => false
  end.

(** The two accounted times of a record. *)
Definition accounted (data : Data) : Q * Q := (timeSpent data, weightedTime data).

(** No key occurs twice (as in any JavaScript object). *)
Fixpoint uniqueKeys (o : JsObj) : bool :=
  match o with
  | [] => true
  | (k, _) :: o' => (negb (existsb (String.eqb k) (map fst o')) && uniqueKeys o')%bool
  end.

(** The keys of the schema, in order. *)
Definition schemaKeys : list string := map fst validationSchema.

(** The method returns normally from [s], with a result and a state that
    satisfy [Q]. *)
Definition returns {A} (m : M A) (s : State) (Q : A -> State -> Prop) : Prop :=
  exists a s', m s = (Ret a, s') /\ Q a s'.

(** The method throws [e] from [s], leaving a state that satisfies [Q]. *)
Definition throws {A} (m : M A) (s : State) (e : Exn) (Q : State -> Prop) : Prop :=
  exists s', m s = (Throw e, s') /\ Q s'.

(** No registered listener throws. *)
Definition quiet (s : State) : bool :=
  forallb (fun kl => match snd kl with Returns => true | Throws _ => false end)
    (listeners s).

(** The [p] elements the argument of [init] resolves to. *)
Definition resolved (container : ContainerArg) : option (list Elem) :=
  match container with
  | CSelector _ found => found
  | CElement found => Some found
  | COther => None
  end.

(** What [cleanupPrevious] leaves of a tracker whose listeners do not throw. *)
Definition cleaned (s s' : State) : Prop :=
  paragraphs s' = [] /\ engagementData s' = ∅ /\ maxEngagement s' = 0%Q
  /\ isTracking s' = false /\ observer s' = None
  /\ quiet s' = true /\ options s' = options s /\ dom s' = dom s
  /\ listeners s' = listeners s.

(** The callbacks that the tracker ignores while the tab is hidden. *)
Definition periodic (c : Call) : bool :=
  match c with
  | CallTrackingFrame _ | CallHandleIntersection _ _ => true
  | _ => false
  end.

(** The node is registered as a new paragraph at [now]: it is in the
    tracked set, it has an empty record (stamped when [tracking]) and a
    non-empty identifier, and it is observed. *)
Definition registered (tracking : bool) (now : Q) (node : Elem) (t : State) : Prop :=
  node ∈ paragraphs t
  /\ engagementData t !! node = Some (emptyData (if tracking then Some now else None))
  /\ idTruthy (highlightId (nodeAt t node)) = true
  /\ exists targets, observer t = Some targets /\ node ∈ targets.

(** The two nodes carry the same [dataset.highlightId]. *)
Definition sharesId (t : State) (a b : Elem) : bool :=
  bool_decide (highlightId (nodeAt t a) = highlightId (nodeAt t b)).

(** What the callbacks over a mutation keep while they run: the tracking
    flag, the name of the node, and the observer being attached. *)
Definition observing (tracking : bool) (node : Elem) (t : State) : Prop :=
  isTracking t = tracking
  /\ nodeName (nodeAt t node) = "P"
  /\ is_Some (observer t).


(** [lastFrameTime] reads [v]. *)
Definition frameTimeIs (v : option Q) (s : State) : Prop := lastFrameTime s = v.

(** A finite number. *)
Definition isFin (n : num) : Prop := exists q, n = Fin q.

(** Every record of a tracked paragraph carries the stamp [now]. *)
Definition stamped (now : Q) (s : State) : Prop :=
  forall p data, p ∈ paragraphs s -> engagementData s !! p = Some data ->
                 lastUpdate data = Some now.

End Props.

(** ** Concrete trackers and runs *)

Module Examples.
Import V2.

Definition defaultOptions : JsObj :=
  [("minTimeThreshold", VNum (Fin 1000));
   ("samplingRate", VNum (Fin 200));
   ("visibilityThreshold", VNum (Fin (1 # 2)));
   ("colors", defaultColors);
   ("heatmapContainer", VNull)].

(** [new HighlightTracker()] *)
Definition fresh : State := initializeState defaultOptions.

(** [timeSpent] of the record of [e], 0 when [e] has no record. *)
Definition spentOf (s : State) (e : Elem) : Q :=
  default 0%Q (timeSpent <$> engagementData s !! e).

Definition ratioOf (s : State) (e : Elem) : Q :=
  default 0%Q (visibleRatio <$> engagementData s !! e).

(** One paragraph, tracked from instant 1000 and fully in view from then on. *)
Definition oneInView : list Call :=
  [CallInit 1700 0 (CSelector "#content" (Some [1%nat])) false;
   CallStartTracking 1000;
   CallHandleIntersection 1000 [mkEntry 1 1 true]].

(** Two paragraphs; the first is reported twice, the frame callback runs in
    between, and the data is exported at the end. *)
Definition session : list Call :=
  [CallInit 1700 0 (CSelector "#content" (Some [1%nat; 2%nat])) false;
   CallStartTracking 1000;
   CallHandleIntersection 1000 [mkEntry 1 1 true];
   CallTrackingFrame 1016;
   CallHandleIntersection 2000 [mkEntry 1 (1 # 2) true];
   CallExportData 3000].

(** The tab goes to the background at 2000; the paragraph stays in view. *)
Definition hiddenAt2000 : list Call :=
  oneInView ++ [CallHandleVisibilityChange 2000 false].

(** The interval edition: one paragraph, tracked and in view since 1000. *)
Definition intervalFresh : V1.State :=
  {| V1.options := []; V1.paragraphs := []; V1.engagementData := [];
     V1.isTracking := false; V1.trackingInterval := false;
     V1.scrollbarCreated := false |}.

Definition intervalInView : V1.State :=
  V1.handleIntersection 1000 [V1.mkEntry "p-0" 1]
    (V1.startTracking (V1.init (Some [V1.mkElement "First paragraph."]) intervalFresh)).

(** One paragraph registered; the tab is hidden at 500 and a report for the
    paragraph is delivered at 1000. *)
Definition hiddenBeforeReport : list Call :=
  [CallInit 1700 0 (CSelector "#content" (Some [1%nat])) false;
   CallHandleVisibilityChange 500 false].

(** Two paragraphs: the first is credited 1000 and leaves the view, the
    second is credited 4000; the heat map is shown, then the second paragraph
    is removed from the page. *)
Definition beforeRemoval : list Call :=
  [CallInit 1700 0 (CSelector "#content" (Some [1%nat; 2%nat])) false;
   CallStartTracking 1000;
   CallHandleIntersection 1000 [mkEntry 1 1 true; mkEntry 2 1 true];
   CallHandleIntersection 2000 [mkEntry 1 1 true];
   CallHandleIntersection 2000 [mkEntry 1 0 false];
   CallHandleIntersection 5000 [mkEntry 2 1 true];
   CallCreateHeatmap].

Definition removal : list Call :=
  beforeRemoval ++ [CallHandleDOMChanges 1701 6000 (mkMutation [] [2%nat])].

(** The same two paragraphs after the page gave the second one the
    [highlightId] of the first. *)
Definition sharedIdentifier : list Call :=
  beforeRemoval ++ [PageSetNode 2 (mkNode "P" (Some "p-1700-0") "" "")].

(** The interval edition with two paragraphs: the first in view from 1000
    to 2000, the second from 1000 until the tick at 5000. *)
Definition intervalTwo : V1.State :=
  V1.checkVisibility 5000
    (V1.handleIntersection 2000 [V1.mkEntry "p-0" 0]
       (V1.handleIntersection 1000 [V1.mkEntry "p-0" 1; V1.mkEntry "p-1" 1]
          (V1.startTracking
             (V1.init (Some [V1.mkElement "First paragraph.";
                             V1.mkElement "Second paragraph."]) intervalFresh)))).

(** A tracker in use whose only listener, on ["destroyed"], throws. *)
Definition listenerFailure : Exn := mkExn KError "listener failed".

Definition withFailingListener : State :=
  run fresh (oneInView ++ [CallOn "destroyed" (Throws listenerFailure)]).


(** One paragraph whose tracking starts while the tab is hidden (so that no
    frame has rotated the batch index), shown again at 1000 and reported at
    2000 with a quarter of it in view: 1000 is credited, below the threshold
    of one half. *)
Definition belowThreshold : list Call :=
  [CallInit 1700 0 (CSelector "#content" (Some [1%nat])) false;
   CallHandleVisibilityChange 500 false;
   CallStartTracking 1000;
   CallHandleVisibilityChange 1000 true;
   CallHandleIntersection 2000 [mkEntry 1 (1 # 4) true]].

(** The same with the paragraph fully in view. *)
Definition aboveThreshold : list Call :=
  [CallInit 1700 0 (CSelector "#content" (Some [1%nat])) false;
   CallHandleVisibilityChange 500 false;
   CallStartTracking 1000;
   CallHandleVisibilityChange 1000 true;
   CallHandleIntersection 2000 [mkEntry 1 1 true]].

End Examples.

(** * Facts *)

(** ** Numbers and plain objects *)

Lemma Qltb_true (x y : Q) : JsNum.Qltb x y = true <-> (x < y)%Q.
Proof.
  unfold JsNum.Qltb. rewrite negb_true_iff.
  split; intros H.
  - apply Qnot_le_lt. intros Hle. apply Qle_bool_iff in Hle. congruence.
  - destruct (Qle_bool y x) eqn:E; [|reflexivity].
    apply Qle_bool_iff in E. apply Qle_not_lt in E. contradiction.
Qed.

Lemma Qltb_false (x y : Q) : JsNum.Qltb x y = false <-> (y <= x)%Q.
Proof.
  unfold JsNum.Qltb. rewrite negb_false_iff. apply Qle_bool_iff.
Qed.

Lemma aget_amap {A} (f : A -> A) (o : list (string * A)) (k : string) :
  aget (amap f o) k = f <$> aget o k.
Proof.
  induction o as [|[k' v] o IH]; simpl; [reflexivity|].
  destruct (String.eqb k' k); [reflexivity | exact IH].
Qed.

Lemma aget_aset_eq {A} (o : list (string * A)) (k : string) (v : A) :
  aget (aset o k v) k = Some v.
Proof.
  induction o as [|[k' v'] o IH]; simpl.
  - rewrite String.eqb_refl. reflexivity.
  - destruct (String.eqb k' k) eqn:E; simpl.
    + rewrite String.eqb_refl. reflexivity.
    + rewrite E. exact IH.
Qed.

Lemma aget_aset_ne {A} (o : list (string * A)) (k k' : string) (v : A) :
  k <> k' -> aget (aset o k v) k' = aget o k'.
Proof.
  intros Hne. induction o as [|[k0 v0] o IH]; simpl.
  - destruct (String.eqb k k') eqn:E; [|reflexivity].
    apply String.eqb_eq in E. contradiction.
  - destruct (String.eqb k0 k) eqn:E; simpl.
    + apply String.eqb_eq in E. subst k0.
      destruct (String.eqb k k') eqn:E'; [|reflexivity].
      apply String.eqb_eq in E'. contradiction.
    + destruct (String.eqb k0 k'); [reflexivity | exact IH].
Qed.

(** ** The state monad of the frame edition *)

Section Preservation.
Import V2 Props.
Context (P : State -> Prop).

Lemma preserves_ret {A} (a : A) : preserves P (mret a : M A).
Proof. intros s H. exact H. Qed.

Lemma preserves_throw {A} (e : Exn) : preserves P (throw e : M A).
Proof. intros s H. exact H. Qed.

Lemma preserves_gets {A} (f : State -> A) : preserves P (gets f).
Proof. intros s H. exact H. Qed.

Lemma preserves_modify (f : State -> State) :
  (forall s, P s -> P (f s)) -> preserves P (modify f).
Proof. intros Hf s H. apply Hf, H. Qed.

Lemma preserves_bind {A B} (m : M A) (k : A -> M B) :
  preserves P m -> (forall a, preserves P (k a)) -> preserves P (m ≫= k).
Proof.
  intros Hm Hk s H. unfold mbind, M_bind, bind.
  specialize (Hm s H). destruct (m s) as [[a|e] s']; simpl in *.
  - apply Hk, Hm.
  - exact Hm.
Qed.

Lemma preserves_tryCatch {A} (body : M A) (handler : Exn -> M A) :
  preserves P body -> (forall e, preserves P (handler e)) ->
  preserves P (tryCatch body handler).
Proof.
  intros Hb Hh s H. unfold tryCatch.
  specialize (Hb s H). destruct (body s) as [[a|e] s']; simpl in *.
  - exact Hb.
  - apply Hh, Hb.
Qed.

Lemma preserves_when (b : bool) (m : M unit) :
  preserves P m -> preserves P (when b m).
Proof. intros Hm. destruct b; [exact Hm | apply preserves_ret]. Qed.

Lemma preserves_emit (ev : Event) : logBlind P -> preserves P (emit ev).
Proof.
  intros Hblind s H. unfold emit.
  destruct (listenersOf (eventName ev) s) as [|l ls].
  - destruct (String.eqb (eventName ev) "error"); simpl; apply Hblind, H.
  - destruct (callAll (l :: ls)); simpl; apply Hblind, H.
Qed.

Lemma preserves_forEach {A} (f : A -> M unit) (l : list A) :
  (forall x, preserves P (f x)) -> preserves P (forEach f l).
Proof.
  intros Hf. induction l as [|x l IH]; simpl.
  - apply preserves_ret.
  - apply preserves_bind; [apply Hf | intros _; exact IH].
Qed.
End Preservation.

Ltac preserve1 :=
  lazymatch goal with
  | |- Props.preserves _ (_ ≫= _) => apply preserves_bind; [|intros ?]
  | |- Props.preserves _ (mret _) => apply preserves_ret
  | |- Props.preserves _ (V2.throw _) => apply preserves_throw
  | |- Props.preserves _ (V2.gets _) => apply preserves_gets
  | |- Props.preserves _ (V2.when _ _) => apply preserves_when
  | |- Props.preserves _ (V2.emit _) => apply preserves_emit
  | |- Props.preserves _ (V2.modify _) => apply preserves_modify; intros ? ?
  | |- Props.preserves _ (V2.tryCatch _ _) => apply preserves_tryCatch; [|intros ?]
  | |- Props.preserves _ (V2.forEach _ _) => apply preserves_forEach; intros ?
  end.

Ltac preserve := repeat preserve1.

Lemma fold_left_preserves {A S} (P : S -> Prop) (f : S -> A -> S) (l : list A) (s : S) :
  (forall s x, P s -> P (f s x)) -> P s -> P (fold_left f l s).
Proof.
  intros Hf. revert s. induction l as [|x l IH]; simpl; intros s H.
  - exact H.
  - apply IH, Hf, H.
Qed.

(** Reduce a goal about the state left by [m s] to [preserves P m]. *)
Ltac by_preserves H :=
  match goal with
  | |- ?P (snd (?m ?s)) =>
      let Hm := fresh "Hm" in
      assert (Hm : Props.preserves P m); [| exact (Hm s H)]
  end.

(** ** [lastFrameTime] is never assigned *)

Section FrameTime.
Import V2 Props.
Context (v : option Q).

Local Abbreviation P := (frameTimeIs v).

Local Lemma P_blind : logBlind P.
Proof. intros w s H. exact H. Qed.

Local Ltac keep :=
  preserve; try exact P_blind;
  try match goal with H : P _ |- _ => exact H end.

Lemma onEntry_frameTime now s entry : P s -> P (onEntry now s entry).
Proof.
  intros H. unfold onEntry.
  destruct (engagementData s !! target entry) as [data|]; [|exact H].
  destruct (live (lastUpdate data) && (isIntersecting entry && isTracking s))%bool;
    [|exact H].
  destruct (JsNum.Qltb _ _); exact H.
Qed.

Lemma handleIntersection_frameTime now entries s :
  P s -> P (handleIntersection now entries s).
Proof.
  intros H. unfold handleIntersection.
  destruct (negb (tabVisible s)); [exact H|].
  apply fold_left_preserves; [|exact H].
  intros s' e. apply onEntry_frameTime.
Qed.

Lemma processOne_frameTime now s i : P s -> P (processOne now s i).
Proof.
  intros H. unfold processOne.
  destruct (_ ≫= _) as [paragraph|]; [|exact H].
  destruct (engagementData s !! paragraph) as [data|]; [|exact H].
  destruct (_ && _)%bool; [|exact H].
  destruct (JsNum.Qltb _ _); exact H.
Qed.

Lemma processBatch_frameTime now size s : P s -> P (processBatch now size s).
Proof.
  intros H. unfold processBatch.
  change (P (fold_left (processOne now) (seq 0 (JsNum.loopCount size)) s)).
  apply fold_left_preserves; [|exact H].
  intros s' i. apply processOne_frameTime.
Qed.

Lemma trackingFrame_frameTime now s : P s -> P (trackingFrame now s).
Proof.
  intros H. unfold trackingFrame.
  destruct (_ || _)%bool; [exact H|].
  apply (processBatch_frameTime now (batchSize now s) s H).
Qed.

Lemma exportData_frameTime now s : P s -> P (snd (exportData now s)).
Proof.
  intros H. unfold exportData.
  apply (fold_left_preserves (fun acc => P (snd acc))); [|exact H].
  intros [r s'] e H'. unfold exportOne.
  destruct (engagementData s' !! e); exact H'.
Qed.

Lemma stopTracking_frameTime now : preserves P (stopTracking now).
Proof.
  intros s H. unfold stopTracking.
  destruct (negb (isTracking s)); [exact H|].
  by_preserves H. keep.
Qed.

Lemma stampAll_frameTime now s : P s -> P (stampAll now s).
Proof. intros H. exact H. Qed.

Lemma startTracking_frameTime now : preserves P (startTracking now).
Proof.
  intros s H. unfold startTracking.
  destruct (isTracking s); [exact H|].
  by_preserves H. keep. apply trackingFrame_frameTime. assumption.
Qed.

Lemma handleVisibilityChange_frameTime now visible :
  preserves P (handleVisibilityChange now visible).
Proof. unfold handleVisibilityChange. keep. Qed.

Lemma handleUnload_frameTime now : preserves P (handleUnload now).
Proof.
  intros s H. unfold handleUnload.
  destruct (isTracking s); [|exact H].
  by_preserves H. keep.
  intros s0 H0. pose proof (exportData_frameTime now s0 H0) as Hx.
  destruct (exportData now s0). exact Hx.
Qed.

Lemma createHeatmap_frameTime : preserves P createHeatmap.
Proof. unfold createHeatmap. keep. destruct (heatmapContainer _); assumption. Qed.

Lemma hideHeatmap_frameTime : preserves P hideHeatmap.
Proof.
  intros s H. unfold hideHeatmap.
  destruct (heatmapContainer s); [exact H | |]; by_preserves H; keep.
Qed.

Lemma cleanupPrevious_frameTime now : preserves P (cleanupPrevious now).
Proof.
  unfold cleanupPrevious. keep.
  - apply stopTracking_frameTime.
  - destruct (heatmapContainer _); [assumption | |];
      destruct (negb _); assumption.
Qed.

Lemma init_frameTime dateNow now container mountFound :
  preserves P (init dateNow now container mountFound).
Proof.
  unfold init. keep.
  - apply cleanupPrevious_frameTime.
  - unfold validateContainer.
    destruct container as [sel [ps|]|ps|]; keep.
  - unfold getParagraphs. keep.
  - intros s H. unfold setupHeatmapContainer.
    destruct (truthy _); [|exact H]. destruct mountFound; exact H.
Qed.

Lemma addNode_frameTime dateNow now node : preserves P (addNode dateNow now node).
Proof.
  intros s H. unfold addNode.
  destruct (String.eqb _ _); [|exact H].
  destruct (observer s); exact H.
Qed.

Lemma removeNode_frameTime node s : P s -> P (removeNode node s).
Proof.
  intros H. unfold removeNode.
  destruct (_ && _)%bool; [|exact H].
  destruct (list_find _ _) as [[index p]|]; exact H.
Qed.

Lemma handleDOMChanges_frameTime dateNow now mutation :
  preserves P (handleDOMChanges dateNow now mutation).
Proof.
  unfold handleDOMChanges. keep.
  - apply addNode_frameTime.
  - apply fold_left_preserves; [|assumption].
    intros s' node. apply removeNode_frameTime.
Qed.

Lemma destroy_frameTime now : preserves P (destroy now).
Proof. unfold destroy. keep. apply stopTracking_frameTime. Qed.

Lemma step_frameTime s c : P s -> P (step s c).
Proof.
  intros H. destruct c; simpl.
  - apply init_frameTime, H.
  - apply startTracking_frameTime, H.
  - apply stopTracking_frameTime, H.
  - apply trackingFrame_frameTime, H.
  - apply processBatch_frameTime, H.
  - apply handleIntersection_frameTime, H.
  - apply handleVisibilityChange_frameTime, H.
  - apply handleDOMChanges_frameTime, H.
  - apply exportData_frameTime, H.
  - apply handleUnload_frameTime, H.
  - apply createHeatmap_frameTime, H.
  - apply hideHeatmap_frameTime, H.
  - apply destroy_frameTime, H.
  - exact H.
  - exact H.
Qed.

Lemma run_frameTime s calls : P s -> P (run s calls).
Proof.
  intros H. unfold run. apply fold_left_preserves; [|exact H].
  intros s' c. apply step_frameTime.
Qed.
End FrameTime.

(** ** The accounting invariant *)

Section Accounting.
Import V2 Props.

Lemma okData_mono t t' data : (t <= t')%Q -> okData t data -> okData t' data.
Proof.
  intros Hle (Hw & Hr & Hu). repeat split; try assumption.
  intros u Hu'. apply Qle_trans with t; [apply Hu, Hu' | exact Hle].
Qed.

Lemma okState_mono t t' s : (t <= t')%Q -> okState t s -> okState t' s.
Proof.
  intros Hle H. eapply map_Forall_impl; [exact H|].
  intros e data. apply okData_mono, Hle.
Qed.

Lemma okData_stamp t now data : okData t data -> okData now (stamp now data).
Proof.
  intros (Hw & Hr & _). repeat split; simpl; try assumption.
  intros u [= <-]. apply Qle_refl.
Qed.

Lemma okData_empty now stamp0 :
  (forall u, stamp0 = Some u -> u = now) -> okData now (emptyData stamp0).
Proof.
  intros Hs. repeat split; simpl.
  - apply Qle_refl.
  - discriminate.
  - intros u Hu. rewrite (Hs u Hu). apply Qle_refl.
Qed.

Lemma live_Some (t : option Q) : live t = true -> exists u, t = Some u.
Proof. destruct t as [u|]; [eauto | discriminate]. Qed.

(** Crediting [delta] raw and [delta * ratio] weighted keeps the order. *)
Lemma credit_order (ts wt u now ratio : Q) :
  (wt <= ts)%Q -> (u <= now)%Q -> (ratio <= 1)%Q ->
  (wt + (now - u) * ratio <= ts + (now - u))%Q.
Proof.
  intros Hw Hu Hr.
  assert (Hm : (0 <= (now - u) * (1 - ratio))%Q).
  { apply Qmult_le_0_compat; lra. }
  lra.
Qed.

Lemma okState_blind now : logBlind (okState now).
Proof. intros w s H. exact H. Qed.

Lemma stampAll_ok now s : okState now s -> okState now (stampAll now s).
Proof.
  unfold okState, stampAll. simpl.
  generalize (engagementData s) as ed.
  induction (paragraphs s) as [|p ps IH]; simpl; intros ed Hed; [exact Hed|].
  apply IH. intros e data He.
  destruct (decide (p = e)) as [->|Hne].
  - rewrite lookup_alter_eq in He.
    destruct (ed !! e) as [d0|] eqn:E; [|discriminate].
    injection He as <-. eapply okData_stamp, (Hed e d0 E).
  - rewrite lookup_alter_ne in He by exact Hne. exact (Hed e data He).
Qed.

Lemma onEntry_ok now s entry :
  validEntry entry = true -> okState now s -> okState now (onEntry now s entry).
Proof.
  intros Hv H. unfold onEntry.
  destruct (engagementData s !! target entry) as [data|] eqn:E; [|exact H].
  destruct (H _ _ E) as (Hw & Hr & Hu).
  apply andb_true_iff in Hv as [_ Hr1]. apply Qle_bool_iff in Hr1.
  assert (Hnew : forall d', okData now d' ->
            okState now (set_engagementData (<[target entry := d']> (engagementData s)) s)).
  { intros d' Hd'. unfold okState. simpl. apply map_Forall_insert_2; assumption. }
  destruct (live (lastUpdate data) && (isIntersecting entry && isTracking s))%bool eqn:C.
  - apply andb_true_iff in C as [Hl _].
    destruct (live_Some _ Hl) as [u Hlu]. rewrite Hlu. simpl.
    assert (Hd : okData now
              {| visibleRatio := intersectionRatio entry;
                 timeSpent := (timeSpent data + (now - u))%Q;
                 weightedTime := (weightedTime data + (now - u) * intersectionRatio entry)%Q;
                 lastUpdate := Some now; inView := isIntersecting entry |}).
    { repeat split; simpl.
      - apply credit_order; auto.
      - exact Hr1.
      - intros u' [= <-]. apply Qle_refl. }
    destruct (JsNum.Qltb _ _); apply (Hnew _ Hd).
  - apply Hnew. repeat split; simpl; try assumption.
    intros u' [= <-]. apply Qle_refl.
Qed.

Lemma handleIntersection_ok now entries s :
  forallb validEntry entries = true -> okState now s ->
  okState now (handleIntersection now entries s).
Proof.
  intros Hv H. unfold handleIntersection.
  destruct (negb (tabVisible s)); [exact H|].
  revert s H. induction entries as [|e es IH]; simpl; intros s H; [exact H|].
  simpl in Hv. apply andb_true_iff in Hv as [He Hes].
  apply IH; [exact Hes|]. apply onEntry_ok; assumption.
Qed.

Lemma processOne_ok now s i : okState now s -> okState now (processOne now s i).
Proof.
  intros H. unfold processOne.
  destruct (_ ≫= _) as [paragraph|]; [|exact H].
  destruct (engagementData s !! paragraph) as [data|] eqn:E; [|exact H].
  destruct (H _ _ E) as (Hw & Hr & Hu).
  assert (Hnew : forall d', okData now d' ->
            okState now (set_engagementData (<[paragraph := d']> (engagementData s)) s)).
  { intros d' Hd'. unfold okState. simpl. apply map_Forall_insert_2; assumption. }
  destruct (_ && _)%bool eqn:C.
  - apply andb_true_iff in C as [_ Hl].
    destruct (live_Some _ Hl) as [u Hlu]. rewrite Hlu. simpl.
    assert (Hd : okData now
              {| visibleRatio := visibleRatio data;
                 timeSpent := (timeSpent data + (now - u))%Q;
                 weightedTime := (weightedTime data + (now - u) * visibleRatio data)%Q;
                 lastUpdate := Some now; inView := inView data |}).
    { repeat split; simpl.
      - apply credit_order; auto.
      - exact Hr.
      - intros u' [= <-]. apply Qle_refl. }
    destruct (JsNum.Qltb _ _); apply (Hnew _ Hd).
  - apply Hnew. eapply okData_stamp. repeat split; eassumption.
Qed.

Lemma processBatch_ok now size s : okState now s -> okState now (processBatch now size s).
Proof.
  intros H. unfold processBatch.
  change (okState now (fold_left (processOne now) (seq 0 (JsNum.loopCount size)) s)).
  apply fold_left_preserves; [|exact H].
  intros s' i. apply processOne_ok.
Qed.

Lemma trackingFrame_ok now s : okState now s -> okState now (trackingFrame now s).
Proof.
  intros H. unfold trackingFrame.
  destruct (_ || _)%bool; [exact H|].
  apply (processBatch_ok now (batchSize now s) s H).
Qed.

Lemma exportData_ok now s : okState now s -> okState now (snd (exportData now s)).
Proof.
  intros H. unfold exportData.
  apply (fold_left_preserves (fun acc => okState now (snd acc))); [|exact H].
  intros [r s'] e H'. unfold exportOne. simpl in H'.
  destruct (engagementData s' !! e) as [data|] eqn:E; [|exact H'].
  destruct (H' _ _ E) as (Hw & Hr & Hu).
  unfold okState. simpl. apply map_Forall_insert_2; [|exact H'].
  destruct (_ && _)%bool; [|repeat split; assumption].
  repeat split; simpl; [lra | assumption | assumption].
Qed.

Local Ltac keep now :=
  preserve; try exact (okState_blind now);
  try match goal with H : okState _ _ |- _ => exact H end.

Lemma stopTracking_ok now t : preserves (okState now) (stopTracking t).
Proof.
  intros s H. unfold stopTracking.
  destruct (negb (isTracking s)); [exact H|].
  by_preserves H. keep now.
Qed.

Lemma startTracking_ok now : preserves (okState now) (startTracking now).
Proof.
  intros s H. unfold startTracking.
  destruct (isTracking s); [exact H|].
  by_preserves H. keep now.
  - apply stampAll_ok. assumption.
  - apply trackingFrame_ok. assumption.
Qed.

Lemma handleVisibilityChange_ok now visible :
  preserves (okState now) (handleVisibilityChange now visible).
Proof. unfold handleVisibilityChange. keep now. apply stampAll_ok. assumption. Qed.

Lemma handleUnload_ok now : preserves (okState now) (handleUnload now).
Proof.
  intros s H. unfold handleUnload.
  destruct (isTracking s); [|exact H].
  by_preserves H. keep now.
  intros s0 H0. pose proof (exportData_ok now s0 H0) as Hx.
  destruct (exportData now s0). exact Hx.
Qed.

Lemma createHeatmap_ok now : preserves (okState now) createHeatmap.
Proof. unfold createHeatmap. keep now. destruct (heatmapContainer _); assumption. Qed.

Lemma hideHeatmap_ok now : preserves (okState now) hideHeatmap.
Proof.
  intros s H. unfold hideHeatmap.
  destruct (heatmapContainer s); [exact H | |]; by_preserves H; keep now.
Qed.

Lemma cleanupPrevious_ok now t : preserves (okState now) (cleanupPrevious t).
Proof.
  unfold cleanupPrevious. keep now.
  - apply stopTracking_ok.
  - destruct (heatmapContainer _); [assumption | |];
      destruct (negb _); assumption.
  - apply map_Forall_empty.
Qed.

Lemma initializeEngagementData_ok now s :
  okState now s -> okState now (initializeEngagementData s).
Proof.
  unfold okState, initializeEngagementData. simpl.
  generalize (engagementData s) as ed.
  induction (paragraphs s) as [|p ps IH]; simpl; intros ed Hed; [exact Hed|].
  apply IH. apply map_Forall_insert_2; [|exact Hed].
  apply okData_empty. discriminate.
Qed.

Lemma init_ok now dateNow container mountFound :
  preserves (okState now) (init dateNow now container mountFound).
Proof.
  unfold init. keep now.
  - apply cleanupPrevious_ok.
  - unfold validateContainer.
    destruct container as [sel [ps|]|ps|]; keep now.
  - unfold getParagraphs. keep now.
  - apply initializeEngagementData_ok. assumption.
  - intros s H. unfold setupHeatmapContainer.
    destruct (truthy _); [|exact H]. destruct mountFound; exact H.
Qed.

Lemma addNode_ok now dateNow node : preserves (okState now) (addNode dateNow now node).
Proof.
  intros s H. unfold addNode.
  destruct (String.eqb _ _); [|exact H].
  assert (Hnew : map_Forall (fun _ data => okData now data)
            (<[node := emptyData (if isTracking s then Some now else None)]>
               (engagementData s))).
  { apply map_Forall_insert_2; [|exact H].
    apply okData_empty. destruct (isTracking s); [intros u [= <-]; reflexivity | discriminate]. }
  destruct (observer s); exact Hnew.
Qed.

Lemma removeNode_ok now node s : okState now s -> okState now (removeNode node s).
Proof.
  intros H. unfold removeNode.
  destruct (_ && _)%bool; [|exact H].
  destruct (list_find _ _) as [[index p]|]; [|exact H].
  unfold okState. simpl. apply map_Forall_delete, H.
Qed.

Lemma handleDOMChanges_ok now dateNow mutation :
  preserves (okState now) (handleDOMChanges dateNow now mutation).
Proof.
  unfold handleDOMChanges. keep now.
  - apply addNode_ok.
  - apply fold_left_preserves; [|assumption].
    intros s' node. apply removeNode_ok.
Qed.

Lemma destroy_ok now t : preserves (okState now) (destroy t).
Proof.
  unfold destroy. keep now.
  - apply stopTracking_ok.
  - apply map_Forall_empty.
Qed.

(** One call of a well-behaved host keeps the invariant, at the clock
    reading of the call. *)
Lemma step_ok t s c :
  okState t s -> validCall c = true ->
  match callTime c with
  | Some now => (t <= now)%Q -> okState now (step s c)
  | None => okState t (step s c)
  end.
Proof.
  intros H Hv.
  destruct c; simpl; try (intros Hle; apply (okState_mono _ _ _ Hle) in H).
  - apply init_ok, H.
  - apply startTracking_ok, H.
  - apply stopTracking_ok, H.
  - apply trackingFrame_ok, H.
  - apply processBatch_ok, H.
  - apply handleIntersection_ok; [exact Hv | exact H].
  - apply handleVisibilityChange_ok, H.
  - apply handleDOMChanges_ok, H.
  - apply exportData_ok, H.
  - apply handleUnload_ok, H.
  - apply createHeatmap_ok, H.
  - apply hideHeatmap_ok, H.
  - apply destroy_ok, H.
  - exact H.
  - exact H.
Qed.

Lemma run_ok calls : forall t s,
  okState t s -> hostOk t calls = true -> exists t', okState t' (run s calls).
Proof.
  induction calls as [|c calls IH]; intros t s H Hh; simpl.
  - exists t. exact H.
  - simpl in Hh. apply andb_true_iff in Hh as [Hv Hh].
    pose proof (step_ok t s c H Hv) as Hs.
    destruct (callTime c) as [now|].
    + apply andb_true_iff in Hh as [Hle Hh]. apply Qle_bool_iff in Hle.
      apply (IH now); [apply Hs, Hle | exact Hh].
    + apply (IH t); [exact Hs | exact Hh].
Qed.
End Accounting.

(** ** Claims about accrual *)

Section AccrualClaims.
Import V2 Props Examples.

(** C4.  In every state the frame edition reaches from a constructed
    tracker, through any sequence of calls made by a host whose clock does
    not go back and whose visibility reports carry ratios in [0, 1], every
    record satisfies [weightedTime <= timeSpent]. *)
Theorem weightedTime_le_timeSpent
    (opts : JsObj) (s0 : State) (t : Q) (calls : list Call) (e : Elem) (data : Data) :
  constructor opts = Ret s0 ->
  hostOk t calls = true ->
  engagementData (run s0 calls) !! e = Some data ->
  (weightedTime data <= timeSpent data)%Q.
Proof.
  intros Hc Hh He.
  assert (H0 : okState t s0).
  { unfold constructor in Hc.
    destruct (validateOptions opts validationSchema); [|discriminate].
    injection Hc as <-. apply map_Forall_empty. }
  destruct (run_ok calls t s0 H0 Hh) as [t' Hrun].
  exact (proj1 (Hrun e data He)).
Qed.

Lemma weightedTime_le_timeSpent_witness :
  constructor [] = Ret fresh
  /\ hostOk 0 session = true
  /\ (4000 # 4 <= 3000 # 2)%Q.
Proof.
  split; [reflexivity|]. split; [reflexivity|].
  apply (weightedTime_le_timeSpent [] fresh 0 session 1%nat
           {| visibleRatio := 1 # 2; timeSpent := 3000 # 2; weightedTime := 4000 # 4;
              lastUpdate := Some 2000%Q; inView := true |}).
  - reflexivity.
  - reflexivity.
  - vm_compute. reflexivity.
Defined.

(** C7 (the code departs from the claim).  [lastFrameTime] is read by
    [trackingFrame] and assigned nowhere, so in every state reached from a
    new tracker the measured frame time is [NaN], the batch size is [NaN],
    the loop of [processBatch] runs zero times, no record is touched, and
    the rotation index becomes [NaN] as soon as a frame runs while tracking
    in the foreground. *)
Theorem trackingFrame_processes_nothing (opts : JsObj) (calls : list Call) (now : Q) :
  let s := run (initializeState opts) calls in
  lastFrameTime s = None
  /\ batchSize now s = NaN
  /\ engagementData (trackingFrame now s) = engagementData s
  /\ maxEngagement (trackingFrame now s) = maxEngagement s
  /\ lastProcessedIndex (trackingFrame now s)
     = if (isTracking s && tabVisible s)%bool then NaN else lastProcessedIndex s.
Proof.
  intros s.
  assert (Hf : lastFrameTime s = None).
  { apply (run_frameTime None). reflexivity. }
  assert (Hb : batchSize now s = NaN).
  { unfold batchSize, readFrameTime. rewrite Hf. reflexivity. }
  split; [exact Hf|]. split; [exact Hb|].
  unfold trackingFrame. rewrite Hb.
  destruct (isTracking s), (tabVisible s); simpl; try (repeat split; reflexivity).
  unfold processBatch. simpl.
  repeat split.
  destruct (lastProcessedIndex s); reflexivity.
Qed.

(** [processBatch] on its own does rotate: the start index advances by the
    batch size, modulo the number of paragraphs. *)
Lemma processBatch_advances now size s :
  lastProcessedIndex (processBatch now size s)
  = JsNum.rem (JsNum.add (lastProcessedIndex s) size)
      (JsNum.of_nat (length (paragraphs s))).
Proof.
  unfold processBatch. cbv zeta. simpl.
  assert (H : lastProcessedIndex
                (fold_left (processOne now) (seq 0 (JsNum.loopCount size)) s)
              = lastProcessedIndex s
              /\ paragraphs (fold_left (processOne now) (seq 0 (JsNum.loopCount size)) s)
                 = paragraphs s).
  { apply (fold_left_preserves
             (fun t => lastProcessedIndex t = lastProcessedIndex s
                       /\ paragraphs t = paragraphs s)); [|split; reflexivity].
    intros t i H. unfold processOne.
    destruct (_ ≫= _) as [paragraph|]; [|exact H].
    destruct (engagementData t !! paragraph) as [data|]; [|exact H].
    destruct (_ && _)%bool; [|exact H].
    destruct (JsNum.Qltb _ _); exact H. }
  destruct H as [-> ->]. reflexivity.
Qed.

(** Whatever [lastFrameTime] holds, the batch is capped by the number of
    paragraphs: [processBatch] is never asked for an endless loop. *)
Lemma batchSize_not_PosInf now s : batchSize now s <> PosInf.
Proof.
  unfold batchSize.
  destruct (JsNum.floor _) as [| | |q]; simpl; try discriminate.
  destruct (JsNum.Qltb _ _); discriminate.
Qed.

(** The same on a concrete session: a paragraph fully in view for a second
    of tracked foreground time gets nothing from sixty frames. *)
Example frames_credit_nothing :
  let s := run fresh oneInView in
  let s' := run s (map (fun k => CallTrackingFrame (1000 + 16 * inject_Z (Z.of_nat k)))
                     (seq 1 60)) in
  (spentOf s' 1%nat == 0)%Q /\ lastProcessedIndex s' = NaN.
Proof. vm_compute. split; reflexivity. Qed.
End AccrualClaims.

(** ** Claims about the export-time update *)

Section ExportClaims.
Import V2 Props Examples.

(** The two periodic paths do stop while the tab is hidden. *)
Lemma handleIntersection_hidden now entries s :
  tabVisible s = false -> handleIntersection now entries s = s.
Proof. intros H. unfold handleIntersection. rewrite H. reflexivity. Qed.

Lemma trackingFrame_hidden now s :
  tabVisible s = false -> engagementData (trackingFrame now s) = engagementData s.
Proof.
  intros H. unfold trackingFrame. rewrite H, orb_true_r. reflexivity.
Qed.

(** Regaining the foreground re-stamps the records of the tracked
    paragraphs and credits nothing. *)
Lemma handleVisibilityChange_spent now visible s e :
  timeSpent <$> engagementData (snd (handleVisibilityChange now visible s)) !! e
  = timeSpent <$> engagementData s !! e.
Proof.
  set (P := fun s' : State =>
              timeSpent <$> engagementData s' !! e = timeSpent <$> engagementData s !! e).
  assert (Hp : preserves P (handleVisibilityChange now visible)).
  { unfold handleVisibilityChange. preserve; try assumption.
    - unfold P in *. unfold stampAll. simpl.
      match goal with H : _ = _ |- _ => rewrite <- H end.
      generalize (engagementData s0) as ed.
      induction (paragraphs s0) as [|p ps IH]; simpl; intros ed; [reflexivity|].
      rewrite IH. destruct (decide (p = e)) as [->|Hne].
      + rewrite lookup_alter_eq. destruct (ed !! e); reflexivity.
      + rewrite lookup_alter_ne by exact Hne. reflexivity.
    - intros w s' H'. exact H'. }
  apply Hp. reflexivity.
Qed.

(** C1 (the code departs from the claim).  [exportData] tests [isTracking]
    and the ratio but not [tabVisible]: exported while the tab is in the
    background, a record in view is credited with the whole span since its
    last stamp.  Here the tab is hidden at 2000 and the export at 5000
    credits 4000, 3000 of which passed in the background. *)
Theorem exportData_credits_hidden_time :
  let s := run fresh hiddenAt2000 in
  let s' := snd (exportData 5000 s) in
  isTracking s = true
  /\ tabVisible s = false
  /\ (spentOf s 1%nat == 0)%Q
  /\ (spentOf s' 1%nat == 4000)%Q.
Proof. vm_compute. repeat split; reflexivity. Qed.

(** [exportData] never moves a stamp. *)
Lemma exportData_keeps_lastUpdate now s e :
  lastUpdate <$> engagementData (snd (exportData now s)) !! e
  = lastUpdate <$> engagementData s !! e.
Proof.
  unfold exportData.
  apply (fold_left_preserves
           (fun acc : list (string * JsObj) * State =>
              lastUpdate <$> engagementData (snd acc) !! e
              = lastUpdate <$> engagementData s !! e)); [|reflexivity].
  intros [r s'] p H. simpl in H. unfold exportOne.
  destruct (engagementData s' !! p) as [data|] eqn:E; [|exact H].
  simpl. rewrite <- H.
  destruct (decide (p = e)) as [->|Hne].
  - rewrite lookup_insert_eq, E. destruct (_ && _)%bool; reflexivity.
  - rewrite lookup_insert_ne by exact Hne. reflexivity.
Qed.

(** C3 (the code departs from the claim).  The export-time update credits
    [now - lastUpdate] and leaves [lastUpdate] as it was, so a second
    export credits the same span again: one second after the start, two
    exports at the same instant leave two seconds on the record. *)
Theorem exportData_double_counts :
  let s := run fresh oneInView in
  let s1 := snd (exportData 2000 s) in
  let s2 := snd (exportData 2000 s1) in
  (spentOf s 1%nat == 0)%Q
  /\ (spentOf s1 1%nat == 1000)%Q
  /\ (spentOf s2 1%nat == 2000)%Q
  /\ lastUpdate <$> engagementData s2 !! 1%nat = Some (Some 1000%Q).
Proof. vm_compute. repeat split; reflexivity. Qed.
End ExportClaims.

(** ** Stopping *)

Section StopClaims.
Import Props Examples.

Lemma flush_closed now d : V1.openInterval (V1.flush now d) = false.
Proof.
  unfold V1.flush, V1.openInterval.
  destruct (V1.inView d && V1.live (V1.lastViewTimestamp d))%bool eqn:E;
    [reflexivity | exact E].
Qed.

Lemma stampAll_lookup now (ps : list V2.Elem) : forall (ed : gmap V2.Elem V2.Data) p,
  V2.lastUpdate <$> fold_left (fun ed p => alter (V2.stamp now) p ed) ps ed !! p
  = if bool_decide (p ∈ ps) then (fun _ => Some now) <$> ed !! p
    else V2.lastUpdate <$> ed !! p.
Proof.
  induction ps as [|q ps IH]; intros ed p.
  - cbn [fold_left]. case_bool_decide as Hin; [|reflexivity].
    apply elem_of_nil in Hin. contradiction.
  - cbn [fold_left]. rewrite IH. destruct (decide (q = p)) as [->|Hne].
    + rewrite lookup_alter_eq.
      rewrite (bool_decide_eq_true_2 (p ∈ p :: ps)) by (apply elem_of_cons; auto).
      case_bool_decide; destruct (ed !! p); reflexivity.
    + rewrite lookup_alter_ne by exact Hne.
      rewrite (bool_decide_ext (p ∈ q :: ps) (p ∈ ps)); [reflexivity|].
      rewrite elem_of_cons. split; [intros [?|?]; [congruence | assumption] | auto].
Qed.

Lemma stampAll_stamped now s : stamped now (V2.stampAll now s).
Proof.
  intros p data Hin He. unfold V2.stampAll in He. simpl in *.
  pose proof (stampAll_lookup now (V2.paragraphs s) (V2.engagementData s) p) as Hl.
  rewrite He in Hl. rewrite bool_decide_eq_true_2 in Hl by exact Hin.
  simpl in Hl. destruct (V2.engagementData s !! p); simpl in Hl; congruence.
Qed.

Lemma processOne_stamped now s i : stamped now s -> stamped now (V2.processOne now s i).
Proof.
  intros H. unfold V2.processOne.
  destruct (_ ≫= _) as [paragraph|]; [|exact H].
  destruct (V2.engagementData s !! paragraph) as [data|] eqn:E; [|exact H].
  assert (Hnew : forall d', V2.lastUpdate d' = Some now ->
            stamped now (V2.set_engagementData
                           (<[paragraph := d']> (V2.engagementData s)) s)).
  { intros d' Hd' p data' Hin He. simpl in *.
    destruct (decide (paragraph = p)) as [->|Hne].
    - rewrite lookup_insert_eq in He. congruence.
    - rewrite lookup_insert_ne in He by exact Hne. exact (H p data' Hin He). }
  destruct (_ && _)%bool.
  - destruct (JsNum.Qltb _ _); apply Hnew; reflexivity.
  - apply Hnew. reflexivity.
Qed.

Lemma trackingFrame_stamped now s : stamped now s -> stamped now (V2.trackingFrame now s).
Proof.
  intros H. unfold V2.trackingFrame.
  destruct (_ || _)%bool; [exact H|].
  unfold V2.processBatch.
  change (stamped now
            (fold_left (V2.processOne now)
               (seq 0 (JsNum.loopCount (V2.batchSize now s))) s)).
  apply fold_left_preserves; [|exact H].
  intros s' i. apply processOne_stamped.
Qed.

Lemma startTracking_stamped now s :
  V2.isTracking s = false -> stamped now (snd (V2.startTracking now s)).
Proof.
  intros Ht. unfold V2.startTracking. rewrite Ht.
  assert (Hm : preserves (stamped now) (V2.emit V2.EvTrackingStarted ≫= fun _ => mret tt)).
  { preserve. intros w s' H'. exact H'. }
  unfold mbind at 1 2 3 4, V2.M_bind, V2.bind at 1 2 3 4, V2.modify. 
  apply Hm. apply trackingFrame_stamped.
  apply (stampAll_stamped now
           (V2.set_trackingStartTime now (V2.set_isTracking true s))).
Qed.

Lemma startTracking_keeps_records now s p :
  is_Some (V2.engagementData s !! p) ->
  is_Some (V2.engagementData (snd (V2.startTracking now s)) !! p).
Proof.
  set (P := fun s' : V2.State => is_Some (V2.engagementData s' !! p)).
  intros H. change (P (snd (V2.startTracking now s))). change (P s) in H.
  assert (Hins : forall s' q d', P s' ->
            P (V2.set_engagementData (<[q := d']> (V2.engagementData s')) s')).
  { intros s' q d' H'. unfold P in *. simpl.
    destruct (decide (q = p)) as [->|Hne].
    - rewrite lookup_insert_eq. eauto.
    - rewrite lookup_insert_ne by exact Hne. exact H'. }
  unfold V2.startTracking. destruct (V2.isTracking s); [exact H|].
  by_preserves H. preserve; try assumption.
  - unfold P in *. unfold V2.stampAll. simpl.
    apply fold_left_preserves; [|assumption].
    intros ed q Hed. destruct (decide (q = p)) as [->|Hne].
    + rewrite lookup_alter_eq. destruct Hed as [d Hd]. rewrite Hd. simpl. eauto.
    + rewrite lookup_alter_ne by exact Hne. exact Hed.
  - unfold V2.trackingFrame. destruct (_ || _)%bool; [assumption|].
    unfold V2.processBatch. cbv zeta.
    match goal with
    | |- P (V2.set_rafId _ (V2.set_lastProcessedIndex _ ?t)) => change (P t)
    end.
    apply fold_left_preserves; [|assumption].
    intros s' k H'. unfold V2.processOne.
    destruct (_ ≫= _) as [paragraph|]; [|exact H'].
    destruct (V2.engagementData s' !! paragraph) as [data|]; [|exact H'].
    destruct (_ && _)%bool; [|apply Hins, H'].
    destruct (JsNum.Qltb _ _); apply (Hins s'), H'.
  - intros w s' H'. exact H'.
Qed.

Lemma emit_state ev s : snd (V2.emit ev s) = V2.set_emitted (ev :: V2.emitted s) s.
Proof.
  unfold V2.emit. destruct (V2.listenersOf _ s).
  - destruct (String.eqb _ _); reflexivity.
  - destruct (V2.callAll _); reflexivity.
Qed.

Lemma stopTracking_records now s :
  let s' := snd (V2.stopTracking now s) in
  V2.engagementData s' = V2.engagementData s
  /\ V2.paragraphs s' = V2.paragraphs s
  /\ V2.isTracking s' = false.
Proof.
  unfold V2.stopTracking. destruct (V2.isTracking s) eqn:Ht; cbn [negb].
  - cbv [mbind V2.M_bind V2.bind V2.modify].
    match goal with
    | |- context [V2.emit ?ev ?t] =>
        pose proof (emit_state ev t) as He; destruct (V2.emit ev t) as [[b|e] t']
    end; simpl in He; subst t'; repeat split; reflexivity.
  - simpl. repeat split; auto.
Qed.

(** C2, counterexample.  In the frame edition a record in view since 1000
    is still open after [stopTracking] at 2000, and got no credit. *)
Lemma stopTracking_frame_keeps_interval :
  let s := V2.run fresh oneInView in
  let s' := snd (V2.stopTracking 2000 s) in
  V2.isTracking s = true
  /\ V2.openInterval <$> V2.engagementData s' !! 1%nat = Some true
  /\ (spentOf s' 1%nat == 0)%Q.
Proof. vm_compute. repeat split; reflexivity. Qed.

(** C2, as amended.  In the interval edition [stopTracking], called while
    tracking, credits [now - lastViewTimestamp] to every record in view
    with a live timestamp, then puts it out of view and clears the
    timestamp, so that no record is left open.  In the frame edition
    [stopTracking] leaves every record as it is and only clears
    [isTracking]; the next [startTracking] stamps the record of every
    tracked paragraph with its own instant. *)
Theorem stopTracking_flush_or_restamp
    (now1 : Z) (s1 : V1.State) (id : string) (d : V1.Data)
    (now now' : Q) (s : V2.State) (i : nat) (p : V2.Elem) (data : V2.Data) :
  V1.isTracking s1 = true ->
  aget (V1.engagementData s1) id = Some d ->
  V2.paragraphs s !! i = Some p ->
  V2.engagementData s !! p = Some data ->
  let d' := V1.flush now1 d in
  let s' := snd (V2.stopTracking now s) in
  (aget (V1.engagementData (V1.stopTracking now1 s1)) id = Some d'
   /\ V1.openInterval d' = false
   /\ V1.timeSpent d'
      = (if V1.openInterval d
         then V1.timeSpent d + (now1 - default 0 (V1.lastViewTimestamp d))
         else V1.timeSpent d)%Z
   /\ V1.inView d' = (if V1.openInterval d then false else V1.inView d)
   /\ V1.lastViewTimestamp d'
      = (if V1.openInterval d then None else V1.lastViewTimestamp d))
  /\ (V2.engagementData s' = V2.engagementData s
      /\ V2.isTracking s' = false
      /\ V2.lastUpdate <$> V2.engagementData (snd (V2.startTracking now' s')) !! p
         = Some (Some now')).
Proof.
  intros Ht1 Hd Hp He d' s'. split.
  - split.
    + unfold V1.stopTracking. rewrite Ht1. simpl.
      rewrite aget_amap, Hd. reflexivity.
    + split; [apply flush_closed|].
      unfold d', V1.flush, V1.openInterval.
      destruct (V1.inView d && V1.live (V1.lastViewTimestamp d))%bool;
        repeat split; reflexivity.
  - destruct (stopTracking_records now s) as (Hed & Hps & Hts).
    fold s' in Hed, Hps, Hts.
    split; [exact Hed|]. split; [exact Hts|].
    assert (Hsome : is_Some (V2.engagementData s' !! p)).
    { rewrite Hed, He. eauto. }
    apply (startTracking_keeps_records now') in Hsome as [data' Hdata'].
    rewrite Hdata'. simpl. f_equal.
    apply (startTracking_stamped now' s' Hts p data'); [|exact Hdata'].
    assert (Hps' : V2.paragraphs (snd (V2.startTracking now' s')) = V2.paragraphs s').
    { clear. set (P := fun t : V2.State => V2.paragraphs t = V2.paragraphs s').
      change (P (snd (V2.startTracking now' s'))).
      assert (H : P s') by reflexivity.
      unfold V2.startTracking. destruct (V2.isTracking s'); [exact H|].
      by_preserves H. preserve; try assumption.
      - unfold V2.trackingFrame. destruct (_ || _)%bool; [assumption|].
        unfold V2.processBatch. cbv zeta.
        match goal with
        | |- P (V2.set_rafId _ (V2.set_lastProcessedIndex _ ?t)) => change (P t)
        end.
        apply fold_left_preserves; [|assumption].
        intros t k H'. unfold V2.processOne.
        destruct (_ ≫= _) as [paragraph|]; [|exact H'].
        destruct (V2.engagementData t !! paragraph) as [dt|]; [|exact H'].
        destruct (_ && _)%bool; [|exact H'].
        destruct (JsNum.Qltb _ _); exact H'.
      - intros w t H'. exact H'. }
    rewrite Hps', Hps. eapply list_elem_of_lookup_2, Hp.
Qed.

Lemma stopTracking_flush_or_restamp_witness :
  V1.isTracking intervalInView = true
  /\ V1.timeSpent <$> aget (V1.engagementData (V1.stopTracking 2000 intervalInView)) "p-0"
     = Some 1000%Z
  /\ V2.lastUpdate
       <$> V2.engagementData
             (snd (V2.startTracking 3000
                     (snd (V2.stopTracking 2000 (V2.run fresh oneInView))))) !! 1%nat
     = Some (Some 3000%Q).
Proof.
  pose proof (stopTracking_flush_or_restamp
                2000 intervalInView "p-0"
                {| V1.element := V1.mkElement "First paragraph."; V1.timeSpent := 0;
                   V1.inView := true; V1.lastViewTimestamp := Some 1000%Z;
                   V1.index := 0 |}
                2000 3000 (V2.run fresh oneInView) 0 1%nat
                {| V2.visibleRatio := 1; V2.timeSpent := 0; V2.weightedTime := 0;
                   V2.lastUpdate := Some 1000%Q; V2.inView := true |}
                eq_refl eq_refl eq_refl eq_refl) as [(H1 & _) (_ & _ & H2)].
  split; [reflexivity|]. split.
  - rewrite H1. reflexivity.
  - exact H2.
Defined.
End StopClaims.

(** ** Visibility reports *)

Section ReportClaims.
Import V2 Props Examples.

Lemma onEntry_tracked now s entry e :
  is_Some (engagementData s !! e) ->
  is_Some (engagementData (onEntry now s entry) !! e).
Proof.
  intros H. unfold onEntry.
  destruct (engagementData s !! target entry) as [data|] eqn:E; [|exact H].
  assert (Hins : forall d',
            is_Some (engagementData
                       (set_engagementData (<[target entry := d']> (engagementData s)) s)
                     !! e)).
  { intros d'. simpl. destruct (decide (target entry = e)) as [->|Hne].
    - rewrite lookup_insert_eq. eauto.
    - rewrite lookup_insert_ne by exact Hne. exact H. }
  destruct (_ && _)%bool; [|apply Hins].
  destruct (JsNum.Qltb _ _); apply Hins.
Qed.

Lemma onEntry_ratio now s entry data :
  engagementData s !! target entry = Some data ->
  visibleRatio <$> engagementData (onEntry now s entry) !! target entry
  = Some (intersectionRatio entry).
Proof.
  intros E. unfold onEntry. rewrite E.
  destruct (_ && _)%bool; [destruct (JsNum.Qltb _ _)|];
    simpl; rewrite lookup_insert_eq; reflexivity.
Qed.

Lemma onEntry_other now s entry e :
  target entry <> e ->
  visibleRatio <$> engagementData (onEntry now s entry) !! e
  = visibleRatio <$> engagementData s !! e.
Proof.
  intros Hne. unfold onEntry.
  destruct (engagementData s !! target entry) as [data|]; [|reflexivity].
  destruct (_ && _)%bool; [destruct (JsNum.Qltb _ _)|];
    simpl; rewrite lookup_insert_ne by exact Hne; reflexivity.
Qed.

(** C8, counterexample.  A report delivered while the tab is hidden is
    dropped: the record keeps its old ratio. *)
Lemma report_dropped_while_hidden :
  let s := run fresh hiddenBeforeReport in
  let s' := handleIntersection 1000 [mkEntry 1 (4 # 5) true] s in
  is_Some (engagementData s !! 1%nat)
  /\ (ratioOf s' 1%nat == 0)%Q
  /\ ~ (ratioOf s' 1%nat == 4 # 5)%Q.
Proof.
  vm_compute. split; [eauto|]. split; [reflexivity | discriminate].
Qed.

(** C8, as amended.  In the frame edition, while the tab is visible, a batch
    of reports leaves on the record of every tracked target the ratio of the
    last report of the batch for that target, whatever the threshold,
    [isIntersecting] and the tracking flag are. *)
Theorem handleIntersection_updates_ratio
    (now : Q) (s : State) (before after : list Entry) (entry : Entry) (data : Data) :
  tabVisible s = true ->
  engagementData s !! target entry = Some data ->
  forallb (fun later => negb (Nat.eqb (target later) (target entry))) after = true ->
  visibleRatio
    <$> engagementData (handleIntersection now (before ++ entry :: after) s) !! target entry
  = Some (intersectionRatio entry).
Proof.
  intros Hv He Hafter. unfold handleIntersection. rewrite Hv. simpl.
  rewrite fold_left_app. simpl.
  set (s1 := fold_left (onEntry now) before s).
  assert (H1 : is_Some (engagementData s1 !! target entry)).
  { apply (fold_left_preserves
             (fun t => is_Some (engagementData t !! target entry))).
    - intros t x. apply onEntry_tracked.
    - rewrite He. eauto. }
  destruct H1 as [d1 Hd1].
  pose proof (onEntry_ratio now s1 entry d1 Hd1) as H2.
  revert H2. generalize (onEntry now s1 entry) as s2.
  induction after as [|later after IH]; intros s2 H2; simpl; [exact H2|].
  simpl in Hafter. apply andb_true_iff in Hafter as [Hne Hafter].
  apply negb_true_iff, Nat.eqb_neq in Hne.
  apply IH; [exact Hafter|].
  rewrite onEntry_other by exact Hne. exact H2.
Qed.

Lemma handleIntersection_updates_ratio_witness :
  tabVisible (run fresh oneInView) = true
  /\ visibleRatio
       <$> engagementData
             (handleIntersection 1500
                [mkEntry 1 (1 # 10) true; mkEntry 1 (3 # 10) false] (run fresh oneInView))
           !! 1%nat
     = Some (3 # 10)%Q.
Proof.
  split; [reflexivity|].
  apply (handleIntersection_updates_ratio 1500 (run fresh oneInView)
           [mkEntry 1 (1 # 10) true] [] (mkEntry 1 (3 # 10) false)
           {| visibleRatio := 1; timeSpent := 0; weightedTime := 0;
              lastUpdate := Some 1000%Q; inView := true |}).
  - reflexivity.
  - vm_compute. reflexivity.
  - reflexivity.
Defined.
End ReportClaims.

(** ** Deregistration *)

Section DeregistrationClaims.
Import V2 Props Examples.

Lemma handleDOMChanges_maxEngagement dateNow now mutation s :
  maxEngagement (snd (handleDOMChanges dateNow now mutation s)) = maxEngagement s.
Proof.
  set (P := fun t : State => maxEngagement t = maxEngagement s).
  assert (Hp : preserves P (handleDOMChanges dateNow now mutation)).
  { unfold handleDOMChanges. preserve.
    - intros t H. unfold addNode.
      destruct (String.eqb _ _); [|exact H]. destruct (observer t); exact H.
    - apply fold_left_preserves; [|assumption].
      intros t node H'. unfold removeNode.
      destruct (_ && _)%bool; [|exact H'].
      destruct (list_find _ _) as [[index p]|]; exact H'. }
  apply Hp. reflexivity.
Qed.

(** C5, counterexample.  After the paragraph that held the maximum (4000) is
    removed, its record is gone but [maxEngagement] is still 4000, and the
    heat map gives the remaining paragraph (1000) the intensity 1/4. *)
Lemma removal_keeps_stale_maximum :
  let s := run fresh removal in
  paragraphs s = [1%nat]
  /\ engagementData s !! 2%nat = None
  /\ (spentOf s 1%nat == 1000)%Q
  /\ (maxEngagement s == 4000)%Q
  /\ match _updateHeatmap s with
     | Some [segment] => (segIntensity segment == 1 # 4)%Q
     | _ => False
     end.
Proof. vm_compute. repeat split; reflexivity. Qed.

(** C5, as amended.  When a tracked paragraph is removed from the document,
    the first tracked paragraph that carries its [highlightId] is spliced out
    of the tracked set and the record of the node is deleted; when the
    tracker is destroyed (and no [trackingStopped] listener throws) the
    tracked set and the records are emptied.  In both cases [maxEngagement]
    keeps its value: it is not recomputed, and the heat map intensity of any
    record is computed against the same maximum as before.  (The paragraph
    spliced out is the node itself, or another paragraph when that one
    carries the same [highlightId] and comes first.) *)
Theorem deregistration_keeps_maxEngagement
    (s : State) (dateNow : Z) (now : Q) (node : Elem) (i : nat) (carrier : Elem) :
  nodeName (nodeAt s node) = "P" ->
  idTruthy (highlightId (nodeAt s node)) = true ->
  list_find (fun p => highlightId (nodeAt s p) = highlightId (nodeAt s node)) (paragraphs s)
  = Some (i, carrier) ->
  callAll (listenersOf "trackingStopped" s) = None ->
  let s1 := snd (handleDOMChanges dateNow now (mkMutation [] [node]) s) in
  let s2 := snd (destroy now s) in
  (paragraphs s1 = delete i (paragraphs s)
   /\ engagementData s1 = delete node (engagementData s)
   /\ maxEngagement s1 = maxEngagement s
   /\ forall data, intensity s1 data = intensity s data)
  /\ (paragraphs s2 = []
      /\ engagementData s2 = ∅
      /\ maxEngagement s2 = maxEngagement s).
Proof.
  intros Hname Hid Hfind Hstop s1 s2. split.
  - assert (Hs1 : s1 = removeNode node s) by reflexivity.
    assert (Hr : removeNode node s
                 = set_engagementData (delete node (engagementData s))
                     (set_paragraphs (delete i (paragraphs s)) s)).
    { unfold removeNode. rewrite Hname, Hid, Hfind. reflexivity. }
    rewrite Hs1, Hr. repeat split; reflexivity.
  - assert (Hst : exists t, stopTracking now s = (Ret tt, t)
                            /\ maxEngagement t = maxEngagement s).
    { unfold stopTracking. destruct (isTracking s); cbn [negb]; [|eauto].
      cbv [mbind M_bind bind modify emit].
      change (listenersOf (eventName (EvTrackingStopped (now - trackingStartTime s)))
                (set_rafId false (set_isTracking false s)))
        with (listenersOf "trackingStopped" s).
      destruct (listenersOf "trackingStopped" s) as [|l ls].
      - simpl. eauto.
      - rewrite Hstop. simpl. eauto. }
    destruct Hst as (t & Ht & Hmax).
    unfold s2, destroy, tryCatch.
    cbv [mbind M_bind bind modify]. rewrite Ht.
    match goal with
    | |- context [emit ?ev ?u] =>
        pose proof (emit_state ev u) as He; destruct (emit ev u) as [[b|e] u']
    end; simpl in He; subst u'.
    + simpl. repeat split; try reflexivity; exact Hmax.
    + match goal with
      | |- context [emit ?ev ?u] =>
          pose proof (emit_state ev u) as He; destruct (emit ev u) as [[b|e'] u']
      end; simpl in He; subst u'; simpl; repeat split; try reflexivity; exact Hmax.
Qed.

Lemma deregistration_keeps_maxEngagement_witness :
  let s := run fresh beforeRemoval in
  let t := run fresh sharedIdentifier in
  ((maxEngagement s == 4000)%Q
   /\ engagementData (snd (handleDOMChanges 1701 6000 (mkMutation [] [2%nat]) s))
      = delete 2%nat (engagementData s)
   /\ maxEngagement (snd (handleDOMChanges 1701 6000 (mkMutation [] [2%nat]) s))
      = maxEngagement s
   /\ maxEngagement (snd (destroy 6000 s)) = maxEngagement s)
  /\ (paragraphs t = [1%nat; 2%nat]
      /\ paragraphs (snd (handleDOMChanges 1701 6000 (mkMutation [] [2%nat]) t))
         = delete 0%nat (paragraphs t)
      /\ engagementData (snd (handleDOMChanges 1701 6000 (mkMutation [] [2%nat]) t))
         = delete 2%nat (engagementData t)
      /\ maxEngagement (snd (handleDOMChanges 1701 6000 (mkMutation [] [2%nat]) t))
         = maxEngagement t).
Proof.
  intros s t.
  pose proof (deregistration_keeps_maxEngagement s 1701 6000 2%nat 1%nat 2%nat
                eq_refl eq_refl eq_refl eq_refl) as [(_ & H1 & H2 & _) (_ & _ & H3)].
  pose proof (deregistration_keeps_maxEngagement t 1701 6000 2%nat 0%nat 1%nat
                eq_refl eq_refl eq_refl eq_refl) as [(K0 & K1 & K2 & _) _].
  split.
  - split; [reflexivity|]. split; [exact H1|]. split; [exact H2 | exact H3].
  - split; [reflexivity|]. split; [exact K0|]. split; [exact K1 | exact K2].
Defined.
End DeregistrationClaims.

(** ** Normalisation *)

Section NormalisationClaims.
Import Props Examples.

Lemma aget_In {A} (o : list (string * A)) (k : string) (v : A) :
  aget o k = Some v -> In (k, v) o.
Proof.
  induction o as [|[k' v'] o IH]; simpl; [discriminate|].
  destruct (String.eqb k' k) eqn:E.
  - apply String.eqb_eq in E. intros [= ->]. subst. left. reflexivity.
  - intros H. right. apply IH, H.
Qed.

Lemma aset_Forall {A} (P : string * A -> Prop) (o : list (string * A)) k v :
  Forall P o -> P (k, v) -> Forall P (aset o k v).
Proof.
  intros Ho Hv. induction Ho as [|[k' v'] o Hx Ho IH]; simpl.
  - constructor; [exact Hv | constructor].
  - destruct (String.eqb k' k); constructor; assumption.
Qed.

(** Every entry of the first loop comes from a record, under its key. *)
Lemma collect_entries (s : V1.State) :
  Forall (fun kv => exists d, In (fst kv, d) (V1.engagementData s)
                              /\ snd kv = V1.exportEntry d)
    (V1.collect s).
Proof.
  unfold V1.collect.
  assert (H : forall l r,
             (forall kd, In kd l -> In kd (V1.engagementData s)) ->
             Forall (fun kv => exists d, In (fst kv, d) (V1.engagementData s)
                                         /\ snd kv = V1.exportEntry d) r ->
             Forall (fun kv => exists d, In (fst kv, d) (V1.engagementData s)
                                         /\ snd kv = V1.exportEntry d)
               (fold_left (fun r kd => aset r (fst kd) (V1.exportEntry (snd kd))) l r)).
  { induction l as [|[k d] l IH]; simpl; intros r Hl Hr; [exact Hr|].
    apply IH; [intros kd Hkd; apply Hl; right; exact Hkd|].
    apply aset_Forall; [exact Hr|].
    exists d. split; [apply Hl; left; reflexivity | reflexivity]. }
  apply H; [auto | constructor].
Qed.

(** [Math.max] over finite numbers returns one of them, above all others;
    over no number it returns [-Infinity]. *)
Lemma maxOf_spec (xs : list num) :
  Forall isFin xs ->
  match V1.maxOf xs with
  | NegInf => xs = []
  | Fin m => In (Fin m) xs /\ forall q, In (Fin q) xs -> (q <= m)%Q
  | _ => False
  end.
Proof.
  induction 1 as [|x xs [a ->] Hxs IH]; simpl; [reflexivity|].
  destruct (V1.maxOf xs) as [| | |m]; try contradiction.
  - subst xs. simpl. split; [left; reflexivity|].
    intros q [[= <-]|[]]. apply Qle_refl.
  - destruct IH as [Hin Hmax]. simpl.
    destruct (JsNum.Qltb a m) eqn:E.
    + apply Qltb_true in E. split; [right; exact Hin|].
      intros q [[= <-]|Hq]; [apply Qlt_le_weak, E | apply Hmax, Hq].
    + apply Qltb_false in E. split; [left; reflexivity|].
      intros q [[= <-]|Hq]; [apply Qle_refl|].
      apply Qle_trans with m; [apply Hmax, Hq | exact E].
Qed.

Lemma collect_times_finite (s : V1.State) :
  Forall isFin (map V1.entryTime (avalues (V1.collect s))).
Proof.
  unfold avalues. rewrite map_map. apply Forall_map.
  eapply Forall_impl; [apply collect_entries|].
  intros [k e] (d & _ & He). simpl in *. subst e. eexists. reflexivity.
Qed.

(** The frame edition exports no [normalizedEngagement]. *)
Lemma exportData_frame_fields now s :
  Forall (fun kv => getField (snd kv) "normalizedEngagement" = None)
    (fst (V2.exportData now s)).
Proof.
  unfold V2.exportData.
  apply (fold_left_preserves
           (fun acc : list (string * JsObj) * V2.State =>
              Forall (fun kv => getField (snd kv) "normalizedEngagement" = None)
                (fst acc))); [|constructor].
  intros [r t] p Hr. simpl in Hr. unfold V2.exportOne.
  destruct (V2.engagementData t !! p); [|exact Hr].
  simpl. apply aset_Forall; [exact Hr | reflexivity].
Qed.

(** C6, counterexample.  The report of the frame edition has an entry for
    the tracked paragraph, and the entry has no [normalizedEngagement]. *)
Lemma export_frame_without_normalizedEngagement :
  let report := fst (V2.exportData 3000 (V2.run fresh session)) in
  is_Some (aget report "p-1700-0")
  /\ (aget report "p-1700-0" ≫= fun entry => getField entry "normalizedEngagement") = None.
Proof. vm_compute. split; [eauto | reflexivity]. Qed.

(** C6, as amended.  In the interval edition every exported entry comes
    from a record and carries [normalizedEngagement]: the record's
    [timeSpent] divided by the largest exported [timeSpent] when that maximum
    is positive, and 0 otherwise.  With a positive maximum the value is at
    most 1, it is 1 for a record that holds the maximum, and it is at least
    0 for a record whose [timeSpent] is not negative.  The report of the
    frame edition has no [normalizedEngagement] field. *)
Theorem export_normalizedEngagement
    (s1 : V1.State) (id1 : string) (e1 : JsObj)
    (now : Q) (s2 : V2.State) (id2 : string) (e2 : JsObj) :
  aget (V1.exportData s1) id1 = Some e1 ->
  aget (fst (V2.exportData now s2)) id2 = Some e2 ->
  (exists d q,
      let spent := inject_Z (V1.timeSpent d) in
      In (id1, d) (V1.engagementData s1)
      /\ getField e1 "timeSpent" = Some (VNum (Fin spent))
      /\ getField e1 "normalizedEngagement" = Some (VNum (Fin q))
      /\ if JsNum.gt (V1.maxTime s1) (Fin 0) then
           exists m,
             V1.maxTime s1 = Fin m
             /\ In (Fin m) (map V1.entryTime (avalues (V1.collect s1)))
             /\ q = (spent / m)%Q
             /\ (q <= 1)%Q
             /\ ((spent == m)%Q -> (q == 1)%Q)
             /\ ((0 <= spent)%Q -> (0 <= q)%Q)
         else q = 0%Q)
  /\ getField e2 "normalizedEngagement" = None.
Proof.
  intros H1 H2. split.
  - pose proof (collect_entries s1) as Hc.
    pose proof (maxOf_spec _ (collect_times_finite s1)) as Hm.
    fold (V1.maxTime s1) in Hm.
    unfold V1.exportData in H1.
    destruct (JsNum.gt (V1.maxTime s1) (Fin 0)) eqn:G.
    + rewrite aget_amap in H1.
      destruct (aget (V1.collect s1) id1) as [e0|] eqn:E0; [|discriminate].
      injection H1 as <-.
      apply aget_In in E0.
      pose proof (proj1 (List.Forall_forall _ _) Hc _ E0) as (d & Hd & He0).
      simpl in Hd, He0. subst e0.
      destruct (V1.maxTime s1) as [| | |m] eqn:EM; try contradiction;
        try discriminate.
      destruct Hm as [Hin Hmax].
      assert (Hpos : (0 < m)%Q) by (apply Qltb_true; exact G).
      assert (Hle : (inject_Z (V1.timeSpent d) <= m)%Q).
      { apply Hmax. apply in_map_iff. exists (V1.exportEntry d).
        split; [reflexivity|]. apply in_map_iff. exists (id1, V1.exportEntry d).
        split; [reflexivity | exact E0]. }
      assert (Hz : Qeq_bool m 0 = false).
      { destruct (Qeq_bool m 0) eqn:Z; [|reflexivity].
        apply Qeq_bool_iff in Z. rewrite Z in Hpos. apply Qlt_irrefl in Hpos. contradiction. }
      exists d, (inject_Z (V1.timeSpent d) / m)%Q. cbv zeta.
      split; [exact Hd|]. split; [reflexivity|]. split.
      { unfold V1.normalize, V1.entryTime, V1.exportEntry, V1.num_of_Z. simpl.
        rewrite Hz. reflexivity. }
      exists m. split; [reflexivity|]. split; [exact Hin|]. split; [reflexivity|].
      split; [|split].
      * apply Qle_shift_div_r; [exact Hpos | lra].
      * intros Heq. rewrite Heq. apply Qmult_inv_r.
        intros Z. rewrite Z in Hpos. apply Qlt_irrefl in Hpos. contradiction.
      * intros H0. apply Qle_shift_div_l; [exact Hpos | lra].
    + apply aget_In in H1.
      pose proof (proj1 (List.Forall_forall _ _) Hc _ H1) as (d & Hd & He1).
      simpl in Hd, He1. subst e1.
      exists d, 0%Q. cbv zeta. repeat split; [exact Hd|..]; reflexivity.
  - apply aget_In in H2.
    exact (proj1 (List.Forall_forall _ _) (exportData_frame_fields now s2) _ H2).
Qed.

Lemma export_normalizedEngagement_witness :
  (aget (V1.exportData intervalTwo) "p-0" ≫= fun e => getField e "normalizedEngagement")
  = Some (VNum (Fin (1000 # 4000)))
  /\ (aget (V1.exportData intervalTwo) "p-1" ≫= fun e => getField e "normalizedEngagement")
     = Some (VNum (Fin (4000 # 4000)))
  /\ exists e2,
       aget (fst (V2.exportData 3000 (V2.run fresh session))) "p-1700-1" = Some e2
       /\ getField e2 "normalizedEngagement" = None.
Proof.
  split; [reflexivity|]. split; [reflexivity|].
  eexists. split; [vm_compute; reflexivity|].
  refine (proj2 (export_normalizedEngagement intervalTwo "p-1" _
                   3000 (V2.run fresh session) "p-1700-1" _ _ _)).
  - vm_compute. reflexivity.
  - vm_compute. reflexivity.
Defined.
End NormalisationClaims.

(** ** Construction *)

Section ConstructionClaims.
Import V2 Props Examples.

Lemma validateFrom_throw input schema : forall acc e,
  validateFrom input schema acc = Throw e ->
  exists key config, In (key, config) schema /\ validateOption key config input = Throw e.
Proof.
  induction schema as [|[key config] schema IH]; simpl; intros acc e H; [discriminate|].
  destruct (validateOption key config input) as [v|e'] eqn:E.
  - destruct (IH _ _ H) as (k & c & Hin & Hk). exists k, c. auto.
  - injection H as <-. exists key, config. auto.
Qed.

Lemma validateFrom_ret input schema : forall acc o,
  validateFrom input schema acc = Ret o ->
  forall key config, In (key, config) schema ->
                     exists v, validateOption key config input = Ret v.
Proof.
  induction schema as [|[key config] schema IH]; simpl; intros acc o H k c Hin;
    [contradiction|].
  destruct (validateOption key config input) as [v|e'] eqn:E; [|discriminate].
  destruct Hin as [[= <- <-]|Hin]; [eauto | eapply IH; eassumption].
Qed.

Lemma validateOption_number key lo hi dflt input v :
  validateOption key (mkConfig "number" (Some lo) hi (VNum dflt)) input = Ret v ->
  numberWithin v lo hi = true.
Proof.
  unfold validateOption, belowMin, aboveMax. simpl.
  destruct (getProp input key) as [| |b|n|t|f]; simpl; try discriminate.
  all: destruct (JsNum.lt _ lo) eqn:L; [discriminate|].
  all: destruct hi as [h|]; simpl.
  all: try (destruct (JsNum.gt _ h) eqn:G; [discriminate|]).
  all: intros [= <-]; simpl; rewrite L; try rewrite G; reflexivity.
Qed.

Lemma validateOption_colors input v :
  validateOption "colors" (mkConfig "object" None None defaultColors) input = Ret v ->
  colorsShape v = true.
Proof.
  unfold validateOption, belowMin, aboveMax. simpl.
  destruct (getProp input "colors") as [| |b|n|t|f]; simpl;
    try (intros [= <-]; reflexivity).
  - destruct b; simpl; [discriminate|]. intros [= <-]. reflexivity.
  - destruct (JsNum.truthy n) eqn:T; simpl; [discriminate|].
    intros [= <-]. simpl. rewrite T. reflexivity.
  - destruct (String.eqb t "") eqn:T; simpl; [|discriminate].
    intros [= <-]. simpl. rewrite T. reflexivity.
Qed.

Lemma validateOption_mount input v :
  validateOption "heatmapContainer" (mkConfig "string" None None VNull) input = Ret v ->
  mountShape v = true.
Proof.
  unfold validateOption, belowMin, aboveMax. simpl.
  destruct (getProp input "heatmapContainer") as [| |b|n|t|f]; simpl;
    try discriminate; intros [= <-]; reflexivity.
Qed.

Lemma constructor_inRange input s :
  constructor input = Ret s -> inRange (options s) = true.
Proof.
  unfold constructor, validateOptions, validationSchema. cbn [validateFrom].
  destruct (validateOption "minTimeThreshold" _ input) as [v1|] eqn:E1; [|discriminate].
  destruct (validateOption "samplingRate" _ input) as [v2|] eqn:E2; [|discriminate].
  destruct (validateOption "visibilityThreshold" _ input) as [v3|] eqn:E3; [|discriminate].
  destruct (validateOption "colors" _ input) as [v4|] eqn:E4; [|discriminate].
  destruct (validateOption "heatmapContainer" _ input) as [v5|] eqn:E5; [|discriminate].
  intros [= <-].
  change ((numberWithin v1 (Fin 0) None
           && numberWithin v2 (Fin 10) (Some (Fin 1000))
           && numberWithin v3 (Fin 0) (Some (Fin 1))
           && colorsShape v4 && mountShape v5)%bool = true).
  rewrite (validateOption_number _ _ _ _ _ _ E1).
  rewrite (validateOption_number _ _ _ _ _ _ E2).
  rewrite (validateOption_number _ _ _ _ _ _ E3).
  rewrite (validateOption_colors _ _ E4).
  rewrite (validateOption_mount _ _ E5).
  reflexivity.
Qed.

Local Ltac pick_error :=
  simpl; repeat (first [left; reflexivity | right]); fail.

Lemma validateOption_errors key config input e :
  In (key, config) validationSchema ->
  validateOption key config input = Throw e ->
  In e violationErrors.
Proof.
  unfold validationSchema. simpl.
  intros [[= <- <-]|[[= <- <-]|[[= <- <-]|[[= <- <-]|[[= <- <-]|[]]]]]];
    unfold validateOption, belowMin, aboveMax; simpl;
    destruct (getProp input _) as [| |b|n|t|f]; simpl;
    repeat (match goal with
            | |- context [if ?c then _ else _] => destruct c
            end; simpl);
    try discriminate; intros [= <-]; pick_error.
Qed.

Lemma constructor_errors input e :
  constructor input = Throw e -> In e violationErrors.
Proof.
  unfold constructor, validateOptions.
  destruct (validateFrom input validationSchema []) as [o|e'] eqn:V; [discriminate|].
  intros [= <-].
  destruct (validateFrom_throw _ _ _ _ V) as (key & config & Hin & Hk).
  exact (validateOption_errors key config input e' Hin Hk).
Qed.

Lemma out_of_range_rejected input key config n :
  In (key, config) validationSchema ->
  getProp input key = VNum n ->
  (belowMin config (VNum n) || aboveMax config (VNum n))%bool = true ->
  validateOption key config input = Throw (rangeError key config n).
Proof.
  unfold validationSchema. simpl.
  intros [[= <- <-]|[[= <- <-]|[[= <- <-]|[[= <- <-]|[[= <- <-]|[]]]]]] Hget;
    unfold validateOption, rangeError, belowMin, aboveMax; rewrite Hget; simpl;
    try discriminate.
  all: destruct (JsNum.lt n _); simpl; [reflexivity|].
  - discriminate.
  - intros ->. reflexivity.
  - intros ->. reflexivity.
Qed.

Lemma negative_truthy (n : num) : JsNum.lt n (Fin 0) = true -> JsNum.truthy n = true.
Proof.
  destruct n as [| | |q]; simpl; try discriminate; [reflexivity|].
  intros H. apply Qltb_true in H.
  destruct (Qeq_bool q 0) eqn:Z; [|reflexivity].
  apply Qeq_bool_iff in Z. rewrite Z in H. apply Qlt_irrefl in H. contradiction.
Qed.

Lemma violationErrors_distinct : List.NoDup violationErrors.
Proof.
  unfold violationErrors.
  repeat (constructor; [simpl; intuition discriminate|]). constructor.
Qed.

Lemma validateOption_colors_falsy input v :
  getProp input "colors" = v ->
  truthy v = false ->
  validateOption "colors" (mkConfig "object" None None defaultColors) input
  = Ret (nullish v defaultColors).
Proof.
  intros Hget Hv. unfold validateOption, belowMin, aboveMax.
  cbn [ctype cmin cmax cdefault]. rewrite Hget, Hv, String.eqb_refl.
  cbn [andb negb]. rewrite andb_false_r. reflexivity.
Qed.

Lemma constructor_colors input s :
  V2.constructor input = Ret s ->
  validateOption "colors" (mkConfig "object" None None defaultColors) input
  = Ret (getProp (V2.options s) "colors").
Proof.
  unfold V2.constructor, validateOptions, validationSchema. cbn [validateFrom].
  destruct (validateOption "minTimeThreshold" _ input) as [v1|]; [|discriminate].
  destruct (validateOption "samplingRate" _ input) as [v2|]; [|discriminate].
  destruct (validateOption "visibilityThreshold" _ input) as [v3|]; [|discriminate].
  destruct (validateOption "colors" _ input) as [v4|]; [|discriminate].
  destruct (validateOption "heatmapContainer" _ input) as [v5|]; [|discriminate].
  intros [= <-]. reflexivity.
Qed.

(** C9 (the code departs from the claim).  The check of [colors] in
    [validateOptions] is skipped for a falsy value: a [colors] that is
    [false], [0], [NaN] or the empty string is not an object, yet the
    constructor of the frame edition builds a tracker and stores the value
    as its [colors], on its own or beside any other options that pass;
    whereas a truthy value that is not an object is rejected with
    ["colors must be an object"].  The range tests are comparisons, which
    [NaN] passes: each numeric option given as [NaN] is accepted and stored.
    The interval edition has no range but the sign: it builds a tracker with
    a [samplingRate] of 5000. *)
Theorem constructor_accepts_invalid_options (v w : JsVal) :
  truthy v = false ->
  nullish v defaultColors = v ->
  truthy w = true ->
  String.eqb (typeof w) "object" = false ->
  (exists s, V2.constructor [("colors", v)] = Ret s
             /\ getProp (V2.options s) "colors" = v
             /\ String.eqb (typeof v) "object" = false)
  /\ (forall input s, getProp input "colors" = v ->
                      V2.constructor input = Ret s ->
                      getProp (V2.options s) "colors" = v)
  /\ V2.constructor [("colors", w)] = Throw (mkExn KTypeError "colors must be an object")
  /\ (forall key, In key ["minTimeThreshold"; "samplingRate"; "visibilityThreshold"] ->
                  exists s, V2.constructor [(key, VNum NaN)] = Ret s
                            /\ getProp (V2.options s) key = VNum NaN)
  /\ (exists s, V1.constructor [("samplingRate", VNum (Fin 5000))] = Ret s
                /\ getProp (V1.options s) "samplingRate" = VNum (Fin 5000)).
Proof.
  intros Hv Hkeep Hw Hshape.
  split; [|split; [|split; [|split]]].
  - assert (Hcheck : validateOption "colors" (mkConfig "object" None None defaultColors)
                       [("colors", v)] = Ret v).
    { rewrite (validateOption_colors_falsy [("colors", v)] v eq_refl Hv), Hkeep.
      reflexivity. }
    unfold V2.constructor, validateOptions, validationSchema. cbn [validateFrom].
    change (validateOption "minTimeThreshold" _ [("colors", v)]) with (Ret (VNum (Fin 1000))).
    change (validateOption "samplingRate" _ [("colors", v)]) with (Ret (VNum (Fin 200))).
    change (validateOption "visibilityThreshold" _ [("colors", v)])
      with (Ret (VNum (Fin (1 # 2)))).
    change (validateOption "heatmapContainer" _ [("colors", v)]) with (Ret VNull).
    cbv iota. rewrite Hcheck. eexists. split; [reflexivity|]. split; [reflexivity|].
    destruct v as [| |b|n|t|f]; try reflexivity; discriminate.
  - intros input s Hget Hs. pose proof (constructor_colors input s Hs) as Hc.
    rewrite (validateOption_colors_falsy input v Hget Hv), Hkeep in Hc.
    injection Hc as <-. reflexivity.
  - destruct w as [| |b|n|t|f]; try discriminate.
    + destruct b; [reflexivity | discriminate].
    + unfold V2.constructor, validateOptions, validationSchema. cbn [validateFrom].
      change (validateOption "minTimeThreshold" _ [("colors", VNum n)])
        with (Ret (VNum (Fin 1000))).
      change (validateOption "samplingRate" _ [("colors", VNum n)])
        with (Ret (VNum (Fin 200))).
      change (validateOption "visibilityThreshold" _ [("colors", VNum n)])
        with (Ret (VNum (Fin (1 # 2)))).
      cbv iota. unfold validateOption. cbn [ctype cdefault].
      change (getProp [("colors", VNum n)] "colors") with (VNum n).
      rewrite Hw. reflexivity.
    + unfold V2.constructor, validateOptions, validationSchema. cbn [validateFrom].
      change (validateOption "minTimeThreshold" _ [("colors", VStr t)])
        with (Ret (VNum (Fin 1000))).
      change (validateOption "samplingRate" _ [("colors", VStr t)])
        with (Ret (VNum (Fin 200))).
      change (validateOption "visibilityThreshold" _ [("colors", VStr t)])
        with (Ret (VNum (Fin (1 # 2)))).
      cbv iota. unfold validateOption. cbn [ctype cdefault].
      change (getProp [("colors", VStr t)] "colors") with (VStr t).
      rewrite Hw. reflexivity.
  - intros key [<-|[<-|[<-|[]]]]; eexists; split; reflexivity.
  - eexists. split; reflexivity.
Qed.

(** ToNumber on strings. *)
Example toNumber_strings :
  JsNum.lt (toNumber (VStr "-5")) (Fin 0) = true
  /\ JsNum.ge (Fin (1 # 10)) (toNumber (VStr "0.1")) = true
  /\ JsNum.ge (toNumber (VStr "0.1")) (Fin (1 # 10)) = true
  /\ JsNum.ge (toNumber (VStr " 1e3 ")) (Fin 1000) = true
  /\ JsNum.ge (toNumber (VStr "0x1F")) (Fin 31) = true
  /\ toNumber (VStr "") = Fin 0
  /\ toNumber (VStr "12px") = NaN
  /\ toNumber (VStr "Infinity") = PosInf.
Proof. vm_compute. repeat split; reflexivity. Qed.

(** The sign tests of the interval edition convert their operand: a
    numeric string is compared as a number, any other string as [NaN]. *)
Example interval_constructor_converts :
  V1.constructor [("minTimeThreshold", VStr "-5")]
  = Throw (mkExn KError "minTimeThreshold must be non-negative")
  /\ V1.constructor [("samplingRate", VStr " -0.5 ")]
     = Throw (mkExn KError "samplingRate must be non-negative")
  /\ (exists s, V1.constructor [("minTimeThreshold", VStr "soon")] = Ret s
                /\ getProp (V1.options s) "minTimeThreshold" = VStr "soon").
Proof.
  split; [vm_compute; reflexivity|]. split; [vm_compute; reflexivity|].
  eexists. split; vm_compute; reflexivity.
Qed.

Lemma constructor_accepts_invalid_options_witness :
  (exists s, V2.constructor [("colors", VBool false)] = Ret s
             /\ getProp (V2.options s) "colors" = VBool false)
  /\ V2.constructor [("colors", VStr "red")]
     = Throw (mkExn KTypeError "colors must be an object")
  /\ (exists s, V2.constructor [("visibilityThreshold", VNum NaN)] = Ret s
                /\ getProp (V2.options s) "visibilityThreshold" = VNum NaN).
Proof.
  destruct (constructor_accepts_invalid_options (VBool false) (VStr "red")
              eq_refl eq_refl eq_refl eq_refl)
    as ((s & Hs & Hc & _) & _ & Hw & Hnan & _).
  split; [exists s; split; [exact Hs | exact Hc]|]. split; [exact Hw|].
  apply (Hnan "visibilityThreshold"). right. right. left. reflexivity.
Defined.
End ConstructionClaims.

(** ** Teardown *)

Section TeardownClaims.
Import V2 Props Examples.


Lemma emit_quiet ev t :
  callAll (listenersOf (eventName ev) t) = None ->
  String.eqb (eventName ev) "error" = false ->
  exists b, emit ev t = (Ret b, set_emitted (ev :: emitted t) t).
Proof.
  intros Hall Hname. unfold emit.
  destruct (listenersOf (eventName ev) t) as [|l ls].
  - rewrite Hname. eauto.
  - rewrite Hall. eauto.
Qed.

Lemma emit_cases ev t :
  exists r, emit ev t = (r, set_emitted (ev :: emitted t) t).
Proof.
  pose proof (emit_state ev t) as H.
  destruct (emit ev t) as [r t']. simpl in H. subst t'. eauto.
Qed.





End TeardownClaims.

(** * Further properties of the code *)

(** ** Exported text and adjusted time *)

Section ExportFacts.
Import V2 Props Examples.













End ExportFacts.

(** ** Signs of the accounted quantities *)

Section Signs.
Import V2 Props Examples.

Lemma soundState_blind now : logBlind (soundState now).
Proof. intros w s H. exact H. Qed.

Lemma soundState_mono t t' s : (t <= t')%Q -> soundState t s -> soundState t' s.
Proof. intros Hle [Hok Hsg]. split; [eapply okState_mono; eassumption | exact Hsg]. Qed.

Lemma signed_insert s e d' :
  signedState s -> signedData d' ->
  signedState (set_engagementData (<[e := d']> (engagementData s)) s).
Proof. intros H Hd. unfold signedState. simpl. apply map_Forall_insert_2; assumption. Qed.

Lemma stampAll_sound now s : soundState now s -> soundState now (stampAll now s).
Proof.
  intros [Hok Hsg]. split; [apply stampAll_ok, Hok|].
  unfold signedState, stampAll in *. simpl.
  revert Hsg. generalize (engagementData s) as ed.
  induction (paragraphs s) as [|p ps IH]; simpl; intros ed Hed; [exact Hed|].
  apply IH. intros e data He.
  destruct (decide (p = e)) as [->|Hne].
  - rewrite lookup_alter_eq in He.
    destruct (ed !! e) as [d0|] eqn:E; [|discriminate].
    injection He as <-. exact (Hed e d0 E).
  - rewrite lookup_alter_ne in He by exact Hne. exact (Hed e data He).
Qed.

Lemma onEntry_sound now s entry :
  validEntry entry = true -> soundState now s -> soundState now (onEntry now s entry).
Proof.
  intros Hv [Hok Hsg]. split; [apply onEntry_ok; assumption|].
  unfold onEntry.
  destruct (engagementData s !! target entry) as [data|] eqn:E; [|exact Hsg].
  destruct (Hok _ _ E) as (Hw & Hr & Hu). destruct (Hsg _ _ E) as [Hr0 Hw0].
  apply andb_true_iff in Hv as [Hv0 _]. apply Qle_bool_iff in Hv0.
  destruct (live (lastUpdate data) && (isIntersecting entry && isTracking s))%bool eqn:C.
  - apply andb_true_iff in C as [Hl _].
    destruct (live_Some _ Hl) as [u Hlu]. rewrite Hlu. simpl.
    assert (Hd : signedData
              {| visibleRatio := intersectionRatio entry;
                 timeSpent := (timeSpent data + (now - u))%Q;
                 weightedTime := (weightedTime data + (now - u) * intersectionRatio entry)%Q;
                 lastUpdate := Some now; inView := isIntersecting entry |}).
    { split; simpl; [exact Hv0|].
      assert (0 <= (now - u) * intersectionRatio entry)%Q.
      { apply Qmult_le_0_compat; [specialize (Hu u Hlu); lra | exact Hv0]. }
      lra. }
    destruct (JsNum.Qltb _ _); apply (signed_insert s _ _ Hsg Hd).
  - apply signed_insert; [exact Hsg|]. split; simpl; assumption.
Qed.

Lemma handleIntersection_sound now entries s :
  forallb validEntry entries = true -> soundState now s ->
  soundState now (handleIntersection now entries s).
Proof.
  intros Hv H. unfold handleIntersection.
  destruct (negb (tabVisible s)); [exact H|].
  revert s H. induction entries as [|e es IH]; simpl; intros s H; [exact H|].
  simpl in Hv. apply andb_true_iff in Hv as [He Hes].
  apply IH; [exact Hes|]. apply onEntry_sound; assumption.
Qed.

Lemma processOne_sound now s i : soundState now s -> soundState now (processOne now s i).
Proof.
  intros [Hok Hsg]. split; [apply processOne_ok, Hok|].
  unfold processOne.
  destruct (_ ≫= _) as [paragraph|]; [|exact Hsg].
  destruct (engagementData s !! paragraph) as [data|] eqn:E; [|exact Hsg].
  destruct (Hok _ _ E) as (Hw & Hr & Hu). destruct (Hsg _ _ E) as [Hr0 Hw0].
  destruct (_ && _)%bool eqn:C.
  - apply andb_true_iff in C as [_ Hl].
    destruct (live_Some _ Hl) as [u Hlu]. rewrite Hlu. simpl.
    assert (Hd : signedData
              {| visibleRatio := visibleRatio data;
                 timeSpent := (timeSpent data + (now - u))%Q;
                 weightedTime := (weightedTime data + (now - u) * visibleRatio data)%Q;
                 lastUpdate := Some now; inView := inView data |}).
    { split; simpl; [exact Hr0|].
      assert (0 <= (now - u) * visibleRatio data)%Q.
      { apply Qmult_le_0_compat; [specialize (Hu u Hlu); lra | exact Hr0]. }
      lra. }
    destruct (JsNum.Qltb _ _); apply (signed_insert s _ _ Hsg Hd).
  - apply signed_insert; [exact Hsg|]. split; simpl; assumption.
Qed.

Lemma processBatch_sound now size s : soundState now s -> soundState now (processBatch now size s).
Proof.
  intros H. unfold processBatch.
  change (soundState now (fold_left (processOne now) (seq 0 (JsNum.loopCount size)) s)).
  apply fold_left_preserves; [|exact H].
  intros s' i. apply processOne_sound.
Qed.

Lemma trackingFrame_sound now s : soundState now s -> soundState now (trackingFrame now s).
Proof.
  intros H. unfold trackingFrame.
  destruct (_ || _)%bool; [exact H|].
  apply (processBatch_sound now (batchSize now s) s H).
Qed.

Lemma exportOne_ok now r s e :
  okState now s -> okState now (snd (exportOne now (r, s) e)).
Proof.
  intros H. unfold exportOne.
  destruct (engagementData s !! e) as [data|] eqn:E; [|exact H].
  destruct (H _ _ E) as (Hw & Hr & Hu).
  unfold okState. simpl. apply map_Forall_insert_2; [|exact H].
  destruct (_ && _)%bool; [|repeat split; assumption].
  repeat split; simpl; [lra | assumption | assumption].
Qed.

Lemma exportData_sound now s : soundState now s -> soundState now (snd (exportData now s)).
Proof.
  intros H. unfold exportData.
  apply (fold_left_preserves (fun acc => soundState now (snd acc))); [|exact H].
  intros [r s'] e [Hok Hsg]. simpl in Hok, Hsg.
  split; [exact (exportOne_ok now r s' e Hok)|].
  unfold exportOne.
  destruct (engagementData s' !! e) as [data|] eqn:E; [|exact Hsg].
  destruct (Hok _ _ E) as (Hw & Hr & Hu). destruct (Hsg _ _ E) as [Hr0 Hw0].
  apply signed_insert; [exact Hsg|].
  destruct (_ && _)%bool eqn:C; [|split; assumption].
  apply andb_true_iff in C as [C _]. apply andb_true_iff in C as [Hl _].
  destruct (live_Some _ Hl) as [u Hlu]. rewrite Hlu. simpl.
  split; simpl; [exact Hr0|].
  assert (0 <= (now - u) * visibleRatio data)%Q.
  { apply Qmult_le_0_compat; [specialize (Hu u Hlu); lra | exact Hr0]. }
  lra.
Qed.

Local Ltac keep now :=
  preserve; try exact (soundState_blind now);
  try match goal with H : soundState _ _ |- _ => exact H end.

Lemma soundState_empty now s :
  soundState now (set_engagementData ∅ s).
Proof. split; apply map_Forall_empty. Qed.

Lemma stopTracking_sound now t : preserves (soundState now) (stopTracking t).
Proof.
  intros s H. unfold stopTracking.
  destruct (negb (isTracking s)); [exact H|].
  by_preserves H. keep now.
Qed.

Lemma startTracking_sound now : preserves (soundState now) (startTracking now).
Proof.
  intros s H. unfold startTracking.
  destruct (isTracking s); [exact H|].
  by_preserves H. keep now.
  - apply stampAll_sound. assumption.
  - apply trackingFrame_sound. assumption.
Qed.

Lemma handleVisibilityChange_sound now visible :
  preserves (soundState now) (handleVisibilityChange now visible).
Proof. unfold handleVisibilityChange. keep now. apply stampAll_sound. assumption. Qed.

Lemma handleUnload_sound now : preserves (soundState now) (handleUnload now).
Proof.
  intros s H. unfold handleUnload.
  destruct (isTracking s); [|exact H].
  by_preserves H. keep now.
  intros s0 H0. pose proof (exportData_sound now s0 H0) as Hx.
  destruct (exportData now s0). exact Hx.
Qed.

Lemma createHeatmap_sound now : preserves (soundState now) createHeatmap.
Proof. unfold createHeatmap. keep now. destruct (heatmapContainer _); assumption. Qed.

Lemma hideHeatmap_sound now : preserves (soundState now) hideHeatmap.
Proof.
  intros s H. unfold hideHeatmap.
  destruct (heatmapContainer s); [exact H | |]; by_preserves H; keep now.
Qed.

Lemma cleanupPrevious_sound now t : preserves (soundState now) (cleanupPrevious t).
Proof.
  unfold cleanupPrevious. keep now.
  - apply stopTracking_sound.
  - destruct (heatmapContainer _); [assumption | |];
      destruct (negb _); assumption.
  - apply soundState_empty.
Qed.

Lemma signedData_empty stamp0 : signedData (emptyData stamp0).
Proof. split; simpl; apply Qle_refl. Qed.

Lemma initializeEngagementData_sound now s :
  soundState now s -> soundState now (initializeEngagementData s).
Proof.
  intros [Hok Hsg]. split; [apply initializeEngagementData_ok, Hok|].
  unfold signedState, initializeEngagementData in *. simpl.
  revert Hsg. generalize (engagementData s) as ed.
  induction (paragraphs s) as [|p ps IH]; simpl; intros ed Hed; [exact Hed|].
  apply IH. apply map_Forall_insert_2; [apply signedData_empty | exact Hed].
Qed.

Lemma init_sound now dateNow container mountFound :
  preserves (soundState now) (init dateNow now container mountFound).
Proof.
  unfold init. keep now.
  - apply cleanupPrevious_sound.
  - unfold validateContainer.
    destruct container as [sel [ps|]|ps|]; keep now.
  - unfold getParagraphs. keep now.
  - apply initializeEngagementData_sound. assumption.
  - intros s H. unfold setupHeatmapContainer.
    destruct (truthy _); [|exact H]. destruct mountFound; exact H.
Qed.

Lemma addNode_sound now dateNow node : preserves (soundState now) (addNode dateNow now node).
Proof.
  intros s [Hok Hsg]. split; [exact (addNode_ok now dateNow node s Hok)|].
  unfold addNode.
  destruct (String.eqb _ _); [|exact Hsg].
  assert (Hnew : map_Forall (fun _ data => signedData data)
            (<[node := emptyData (if isTracking s then Some now else None)]>
               (engagementData s))).
  { apply map_Forall_insert_2; [apply signedData_empty | exact Hsg]. }
  destruct (observer s); exact Hnew.
Qed.

Lemma removeNode_sound now node s : soundState now s -> soundState now (removeNode node s).
Proof.
  intros [Hok Hsg]. split; [apply removeNode_ok, Hok|].
  unfold removeNode.
  destruct (_ && _)%bool; [|exact Hsg].
  destruct (list_find _ _) as [[index p]|]; [|exact Hsg].
  unfold signedState. simpl. apply map_Forall_delete, Hsg.
Qed.

Lemma handleDOMChanges_sound now dateNow mutation :
  preserves (soundState now) (handleDOMChanges dateNow now mutation).
Proof.
  unfold handleDOMChanges. keep now.
  - apply addNode_sound.
  - apply fold_left_preserves; [|assumption].
    intros s' node. apply removeNode_sound.
Qed.

Lemma destroy_sound now t : preserves (soundState now) (destroy t).
Proof.
  unfold destroy. keep now.
  - apply stopTracking_sound.
  - apply soundState_empty.
Qed.

Lemma step_sound t s c :
  soundState t s -> validCall c = true ->
  match callTime c with
  | Some now => (t <= now)%Q -> soundState now (step s c)
  | None => soundState t (step s c)
  end.
Proof.
  intros H Hv.
  destruct c; simpl; try (intros Hle; apply (soundState_mono _ _ _ Hle) in H).
  - apply init_sound, H.
  - apply startTracking_sound, H.
  - apply stopTracking_sound, H.
  - apply trackingFrame_sound, H.
  - apply processBatch_sound, H.
  - apply handleIntersection_sound; [exact Hv | exact H].
  - apply handleVisibilityChange_sound, H.
  - apply handleDOMChanges_sound, H.
  - apply exportData_sound, H.
  - apply handleUnload_sound, H.
  - apply createHeatmap_sound, H.
  - apply hideHeatmap_sound, H.
  - apply destroy_sound, H.
  - exact H.
  - exact H.
Qed.

Lemma run_sound calls : forall t s,
  soundState t s -> hostOk t calls = true -> exists t', soundState t' (run s calls).
Proof.
  induction calls as [|c calls IH]; intros t s H Hh; simpl.
  - exists t. exact H.
  - simpl in Hh. apply andb_true_iff in Hh as [Hv Hh].
    pose proof (step_sound t s c H Hv) as Hs.
    destruct (callTime c) as [now|].
    + apply andb_true_iff in Hh as [Hle Hh]. apply Qle_bool_iff in Hle.
      apply (IH now); [apply Hs, Hle | exact Hh].
    + apply (IH t); [exact Hs | exact Hh].
Qed.

(** X3.  In every state the frame edition reaches from a new tracker,
    under a host whose clock does not go back and whose reports carry ratios
    in [0, 1], every record has a visible ratio in [0, 1] and a weighted
    time and an accounted time that are not negative. *)
Theorem accounted_times_not_negative
    (opts : JsObj) (t : Q) (calls : list Call) (e : Elem) (data : Data) :
  hostOk t calls = true ->
  engagementData (run (initializeState opts) calls) !! e = Some data ->
  (0 <= visibleRatio data <= 1)%Q
  /\ (0 <= weightedTime data)%Q
  /\ (0 <= timeSpent data)%Q.
Proof.
  intros Hh He.
  assert (H0 : soundState t (initializeState opts)) by (split; apply map_Forall_empty).
  destruct (run_sound calls t _ H0 Hh) as [t' [Hok Hsg]].
  destruct (Hok e data He) as (Hw & Hr & _). destruct (Hsg e data He) as [Hr0 Hw0].
  repeat split; try assumption. lra.
Qed.

Lemma accounted_times_not_negative_witness :
  hostOk 0 session = true /\ (0 <= 3000 # 2)%Q.
Proof.
  split; [reflexivity|].
  apply (accounted_times_not_negative defaultOptions 0 session 1%nat
           {| visibleRatio := 1 # 2; timeSpent := 3000 # 2; weightedTime := 4000 # 4;
              lastUpdate := Some 2000%Q; inView := true |}).
  - reflexivity.
  - vm_compute. reflexivity.
Defined.
End Signs.

(** ** The running maximum *)

Section RunningMaximum.
Import V2 Props Examples.

Lemma cappedState_blind : logBlind cappedState.
Proof. intros w s H. exact H. Qed.

Lemma capped_keep s e d' :
  cappedState s -> (timeSpent d' <= maxEngagement s)%Q ->
  cappedState (set_engagementData (<[e := d']> (engagementData s)) s).
Proof.
  intros [H0 H] Hd. split; [exact H0|]. simpl.
  apply map_Forall_insert_2; assumption.
Qed.

Lemma capped_raise s e d' :
  cappedState s -> (maxEngagement s < timeSpent d')%Q ->
  cappedState
    (set_maxEngagement (timeSpent d')
       (set_engagementData (<[e := d']> (engagementData s)) s)).
Proof.
  intros [H0 H] Hd. split; simpl; [lra|].
  apply map_Forall_insert_2; [apply Qle_refl|].
  intros k data Hk. specialize (H k data Hk). simpl in H. lra.
Qed.

Lemma capped_empty s : cappedState s -> cappedState (set_engagementData ∅ s).
Proof. intros [H0 _]. split; [exact H0 | apply map_Forall_empty]. Qed.

Lemma stampAll_capped now s : cappedState s -> cappedState (stampAll now s).
Proof.
  intros [H0 H]. split; [exact H0|]. unfold stampAll. simpl.
  revert H. generalize (engagementData s) as ed.
  induction (paragraphs s) as [|p ps IH]; simpl; intros ed Hed; [exact Hed|].
  apply IH. intros e data He.
  destruct (decide (p = e)) as [->|Hne].
  - rewrite lookup_alter_eq in He.
    destruct (ed !! e) as [d0|] eqn:E; [|discriminate].
    injection He as <-. exact (Hed e d0 E).
  - rewrite lookup_alter_ne in He by exact Hne. exact (Hed e data He).
Qed.

Lemma onEntry_capped now s entry : cappedState s -> cappedState (onEntry now s entry).
Proof.
  intros H. unfold onEntry.
  destruct (engagementData s !! target entry) as [data|] eqn:E; [|exact H].
  pose proof (proj2 H _ _ E) as Hd. simpl in Hd.
  destruct (_ && _)%bool.
  - destruct (JsNum.Qltb _ _) eqn:L.
    + apply Qltb_true in L.
      exact (capped_raise s (target entry)
               {| visibleRatio := intersectionRatio entry;
                  timeSpent := (timeSpent data + (now - default 0 (lastUpdate data)))%Q;
                  weightedTime :=
                    (weightedTime data
                     + (now - default 0 (lastUpdate data)) * intersectionRatio entry)%Q;
                  lastUpdate := Some now; inView := isIntersecting entry |} H L).
    + apply Qltb_false in L. apply capped_keep; [exact H | exact L].
  - apply capped_keep; [exact H | exact Hd].
Qed.

Lemma processOne_capped now s i : cappedState s -> cappedState (processOne now s i).
Proof.
  intros H. unfold processOne.
  destruct (_ ≫= _) as [paragraph|]; [|exact H].
  destruct (engagementData s !! paragraph) as [data|] eqn:E; [|exact H].
  pose proof (proj2 H _ _ E) as Hd. simpl in Hd.
  destruct (_ && _)%bool.
  - destruct (JsNum.Qltb _ _) eqn:L.
    + apply Qltb_true in L.
      exact (capped_raise s paragraph
               {| visibleRatio := visibleRatio data;
                  timeSpent := (timeSpent data + (now - default 0 (lastUpdate data)))%Q;
                  weightedTime :=
                    (weightedTime data
                     + (now - default 0 (lastUpdate data)) * visibleRatio data)%Q;
                  lastUpdate := Some now; inView := inView data |} H L).
    + apply Qltb_false in L. apply capped_keep; [exact H | exact L].
  - apply capped_keep; [exact H | exact Hd].
Qed.

Lemma trackingFrame_capped now s : cappedState s -> cappedState (trackingFrame now s).
Proof.
  intros H. unfold trackingFrame.
  destruct (_ || _)%bool; [exact H|].
  unfold processBatch.
  change (cappedState
            (fold_left (processOne now) (seq 0 (JsNum.loopCount (batchSize now s))) s)).
  apply fold_left_preserves; [|exact H].
  intros s' i. apply processOne_capped.
Qed.

Local Ltac keep :=
  preserve; try exact cappedState_blind;
  try match goal with H : cappedState _ |- _ => exact H end.

Lemma stopTracking_capped now : preserves cappedState (stopTracking now).
Proof.
  intros s H. unfold stopTracking.
  destruct (negb (isTracking s)); [exact H|].
  by_preserves H. keep.
Qed.

Lemma cleanupPrevious_capped now : preserves cappedState (cleanupPrevious now).
Proof.
  unfold cleanupPrevious.
  apply preserves_bind; [apply preserves_gets | intros tracking].
  apply preserves_bind; [apply preserves_when, stopTracking_capped | intros ?].
  apply preserves_bind; [apply preserves_modify; intros t Ht; exact Ht | intros ?].
  apply preserves_bind; [apply preserves_modify; intros t Ht; exact Ht | intros ?].
  apply preserves_bind; [apply preserves_modify; intros t Ht | intros ?].
  { destruct (heatmapContainer t); [assumption | |]; destruct (negb _); assumption. }
  apply preserves_bind; [apply preserves_modify; intros t Ht; exact Ht | intros ?].
  intros s _. split; [apply Qle_refl | apply map_Forall_empty].
Qed.

Lemma step_capped s c : exporting c = false -> cappedState s -> cappedState (step s c).
Proof.
  intros Hc H. destruct c; simpl; try discriminate.
  - by_preserves H. unfold init. keep.
    + apply cleanupPrevious_capped.
    + unfold validateContainer. destruct container as [sel [ps|]|ps|]; keep.
    + unfold getParagraphs. keep.
    + match goal with Hs : cappedState ?t |- _ => destruct Hs as [Hs0 Hs] end.
      split; [assumption|]. unfold initializeEngagementData. simpl.
      apply fold_left_preserves; [|assumption].
      intros ed p Hed. apply map_Forall_insert_2; assumption.
    + intros t Ht. unfold setupHeatmapContainer.
      destruct (truthy _); [|exact Ht]. destruct mountFound; exact Ht.
  - unfold startTracking. destruct (isTracking s); [exact H|].
    by_preserves H. keep.
    + apply stampAll_capped. assumption.
    + apply trackingFrame_capped. assumption.
  - apply stopTracking_capped, H.
  - apply trackingFrame_capped, H.
  - unfold processBatch.
    change (cappedState (fold_left (processOne now) (seq 0 (JsNum.loopCount size)) s)).
    apply fold_left_preserves; [|exact H].
    intros s' i. apply processOne_capped.
  - unfold handleIntersection. destruct (negb (tabVisible s)); [exact H|].
    apply fold_left_preserves; [|exact H].
    intros s' e. apply onEntry_capped.
  - by_preserves H. unfold handleVisibilityChange. keep.
    apply stampAll_capped. assumption.
  - by_preserves H. unfold handleDOMChanges. keep.
    + intros t Ht. unfold addNode.
      destruct (String.eqb _ _); [|exact Ht].
      assert (Hnew : cappedState
                (set_engagementData
                   (<[x := emptyData (if isTracking t then Some now else None)]>
                      (engagementData t)) t)).
      { apply capped_keep; [exact Ht | exact (proj1 Ht)]. }
      destruct (observer t); exact Hnew.
    + apply fold_left_preserves; [|assumption].
      intros t node Ht. unfold removeNode.
      destruct (_ && _)%bool; [|exact Ht].
      destruct (list_find _ _) as [[index p]|]; [|exact Ht].
      destruct Ht as [Ht0 Ht]. split; [exact Ht0|]. simpl.
      apply map_Forall_delete, Ht.
  - by_preserves H. unfold createHeatmap. keep.
    destruct (heatmapContainer _); assumption.
  - unfold hideHeatmap.
    destruct (heatmapContainer s); [exact H | |]; by_preserves H; keep.
  - by_preserves H. unfold destroy. keep.
    + apply stopTracking_capped.
    + apply capped_empty. assumption.
  - exact H.
  - exact H.
Qed.

Lemma run_capped calls : forall s,
  forallb (fun c => negb (exporting c)) calls = true ->
  cappedState s -> cappedState (run s calls).
Proof.
  induction calls as [|c calls IH]; simpl; intros s Hc H; [exact H|].
  apply andb_true_iff in Hc as [Hc Hcs]. apply negb_true_iff in Hc.
  apply IH; [exact Hcs|]. apply step_capped; assumption.
Qed.

(** X4.  As long as the export-time update has not run ([exportData],
    [handleUnload]), [maxEngagement] is not negative and bounds the accounted
    time of every record, in every state reached from a new tracker,
    whatever the host does. *)
Theorem maxEngagement_bounds_records
    (opts : JsObj) (calls : list Call) (e : Elem) (data : Data) :
  forallb (fun c => negb (exporting c)) calls = true ->
  engagementData (run (initializeState opts) calls) !! e = Some data ->
  (0 <= maxEngagement (run (initializeState opts) calls))%Q
  /\ (timeSpent data <= maxEngagement (run (initializeState opts) calls))%Q.
Proof.
  intros Hc He.
  assert (H0 : cappedState (initializeState opts)).
  { split; [apply Qle_refl | apply map_Forall_empty]. }
  destruct (run_capped calls _ Hc H0) as [Hmax Hall].
  split; [exact Hmax | exact (Hall e data He)].
Qed.

Lemma maxEngagement_bounds_records_witness :
  (1000 <= maxEngagement (run fresh beforeRemoval))%Q.
Proof.
  apply (maxEngagement_bounds_records defaultOptions beforeRemoval 1%nat
           {| visibleRatio := 0; timeSpent := 1000; weightedTime := 1000;
              lastUpdate := Some 2000%Q; inView := false |}).
  - reflexivity.
  - vm_compute. reflexivity.
Defined.

Lemma intensity_bounded s data :
  (0 <= timeSpent data)%Q -> (timeSpent data <= maxEngagement s)%Q ->
  (0 <= intensity s data <= 1)%Q.
Proof.
  intros H0 H1. unfold intensity.
  destruct (JsNum.Qltb 0 (maxEngagement s)) eqn:L; [|lra].
  apply Qltb_true in L. split.
  - apply Qle_shift_div_l; [exact L | lra].
  - apply Qle_shift_div_r; [exact L | lra].
Qed.

(** X5.  As long as the export-time update has not run, every segment of
    the heat map of the frame edition has an intensity in [0, 1], in every
    state reached from a new tracker under a host whose clock does not go
    back and whose reports carry ratios in [0, 1]. *)
Theorem heatmap_intensity_bounded
    (opts : JsObj) (t : Q) (calls : list Call)
    (segments : list Segment) (i : nat) (segment : Segment) :
  hostOk t calls = true ->
  forallb (fun c => negb (exporting c)) calls = true ->
  _updateHeatmap (run (initializeState opts) calls) = Some segments ->
  segments !! i = Some segment ->
  (0 <= segIntensity segment <= 1)%Q.
Proof.
  intros Hh Hc Hmap Hi.
  set (s := run (initializeState opts) calls) in *.
  assert (Hin : segment ∈ segments) by (eapply list_elem_of_lookup_2, Hi).
  unfold _updateHeatmap in Hmap.
  assert (Hseg : segment ∈ omap
            (fun paragraph =>
               data ← engagementData s !! paragraph;
               Some {| paragraphId := highlightId (nodeAt s paragraph);
                       segIntensity := intensity s data;
                       segBand := band (intensity s data) |})
            (paragraphs s)).
  { destruct (heatmapContainer s); [discriminate | |]; injection Hmap as <-; exact Hin. }
  apply list_elem_of_omap in Hseg as (p & _ & Hp).
  destruct (engagementData s !! p) as [data|] eqn:E; [|discriminate].
  simpl in Hp. injection Hp as <-. simpl.
  assert (Hs0 : soundState t (initializeState opts)) by (split; apply map_Forall_empty).
  assert (Hc0 : cappedState (initializeState opts)).
  { split; [apply Qle_refl | apply map_Forall_empty]. }
  destruct (run_sound calls t _ Hs0 Hh) as [t' [Hok Hsg]].
  destruct (run_capped calls _ Hc Hc0) as [_ Hall].
  destruct (Hok p data E) as (Hw & _ & _). destruct (Hsg p data E) as [_ Hw0].
  apply intensity_bounded; [lra | exact (Hall p data E)].
Qed.

Lemma heatmap_intensity_bounded_witness :
  _updateHeatmap (run fresh beforeRemoval)
  = Some [{| paragraphId := Some "p-1700-0"; segIntensity := 1000 / 4000; segBand := Low |};
          {| paragraphId := Some "p-1700-1"; segIntensity := 4000 / 4000; segBand := High |}]
  /\ (0 <= 1000 / 4000 <= 1)%Q.
Proof.
  split; [vm_compute; reflexivity|].
  apply (heatmap_intensity_bounded defaultOptions 0 beforeRemoval
           [{| paragraphId := Some "p-1700-0"; segIntensity := 1000 / 4000; segBand := Low |};
            {| paragraphId := Some "p-1700-1"; segIntensity := 4000 / 4000; segBand := High |}]
           0 {| paragraphId := Some "p-1700-0"; segIntensity := 1000 / 4000; segBand := Low |}).
  - reflexivity.
  - reflexivity.
  - vm_compute. reflexivity.
  - reflexivity.
Defined.
End RunningMaximum.

(** ** Nothing is credited while tracking is stopped *)

Section Gate.
Import V2 Props Examples.

Lemma stampAll_accounted now s e :
  accounted <$> engagementData (stampAll now s) !! e = accounted <$> engagementData s !! e.
Proof.
  unfold stampAll. simpl.
  generalize (engagementData s) as ed.
  induction (paragraphs s) as [|p ps IH]; simpl; intros ed; [reflexivity|].
  rewrite IH. destruct (decide (p = e)) as [->|Hne].
  - rewrite lookup_alter_eq. destruct (ed !! e); reflexivity.
  - rewrite lookup_alter_ne by exact Hne. reflexivity.
Qed.

Lemma onEntry_stopped now s entry e :
  isTracking s = false ->
  isTracking (onEntry now s entry) = false
  /\ accounted <$> engagementData (onEntry now s entry) !! e
     = accounted <$> engagementData s !! e.
Proof.
  intros Ht. unfold onEntry.
  destruct (engagementData s !! target entry) as [data|] eqn:E; [|auto].
  rewrite Ht, andb_false_r, andb_false_r. simpl. split; [exact Ht|].
  destruct (decide (target entry = e)) as [<-|Hne].
  - rewrite lookup_insert_eq, E. reflexivity.
  - rewrite lookup_insert_ne by exact Hne. reflexivity.
Qed.

Lemma exportOne_stopped now r s p e :
  isTracking s = false ->
  isTracking (snd (exportOne now (r, s) p)) = false
  /\ accounted <$> engagementData (snd (exportOne now (r, s) p)) !! e
     = accounted <$> engagementData s !! e.
Proof.
  intros Ht. unfold exportOne.
  destruct (engagementData s !! p) as [data|] eqn:E; [|auto].
  rewrite Ht, andb_false_r. simpl. split; [exact Ht|].
  destruct (decide (p = e)) as [<-|Hne].
  - rewrite lookup_insert_eq, E. reflexivity.
  - rewrite lookup_insert_ne by exact Hne. reflexivity.
Qed.

(** X6.  While [isTracking] is false, none of the callbacks that measure
    time (a frame, a batch of visibility reports, an export, the unload hook,
    a tab visibility change) changes the accounted time or the weighted time
    of any record. *)
Theorem stopped_tracker_credits_nothing (s : State) (c : Call) (e : Elem) :
  isTracking s = false ->
  measuring c = true ->
  accounted <$> engagementData (step s c) !! e = accounted <$> engagementData s !! e.
Proof.
  intros Ht Hc. destruct c; try discriminate; simpl.
  - unfold trackingFrame. rewrite Ht. reflexivity.
  - unfold handleIntersection. destruct (negb (tabVisible s)); [reflexivity|].
    apply (fold_left_preserves
             (fun t => isTracking t = false
                       /\ accounted <$> engagementData t !! e
                          = accounted <$> engagementData s !! e)); [|auto].
    intros t entry [Ht' He]. destruct (onEntry_stopped now t entry e Ht') as [H1 H2].
    split; [exact H1 | congruence].
  - set (P := fun t : State =>
                accounted <$> engagementData t !! e = accounted <$> engagementData s !! e).
    assert (Hp : preserves P (handleVisibilityChange now visible)).
    { unfold handleVisibilityChange. preserve; try assumption.
      - unfold P in *. rewrite stampAll_accounted. assumption.
      - intros w t H'. exact H'. }
    apply Hp. reflexivity.
  - unfold exportData.
    apply (fold_left_preserves
             (fun acc : list (string * JsObj) * State =>
                isTracking (snd acc) = false
                /\ accounted <$> engagementData (snd acc) !! e
                   = accounted <$> engagementData s !! e)); [|auto].
    intros [r t] p [Ht' He]. simpl in Ht', He.
    destruct (exportOne_stopped now r t p e Ht') as [H1 H2].
    split; [exact H1 | congruence].
  - unfold handleUnload. rewrite Ht. reflexivity.
Qed.

Lemma stopped_tracker_credits_nothing_witness :
  let s := snd (stopTracking 2000 (run fresh oneInView)) in
  accounted <$> engagementData (step s (CallExportData 9000)) !! 1%nat
  = accounted <$> engagementData s !! 1%nat.
Proof.
  intros s.
  apply (stopped_tracker_credits_nothing s (CallExportData 9000) 1%nat); reflexivity.
Defined.
End Gate.

(** ** Structural changes leave the other records alone *)

Section MutationFrame.
Import V2 Props Examples.

Lemma addNode_other dateNow now node e v :
  node <> e ->
  preserves (fun t => engagementData t !! e = v) (addNode dateNow now node).
Proof.
  intros Hne s H. unfold addNode.
  destruct (String.eqb _ _); [|exact H].
  destruct (observer s); simpl; rewrite lookup_insert_ne by exact Hne; exact H.
Qed.

Lemma removeNode_other node s e :
  node <> e -> engagementData (removeNode node s) !! e = engagementData s !! e.
Proof.
  intros Hne. unfold removeNode.
  destruct (_ && _)%bool; [|reflexivity].
  destruct (list_find _ _) as [[index p]|]; [|reflexivity].
  simpl. apply lookup_delete_ne. exact Hne.
Qed.

Lemma others_split (l1 l2 : list Elem) (e : Elem) :
  forallb (fun n => negb (Nat.eqb n e)) (l1 ++ l2) = true ->
  Forall (fun n => n <> e) l1 /\ Forall (fun n => n <> e) l2.
Proof.
  rewrite forallb_app. intros [H1 H2]%andb_true_iff.
  split; apply List.Forall_forall; intros n Hn;
    [apply (proj1 (forallb_forall _ _) H1) in Hn
    |apply (proj1 (forallb_forall _ _) H2) in Hn];
    apply negb_true_iff, Nat.eqb_neq in Hn; exact Hn.
Qed.

(** X7.  A structural change of the page never touches the record of an
    element that is neither among the added nor among the removed nodes: the
    time accounted for the other paragraphs survives insertions and
    removals, whether or not the call throws. *)
Theorem handleDOMChanges_leaves_others
    (dateNow : Z) (now : Q) (mutation : Mutation) (s : State) (e : Elem) :
  forallb (fun n => negb (Nat.eqb n e)) (addedNodes mutation ++ removedNodes mutation)
  = true ->
  engagementData (snd (handleDOMChanges dateNow now mutation s)) !! e
  = engagementData s !! e.
Proof.
  intros [Hadd Hrem]%others_split.
  set (P := fun t : State => engagementData t !! e = engagementData s !! e).
  assert (Hp : preserves P (handleDOMChanges dateNow now mutation)).
  { unfold handleDOMChanges. apply preserves_bind; [|intros _].
    - induction Hadd as [|n ns Hn Hns IH]; simpl.
      + apply preserves_ret.
      + apply preserves_bind; [apply addNode_other, Hn | intros _; exact IH].
    - apply preserves_modify. intros t Ht.
      induction Hrem as [|n ns Hn Hns IH] in t, Ht |- *; simpl; [exact Ht|].
      apply IH. unfold P in *. rewrite removeNode_other by exact Hn. exact Ht. }
  apply Hp. reflexivity.
Qed.

Lemma handleDOMChanges_leaves_others_witness :
  engagementData
    (snd (handleDOMChanges 1701 6000 (mkMutation [] [2%nat]) (run fresh beforeRemoval)))
  !! 1%nat
  = engagementData (run fresh beforeRemoval) !! 1%nat.
Proof.
  apply (handleDOMChanges_leaves_others 1701 6000 (mkMutation [] [2%nat])
           (run fresh beforeRemoval) 1%nat).
  reflexivity.
Defined.
End MutationFrame.

(** ** The keys of the report *)

Section ReportKeys.
Import V2 Props Examples.




End ReportKeys.

(** ** The options of a constructed tracker *)

Section OptionsFacts.
Import V2 Props Examples.

Lemma validateOption_value key config input v :
  String.eqb (ctype config) "object" = false ->
  validateOption key config input = Ret v ->
  v = nullish (getProp input key) (cdefault config).
Proof.
  intros Hty. unfold validateOption. rewrite Hty. simpl.
  repeat (match goal with
          | |- context [if ?c then _ else _] => destruct c
          end; simpl); try discriminate; intros [= <-]; reflexivity.
Qed.

Lemma validateOption_object key config input v :
  String.eqb (ctype config) "object" = true ->
  validateOption key config input = Ret v ->
  v = match getProp input key with
      | VObj f => VObj (spread (fieldsOf (cdefault config)) f)
      | given => nullish given (cdefault config)
      end.
Proof.
  intros Hty. unfold validateOption, belowMin, aboveMax. rewrite Hty.
  destruct (getProp input key) as [| |b|n|t|f]; simpl.
  - destruct (cmin config), (cmax config), (cdefault config);
      simpl; repeat (match goal with
                     | |- context [if ?c then _ else _] => destruct c
                     end; simpl); try discriminate; intros [= <-]; reflexivity.
  - destruct (cmin config), (cmax config), (cdefault config);
      simpl; repeat (match goal with
                     | |- context [if ?c then _ else _] => destruct c
                     end; simpl); try discriminate; intros [= <-]; reflexivity.
  - destruct b; simpl; [discriminate|].
    repeat (match goal with
            | |- context [if ?c then _ else _] => destruct c
            end; simpl); try discriminate; intros [= <-]; reflexivity.
  - destruct (JsNum.truthy n); simpl; [discriminate|].
    repeat (match goal with
            | |- context [if ?c then _ else _] => destruct c
            end; simpl); try discriminate; intros [= <-]; reflexivity.
  - destruct (negb (String.eqb t "")); simpl; [discriminate|].
    repeat (match goal with
            | |- context [if ?c then _ else _] => destruct c
            end; simpl); try discriminate; intros [= <-]; reflexivity.
  - repeat (match goal with
            | |- context [if ?c then _ else _] => destruct c
            end; simpl); try discriminate; intros [= <-]; reflexivity.
Qed.

(** X9.  The options of a constructed tracker are exactly the five options
    of the schema, in its order (any other key of the argument is dropped);
    each numeric option and [heatmapContainer] is the value given, or the
    default when none or [null] is given; [colors] is the given object
    spread over the default palette, the default palette when none or
    [null] is given, and the given value otherwise. *)
Theorem constructor_options (input : JsObj) (s : State) :
  constructor input = Ret s ->
  map fst (options s) = schemaKeys
  /\ getProp (options s) "minTimeThreshold"
     = nullish (getProp input "minTimeThreshold") (VNum (Fin 1000))
  /\ getProp (options s) "samplingRate"
     = nullish (getProp input "samplingRate") (VNum (Fin 200))
  /\ getProp (options s) "visibilityThreshold"
     = nullish (getProp input "visibilityThreshold") (VNum (Fin (1 # 2)))
  /\ getProp (options s) "heatmapContainer"
     = nullish (getProp input "heatmapContainer") VNull
  /\ getProp (options s) "colors"
     = match getProp input "colors" with
       | VObj f => VObj (spread (fieldsOf defaultColors) f)
       | given => nullish given defaultColors
       end.
Proof.
  unfold constructor, validateOptions, validationSchema. cbn [validateFrom].
  destruct (validateOption "minTimeThreshold" _ input) as [v1|] eqn:E1; [|discriminate].
  destruct (validateOption "samplingRate" _ input) as [v2|] eqn:E2; [|discriminate].
  destruct (validateOption "visibilityThreshold" _ input) as [v3|] eqn:E3; [|discriminate].
  destruct (validateOption "colors" _ input) as [v4|] eqn:E4; [|discriminate].
  destruct (validateOption "heatmapContainer" _ input) as [v5|] eqn:E5; [|discriminate].
  intros [= <-].
  apply validateOption_value in E1; [|reflexivity].
  apply validateOption_value in E2; [|reflexivity].
  apply validateOption_value in E3; [|reflexivity].
  apply validateOption_object in E4; [|reflexivity].
  apply validateOption_value in E5; [|reflexivity].
  simpl in E1, E2, E3, E4, E5.
  split; [reflexivity|].
  change (v1 = nullish (getProp input "minTimeThreshold") (VNum (Fin 1000))
          /\ v2 = nullish (getProp input "samplingRate") (VNum (Fin 200))
          /\ v3 = nullish (getProp input "visibilityThreshold") (VNum (Fin (1 # 2)))
          /\ v5 = nullish (getProp input "heatmapContainer") VNull
          /\ v4 = match getProp input "colors" with
                  | VObj f => VObj (spread (fieldsOf defaultColors) f)
                  | given => nullish given defaultColors
                  end).
  repeat split; assumption.
Qed.

Lemma constructor_options_witness :
  exists s,
    constructor [("samplingRate", VNum (Fin 100)); ("debug", VBool true)] = Ret s
    /\ map fst (options s) = schemaKeys
    /\ getProp (options s) "samplingRate" = VNum (Fin 100)
    /\ getProp (options s) "minTimeThreshold" = VNum (Fin 1000).
Proof.
  eexists. split; [reflexivity|].
  destruct (constructor_options
              [("samplingRate", VNum (Fin 100)); ("debug", VBool true)] _ eq_refl)
    as (H0 & H1 & H2 & _).
  split; [exact H0|]. split; [exact H2 | exact H1].
Defined.

Lemma aget_absent {A} (o : list (string * A)) (k : string) :
  existsb (String.eqb k) (map fst o) = false -> aget o k = None.
Proof.
  induction o as [|[k' v] o IH]; simpl; [reflexivity|].
  intros [Hk Ho]%orb_false_iff.
  rewrite String.eqb_sym, Hk. apply IH, Ho.
Qed.

(** A spread reads a key in the second object first, then in the first. *)
Lemma spread_lookup (b : JsObj) : forall (a : JsObj) (k : string),
  uniqueKeys b = true ->
  getField (spread a b) k
  = match getField b k with
    | Some v => Some v
    | None => getField a k
    end.
Proof.
  unfold spread, getField, setProp.
  induction b as [|[k0 v0] b IH]; intros a k Hu; simpl; [reflexivity|].
  simpl in Hu. apply andb_true_iff in Hu as [Hk0 Hu]. apply negb_true_iff in Hk0.
  rewrite (IH _ k Hu).
  destruct (String.eqb k0 k) eqn:E.
  - apply String.eqb_eq in E. subst k0.
    rewrite (aget_absent b k Hk0). apply aget_aset_eq.
  - destruct (aget b k); [reflexivity|].
    apply aget_aset_ne. intros ->. rewrite String.eqb_refl in E. discriminate.
Qed.

(** X10.  When [colors] is given as an object, each colour of the
    constructed tracker is the one given under that key, and the default
    one for a key that is not given: a partial palette overrides the
    defaults key by key. *)
Theorem constructor_colors_merge
    (input : JsObj) (s : State) (given : JsObj) (k : string) :
  constructor input = Ret s ->
  getProp input "colors" = VObj given ->
  uniqueKeys given = true ->
  getField (fieldsOf (getProp (options s) "colors")) k
  = match getField given k with
    | Some v => Some v
    | None => getField (fieldsOf defaultColors) k
    end.
Proof.
  intros Hc Hg Hu.
  unfold constructor, validateOptions, validationSchema in Hc. cbn [validateFrom] in Hc.
  destruct (validateOption "minTimeThreshold" _ input) as [v1|]; [|discriminate].
  destruct (validateOption "samplingRate" _ input) as [v2|]; [|discriminate].
  destruct (validateOption "visibilityThreshold" _ input) as [v3|]; [|discriminate].
  destruct (validateOption "colors" _ input) as [v4|] eqn:E4; [|discriminate].
  destruct (validateOption "heatmapContainer" _ input) as [v5|]; [|discriminate].
  injection Hc as <-.
  apply validateOption_object in E4; [|reflexivity]. rewrite Hg in E4.
  change (getField (fieldsOf v4) k
          = match getField given k with
            | Some v => Some v
            | None => getField (fieldsOf defaultColors) k
            end).
  rewrite E4. simpl fieldsOf. apply spread_lookup, Hu.
Qed.

Lemma constructor_colors_merge_witness :
  exists s,
    constructor [("colors", VObj [("high", VStr "#FF0000")])] = Ret s
    /\ getField (fieldsOf (getProp (options s) "colors")) "high" = Some (VStr "#FF0000")
    /\ getField (fieldsOf (getProp (options s) "colors")) "low" = Some (VStr "#C6E2FF").
Proof.
  eexists. split; [reflexivity|]. split.
  - exact (constructor_colors_merge
             [("colors", VObj [("high", VStr "#FF0000")])] _
             [("high", VStr "#FF0000")] "high" eq_refl eq_refl eq_refl).
  - exact (constructor_colors_merge
             [("colors", VObj [("high", VStr "#FF0000")])] _
             [("high", VStr "#FF0000")] "low" eq_refl eq_refl eq_refl).
Defined.
End OptionsFacts.

(** ** Methods that return *)

Section Returns.
Import V2 Props.

Lemma returns_ret {A} (a : A) s (Q : A -> State -> Prop) :
  Q a s -> returns (mret a : M A) s Q.
Proof. intros H. exists a, s. auto. Qed.

Lemma returns_bind {A B} (m : M A) (k : A -> M B) s (Q : B -> State -> Prop) :
  returns m s (fun a s' => returns (k a) s' Q) -> returns (m ≫= k) s Q.
Proof.
  intros (a & s' & Hm & b & s'' & Hk & HQ). exists b, s''.
  split; [|exact HQ]. unfold mbind, M_bind, bind. rewrite Hm. exact Hk.
Qed.

Lemma returns_modify (f : State -> State) s (Q : unit -> State -> Prop) :
  Q tt (f s) -> returns (modify f) s Q.
Proof. intros H. exists tt, (f s). auto. Qed.

Lemma returns_gets {A} (f : State -> A) s (Q : A -> State -> Prop) :
  Q (f s) s -> returns (gets f) s Q.
Proof. intros H. exists (f s), s. auto. Qed.

Lemma returns_when (b : bool) (m : M unit) s (Q : unit -> State -> Prop) :
  (b = true -> returns m s Q) -> (b = false -> Q tt s) -> returns (when b m) s Q.
Proof.
  destruct b; intros H1 H2; [apply H1; reflexivity|].
  apply returns_ret, H2. reflexivity.
Qed.

Lemma returns_tryCatch {A} (body : M A) handler s (Q : A -> State -> Prop) :
  returns body s Q -> returns (tryCatch body handler) s Q.
Proof.
  intros (a & s' & Hb & HQ). exists a, s'. split; [|exact HQ].
  unfold tryCatch. rewrite Hb. reflexivity.
Qed.

Lemma returns_ext {A} (m' m : M A) s (Q : A -> State -> Prop) :
  m s = m' s -> returns m' s Q -> returns m s Q.
Proof. intros He (a & s' & Hm & HQ). exists a, s'. rewrite He. auto. Qed.

Lemma quiet_callAll name s : quiet s = true -> callAll (listenersOf name s) = None.
Proof.
  unfold quiet, listenersOf. induction (listeners s) as [|[k l] ls IH];
    [reflexivity|].
  cbn [forallb]. intros [Hl Hls]%andb_true_iff.
  rewrite filter_cons. destruct (decide _); [|apply IH, Hls].
  cbn [map snd callAll]. simpl in Hl.
  destruct l; [apply IH, Hls | discriminate].
Qed.

Lemma returns_emit ev s (Q : bool -> State -> Prop) :
  quiet s = true ->
  String.eqb (eventName ev) "error" = false ->
  (forall b, Q b (set_emitted (ev :: emitted s) s)) ->
  returns (emit ev) s Q.
Proof.
  intros Hq Hname HQ.
  destruct (emit_quiet ev s (quiet_callAll _ s Hq) Hname) as [b Hb].
  exists b, (set_emitted (ev :: emitted s) s). auto.
Qed.

Lemma returns_stopTracking now s (Q : unit -> State -> Prop) :
  quiet s = true ->
  (isTracking s = false -> Q tt s) ->
  (isTracking s = true ->
   Q tt (set_emitted (EvTrackingStopped (now - trackingStartTime s) :: emitted s)
           (set_rafId false (set_isTracking false s)))) ->
  returns (stopTracking now) s Q.
Proof.
  intros Hq H0 H1.
  destruct (isTracking s) eqn:Ht.
  - apply (returns_ext
             (modify (set_isTracking false);;
              modify (set_rafId false);;
              emit (EvTrackingStopped (now - trackingStartTime s));;
              mret tt)).
    { unfold stopTracking. rewrite Ht. reflexivity. }
    apply returns_bind, returns_modify, returns_bind, returns_modify, returns_bind.
    apply returns_emit; [exact Hq | reflexivity|].
    intros b. apply returns_ret. apply H1. reflexivity.
  - apply (returns_ext (mret tt)).
    { unfold stopTracking. rewrite Ht. reflexivity. }
    apply returns_ret, H0. reflexivity.
Qed.

Lemma throws_bind_first {A B} (m : M A) (k : A -> M B) s e (Q : State -> Prop) :
  throws m s e Q -> throws (m ≫= k) s e Q.
Proof.
  intros (s' & Hm & HQ). exists s'. split; [|exact HQ].
  unfold mbind, M_bind, bind. rewrite Hm. reflexivity.
Qed.

Lemma throws_bind_later {A B} (m : M A) (k : A -> M B) s e (Q : State -> Prop) :
  returns m s (fun a s' => throws (k a) s' e Q) -> throws (m ≫= k) s e Q.
Proof.
  intros (a & s' & Hm & s'' & Hk & HQ). exists s''. split; [|exact HQ].
  unfold mbind, M_bind, bind. rewrite Hm. exact Hk.
Qed.
End Returns.

(** ** Initialisation *)

Section InitFacts.
Import V2 Props Examples.

Lemma returns_mono {A} (m : M A) s (Q Q' : A -> State -> Prop) :
  returns m s Q -> (forall a s', Q a s' -> Q' a s') -> returns m s Q'.
Proof. intros (a & s' & Hm & HQ) H. exists a, s'. auto. Qed.

Lemma returns_cleanupPrevious now s :
  quiet s = true -> returns (cleanupPrevious now) s (fun _ s' => cleaned s s').
Proof.
  intros Hq. unfold cleanupPrevious.
  apply returns_bind, returns_gets, returns_bind.
  apply (returns_mono _ _
           (fun _ t => isTracking t = false /\ quiet t = true
                       /\ options t = options s /\ dom t = dom s
                       /\ listeners t = listeners s)).
  - apply returns_when; intros Ht.
    + apply returns_stopTracking; [exact Hq | intros Ht'; congruence|].
      intros _. repeat split; try reflexivity. exact Hq.
    + repeat split; try reflexivity; assumption.
  - intros _ t (Ht & Hqt & Ho & Hd & Hl).
    apply returns_bind, returns_modify, returns_bind, returns_modify.
    apply returns_bind, returns_modify, returns_bind, returns_modify.
    apply returns_bind, returns_modify, returns_modify.
    unfold cleaned. simpl.
    destruct (heatmapContainer t); [| destruct (negb _) | destruct (negb _)];
      repeat split; assumption.
Qed.

Lemma register_lookup (l : list Elem) : forall (ed : gmap Elem Data) p,
  fold_left (fun ed p => <[p := emptyData None]> ed) l ed !! p
  = if bool_decide (p ∈ l) then Some (emptyData None) else ed !! p.
Proof.
  induction l as [|q l IH]; intros ed p.
  - cbn [fold_left]. case_bool_decide as Hin; [|reflexivity].
    apply elem_of_nil in Hin. contradiction.
  - cbn [fold_left]. rewrite IH. destruct (decide (q = p)) as [->|Hne].
    + rewrite lookup_insert_eq.
      rewrite (bool_decide_eq_true_2 (p ∈ p :: l)) by (apply elem_of_cons; auto).
      case_bool_decide; reflexivity.
    + rewrite lookup_insert_ne by exact Hne.
      rewrite (bool_decide_ext (p ∈ q :: l) (p ∈ l)); [reflexivity|].
      rewrite elem_of_cons. split; [intros [?|?]; [congruence | assumption] | auto].
Qed.

Lemma freshId_truthy dateNow index : idTruthy (Some (freshId dateNow index)) = true.
Proof. reflexivity. Qed.

(** [assignIds] gives an identifier to the paragraphs that have none and
    keeps the identifiers that exist. *)
Lemma assignIds_spec dateNow (ps : list Elem) : forall index (d : gmap Elem Node) p,
  (p ∈ ps \/ idTruthy (highlightId (default blankNode (d !! p))) = true ->
   idTruthy (highlightId (default blankNode (assignIds dateNow ps index d !! p))) = true)
  /\ (idTruthy (highlightId (default blankNode (d !! p))) = true ->
      assignIds dateNow ps index d !! p = d !! p).
Proof.
  induction ps as [|q ps IH]; intros index d p; cbn [assignIds].
  - split; [|reflexivity]. intros [Hin|H]; [|exact H].
    apply elem_of_nil in Hin. contradiction.
  - destruct (idTruthy (highlightId (default blankNode (d !! q)))) eqn:Tq.
    + destruct (IH (S index) d p) as [H1 H2]. split; [|exact H2].
      intros [[->|Hin]%elem_of_cons|H]; apply H1; auto.
    + destruct (IH (S index)
                  (<[q := setId (Some (freshId dateNow index))
                            (default blankNode (d !! q))]> d) p) as [H1 H2].
      split.
      * intros [[->|Hin]%elem_of_cons|H]; apply H1; auto; right.
        -- rewrite lookup_insert_eq. reflexivity.
        -- destruct (decide (q = p)) as [->|Hne]; [congruence|].
           rewrite lookup_insert_ne by exact Hne. exact H.
      * intros H. destruct (decide (q = p)) as [->|Hne]; [congruence|].
        rewrite H2; [apply lookup_insert_ne, Hne|].
        rewrite lookup_insert_ne by exact Hne. exact H.
Qed.

(** X11.  When the container resolves, the heat map mount (if one is
    configured) is found and no listener throws, [init] returns normally and
    leaves: the paragraphs found as the tracked set, all of them observed;
    tracking off and the running maximum at 0; an empty record for each
    paragraph found and no other record (the previous accounting is
    dropped); a non-empty [highlightId] on each paragraph found, the
    identifiers that existed being kept; and ["ready"] as the last event. *)
Theorem init_registers
    (dateNow : Z) (now : Q) (container : ContainerArg) (mountFound : bool)
    (s : State) (found : list Elem) :
  resolved container = Some found ->
  quiet s = true ->
  (negb (truthy (getProp (options s) "heatmapContainer")) || mountFound)%bool = true ->
  returns (init dateNow now container mountFound) s
    (fun _ s' =>
       paragraphs s' = found
       /\ observer s' = Some found
       /\ isTracking s' = false
       /\ maxEngagement s' = 0%Q
       /\ (forall p, engagementData s' !! p
                     = if bool_decide (p ∈ found) then Some (emptyData None) else None)
       /\ (forall p, p ∈ found -> idTruthy (highlightId (nodeAt s' p)) = true)
       /\ (forall p, idTruthy (highlightId (nodeAt s p)) = true ->
                     highlightId (nodeAt s' p) = highlightId (nodeAt s p))
       /\ head (emitted s') = Some (EvReady (length found))).
Proof.
  intros Hres Hq Hmount. unfold init.
  apply returns_tryCatch, returns_bind.
  eapply returns_mono; [apply returns_cleanupPrevious, Hq|].
  intros _ t (Hps & Hed & Hmax & Ht & Hobs & Hqt & Hopt & Hdom & Hlis).
  apply returns_bind.
  assert (Hvc : returns (validateContainer container) t (fun ps t' => ps = found /\ t' = t)).
  { destruct container as [sel [ps|]|ps|]; simpl in Hres; try discriminate;
      injection Hres as <-; apply returns_ret; auto. }
  eapply returns_mono; [exact Hvc|]. intros ps t' [-> ->].
  apply returns_bind. unfold getParagraphs.
  apply returns_bind.
  apply (returns_mono _ _ (fun _ u => isTracking u = false /\ quiet u = true
                                      /\ options u = options s /\ dom u = dom s
                                      /\ engagementData u = ∅ /\ maxEngagement u = 0%Q)).
  { apply returns_when; intros Hlen.
    - apply returns_bind, returns_emit; [exact Hqt | reflexivity|].
      intros b. apply returns_ret. repeat split; assumption.
    - repeat split; assumption. }
  intros _ u (Hu1 & Hu2 & Hu3 & Hu4 & Hu5 & Hu6).
  apply returns_bind, returns_modify, returns_ret.
  apply returns_bind, returns_modify, returns_bind, returns_modify.
  apply returns_bind, returns_modify, returns_bind.
  match goal with
  | |- returns (setupHeatmapContainer _) ?w _ =>
      assert (Hw : exists w', setupHeatmapContainer mountFound w = (Ret tt, w')
                              /\ (w' = w \/ w' = set_heatmapContainer ProvidedMount w))
  end.
  { unfold setupHeatmapContainer. cbn -[truthy getProp].
    rewrite Hu3. destruct (truthy (getProp (options s) "heatmapContainer")); [|eauto].
    simpl in Hmount. rewrite Hmount. eauto. }
  destruct Hw as (w' & Hw' & Hcase).
  eexists tt, w'. split; [exact Hw'|].
  apply returns_bind, returns_gets, returns_bind.
  apply returns_emit.
  { destruct Hcase as [-> | ->]; exact Hu2. }
  { reflexivity. }
  intros b. apply returns_ret.
  assert (Hnode : forall p, nodeAt (set_dom (assignIds dateNow found 0 (dom u)) u) p
                            = default blankNode (assignIds dateNow found 0 (dom s) !! p)).
  { intros p. unfold nodeAt. simpl. rewrite Hu4. reflexivity. }
  destruct Hcase as [-> | ->]; simpl; rewrite Hu5;
    (repeat split; [assumption | assumption
                   | intros p; rewrite register_lookup; rewrite lookup_empty; reflexivity
                   | intros p Hp; unfold nodeAt; simpl; rewrite Hu4;
                     apply (assignIds_spec dateNow found 0 (dom s) p); left; exact Hp
                   | intros p Hp; unfold nodeAt; simpl; rewrite Hu4;
                     rewrite (proj2 (assignIds_spec dateNow found 0 (dom s) p) Hp);
                     reflexivity]).
Qed.

Lemma init_registers_witness :
  returns (init 1701 5000 (CElement [2%nat; 3%nat]) false) (run fresh oneInView)
    (fun _ s' =>
       paragraphs s' = [2%nat; 3%nat]
       /\ engagementData s' !! 1%nat = None
       /\ engagementData s' !! 2%nat = Some (emptyData None)
       /\ head (emitted s') = Some (EvReady 2)).
Proof.
  eapply returns_mono.
  - apply (init_registers 1701 5000 (CElement [2%nat; 3%nat]) false
             (run fresh oneInView) [2%nat; 3%nat]); reflexivity.
  - intros _ s' (Hps & _ & _ & _ & Hed & _ & _ & Hev).
    repeat split; [exact Hps | apply (Hed 1%nat) | apply (Hed 2%nat) | exact Hev].
Defined.

Lemma throws_tryCatch {A} (body : M A) handler s e0 e (Q : State -> Prop) :
  throws body s e0 (fun s' => throws (handler e0) s' e Q) ->
  throws (tryCatch body handler) s e Q.
Proof.
  intros (s' & Hb & s'' & Hh & HQ). exists s''. split; [|exact HQ].
  unfold tryCatch. rewrite Hb. exact Hh.
Qed.

(** The handler of [init]: the error reaches the caller as it is when an
    ["error"] listener is registered, and is replaced by the emitter's own
    error otherwise. *)
Lemma throws_report message e0 t :
  quiet t = true ->
  throws (emit (EvError message e0);; (throw e0 : M unit)) t
    (if bool_decide (listenersOf "error" t = [])
     then unhandled (EvError message e0) else e0)
    (fun t' => t' = set_emitted (EvError message e0 :: emitted t) t).
Proof.
  intros Hq. exists (set_emitted (EvError message e0 :: emitted t) t).
  split; [|reflexivity].
  pose proof (quiet_callAll "error" t Hq) as Hall.
  unfold mbind, M_bind, bind, emit. cbn [eventName].
  case_bool_decide as Hno.
  - rewrite Hno. reflexivity.
  - destruct (listenersOf "error" t) as [|l ls] eqn:E; [contradiction|].
    rewrite Hall. reflexivity.
Qed.



(** X13.  When no listener registered on the tracker throws, the
    paragraphs are found, and the [heatmapContainer] option is a non-empty
    selector that matches nothing, [init] throws after the paragraphs were
    registered: they are tracked, observed and have their empty records, and
    the last event emitted is the ["error"] one, not ["ready"].  The error
    thrown is ["Heatmap container not found: <selector>"] when an ["error"]
    listener is registered, and the emitter's
    ["Unhandled error. (Initialization failed)"] when none is. *)
Theorem init_mount_not_found
    (dateNow : Z) (now : Q) (container : ContainerArg) (s : State)
    (found : list Elem) (selector : string) :
  quiet s = true ->
  resolved container = Some found ->
  getProp (options s) "heatmapContainer" = VStr selector ->
  truthy (VStr selector) = true ->
  throws (init dateNow now container false) s
    (if bool_decide (listenersOf "error" s = [])
     then mkExn KError "Unhandled error. (Initialization failed)"
     else mkExn KError ("Heatmap container not found: " +:+ selector))
    (fun s' =>
       paragraphs s' = found
       /\ observer s' = Some found
       /\ (forall p, engagementData s' !! p
                     = if bool_decide (p ∈ found) then Some (emptyData None) else None)
       /\ head (emitted s')
          = Some (EvError "Initialization failed"
                    (mkExn KError ("Heatmap container not found: " +:+ selector)))).
Proof.
  intros Hq Hres Hsel Hne. unfold init.
  apply (throws_tryCatch _ _ _
           (mkExn KError ("Heatmap container not found: " +:+ selector))).
  apply throws_bind_later.
  eapply returns_mono; [apply returns_cleanupPrevious, Hq|].
  intros _ t (Hps & Hed & Hmax & Ht & Hobs & Hqt & Hopt & Hdom & Hlis).
  apply throws_bind_later.
  assert (Hvc : returns (validateContainer container) t (fun ps t' => ps = found /\ t' = t)).
  { destruct container as [sel [ps|]|ps|]; simpl in Hres; try discriminate;
      injection Hres as <-; apply returns_ret; auto. }
  eapply returns_mono; [exact Hvc|]. intros ps t' [-> ->].
  apply throws_bind_later. unfold getParagraphs.
  apply returns_bind.
  apply (returns_mono _ _ (fun _ u => quiet u = true /\ options u = options s
                                      /\ listeners u = listeners s
                                      /\ engagementData u = ∅)).
  { apply returns_when; intros Hlen.
    - apply returns_bind, returns_emit; [exact Hqt | reflexivity|].
      intros b. apply returns_ret. repeat split; assumption.
    - repeat split; assumption. }
  intros _ u (Hu1 & Hu2 & Hu3 & Hu4).
  apply returns_bind, returns_modify, returns_ret.
  apply throws_bind_later, returns_modify, throws_bind_later, returns_modify.
  apply throws_bind_later, returns_modify, throws_bind_first.
  match goal with
  | |- throws (setupHeatmapContainer _) ?w _ _ => exists w
  end.
  split.
  { unfold setupHeatmapContainer. cbn -[truthy getProp].
    rewrite Hu2, Hsel, Hne. reflexivity. }
  match goal with
  | |- throws _ ?w _ _ =>
      destruct (throws_report "Initialization failed"
                  (mkExn KError ("Heatmap container not found: " +:+ selector)) w Hu1)
        as (w' & Hw' & ->);
      eexists; split;
        [rewrite Hw'; unfold listenersOf; cbn -[filter]; rewrite Hu3; reflexivity|]
  end.
  simpl. rewrite Hu4.
  repeat split. intros p. rewrite register_lookup, lookup_empty. reflexivity.
Qed.

Lemma init_mount_not_found_witness :
  throws (init 1701 5000 (CElement [2%nat; 3%nat]) false)
    (initializeState [("heatmapContainer", VStr "#heat")])
    (mkExn KError "Unhandled error. (Initialization failed)")
    (fun s' =>
       paragraphs s' = [2%nat; 3%nat]
       /\ observer s' = Some [2%nat; 3%nat]
       /\ (forall p, engagementData s' !! p
                     = if bool_decide (p ∈ [2%nat; 3%nat])
                       then Some (emptyData None) else None)
       /\ head (emitted s')
          = Some (EvError "Initialization failed"
                    (mkExn KError "Heatmap container not found: #heat"))).
Proof.
  apply (init_mount_not_found 1701 5000 (CElement [2%nat; 3%nat])
           (initializeState [("heatmapContainer", VStr "#heat")])
           [2%nat; 3%nat] "#heat"); reflexivity.
Defined.
End InitFacts.

(** ** The interval edition: timer, registration, accounting *)

Section IntervalFacts.
Import V1 V1Host.

Lemma flush_tick now t d : t <> 0%Z -> flush now (tick t d) = flush now d.
Proof.
  intros Ht%Z.eqb_neq. destruct d as [el spent [|] [z|] ix]; unfold flush, tick; simpl;
    try reflexivity.
  destruct (Z.eqb z 0) eqn:Ez; simpl; [rewrite Ez; reflexivity|].
  rewrite Ht. simpl. f_equal. lia.
Qed.

Lemma tick_tick now t d : t <> 0%Z -> tick now (tick t d) = tick now d.
Proof.
  intros Ht%Z.eqb_neq. destruct d as [el spent [|] [z|] ix]; unfold tick; simpl;
    try reflexivity.
  destruct (Z.eqb z 0) eqn:Ez; simpl; [rewrite Ez; reflexivity|].
  rewrite Ht. simpl. f_equal. lia.
Qed.

Lemma amap_amap {A} (f g : A -> A) (o : list (string * A)) :
  amap f (amap g o) = amap (fun v => f (g v)) o.
Proof. unfold amap. rewrite map_map. reflexivity. Qed.

Lemma amap_ext_all {A} (f g : A -> A) (o : list (string * A)) :
  (forall v, f v = g v) -> amap f o = amap g o.
Proof.
  intros H. unfold amap. apply map_ext. intros [k v]. simpl. rewrite H. reflexivity.
Qed.

Lemma stopTracking_checkVisibility now t s :
  isTracking s = true -> t <> 0%Z ->
  stopTracking now (checkVisibility t s) = stopTracking now s.
Proof.
  intros E Ht. unfold stopTracking, checkVisibility, withData. simpl. rewrite E. simpl.
  f_equal. rewrite amap_amap. apply amap_ext_all. intros d. apply flush_tick, Ht.
Qed.

Lemma checkVisibility_twice now t s :
  t <> 0%Z -> checkVisibility now (checkVisibility t s) = checkVisibility now s.
Proof.
  intros Ht. unfold checkVisibility, withData. simpl.
  f_equal. rewrite amap_amap. apply amap_ext_all. intros d. apply tick_tick, Ht.
Qed.

(** X14.  The firings of the interval timer do not change what is credited
    in the end: whatever the (non-zero) instants at which [checkVisibility]
    ran since the records were last touched, [stopTracking] leaves the state
    it would have left without them, and so does one more [checkVisibility].
    The sampling rate has no effect on the totals. *)
Theorem timer_firings_telescope (ticks : list Z) (now : Z) (s : State) :
  forallb (fun t => negb (Z.eqb t 0)) ticks = true ->
  let s' := fold_left (fun s t => checkVisibility t s) ticks s in
  checkVisibility now s' = checkVisibility now s
  /\ (isTracking s = true -> stopTracking now s' = stopTracking now s).
Proof.
  revert s. induction ticks as [|t ticks IH]; intros s Hticks; cbn [fold_left].
  - split; reflexivity.
  - cbn [forallb] in Hticks. apply andb_true_iff in Hticks as [Ht Hticks].
    apply negb_true_iff, Z.eqb_neq in Ht.
    destruct (IH (checkVisibility t s) Hticks) as [H1 H2]. split.
    + rewrite H1. apply checkVisibility_twice, Ht.
    + intros E. rewrite H2 by exact E. apply stopTracking_checkVisibility; assumption.
Qed.

Lemma timer_firings_telescope_witness :
  let s' := fold_left (fun s t => checkVisibility t s) [2000; 3000; 3200]%Z
              Examples.intervalInView in
  checkVisibility 4000 s' = checkVisibility 4000 Examples.intervalInView
  /\ (isTracking Examples.intervalInView = true ->
      stopTracking 4000 s' = stopTracking 4000 Examples.intervalInView).
Proof.
  apply (timer_firings_telescope [2000; 3000; 3200]%Z 4000 Examples.intervalInView).
  reflexivity.
Defined.

Lemma paragraphId_inj i j : paragraphId i = paragraphId j -> i = j.
Proof.
  unfold paragraphId. intros H.
  change (String "p" (String "-" (pretty i)) = String "p" (String "-" (pretty j))) in H.
  injection H as H. apply (inj pretty), H.
Qed.

Lemma initData_spec (ps : list Element) : forall i ed,
  (forall j p, ps !! j = Some p ->
     aget (initData ps i ed) (paragraphId (i + j)) = Some (freshData p (i + j)))
  /\ (forall k, (forall j, (j < length ps)%nat -> k <> paragraphId (i + j)) ->
        aget (initData ps i ed) k = aget ed k).
Proof.
  induction ps as [|q ps IH]; intros i ed; cbn [initData].
  - split; [intros j p Hj; rewrite lookup_nil in Hj; discriminate | reflexivity].
  - destruct (IH (S i) (aset ed (paragraphId i) (freshData q i))) as [H1 H2]. split.
    + intros [|j] p Hj.
      * injection Hj as <-. rewrite Nat.add_0_r. unfold freshData in H2. rewrite H2.
        -- apply aget_aset_eq.
        -- intros j _ Heq. apply paragraphId_inj in Heq. lia.
      * replace (i + S j)%nat with (S i + j)%nat by lia. apply H1, Hj.
    + intros k Hk. unfold freshData in H2. rewrite H2.
      * apply aget_aset_ne. intros Heq. apply (Hk 0%nat); [simpl; lia|].
        rewrite Nat.add_0_r. symmetry. exact Heq.
      * intros j Hj. replace (S i + j)%nat with (i + S j)%nat by lia.
        apply Hk. simpl. lia.
Qed.

(** X15.  [init] on a container that resolves writes, for the paragraph at
    every position [i], a new record under the key ["p-<i>"] (no time, out of
    view, no timestamp), whatever that key held; and it leaves every other
    key of the accounting as it was, so the records of an earlier [init]
    with more paragraphs stay. *)
Theorem init_writes_records (ps : list Element) (s : State) :
  (forall i p, ps !! i = Some p ->
     aget (engagementData (init (Some ps) s)) (paragraphId i) = Some (freshData p i))
  /\ (forall k, (forall i, (i < length ps)%nat -> k <> paragraphId i) ->
        aget (engagementData (init (Some ps) s)) k = aget (engagementData s) k).
Proof.
  destruct (initData_spec ps 0 (engagementData s)) as [H1 H2]. split.
  - intros i p Hi. exact (H1 i p Hi).
  - intros k Hk. apply H2. exact Hk.
Qed.

Lemma init_writes_records_witness :
  aget (engagementData (init (Some [mkElement "Only paragraph."]) Examples.intervalTwo))
    (paragraphId 0)
  = Some (freshData (mkElement "Only paragraph.") 0)
  /\ aget (engagementData (init (Some [mkElement "Only paragraph."]) Examples.intervalTwo))
       "p-1"
     = aget (engagementData Examples.intervalTwo) "p-1".
Proof.
  destruct (init_writes_records [mkElement "Only paragraph."] Examples.intervalTwo)
    as [H1 H2].
  split.
  - apply (H1 0%nat). reflexivity.
  - apply H2. intros [|i] Hi; [discriminate | simpl in Hi; lia].
Defined.

Lemma interval_okData_mono t t' d : (t <= t')%Z -> V1Host.okData t d -> V1Host.okData t' d.
Proof.
  intros Hle [H0 [H|(Hv & z & Hz & Hp & Hzt)]]; split; auto.
  right. split; [exact Hv|]. exists z. repeat split; [exact Hz | exact Hp | lia].
Qed.

Lemma interval_okState_mono t t' s : (t <= t')%Z -> V1Host.okState t s -> V1Host.okState t' s.
Proof.
  intros Hle (Hd & Hi & Hs). repeat split; [|exact Hi | exact Hs].
  eapply Forall_impl; [exact Hd|]. intros kd. apply interval_okData_mono, Hle.
Qed.

Lemma interval_tick_ok now d :
  (0 < now)%Z -> V1Host.okData now d ->
  V1Host.okData now (tick now d) /\ inView (tick now d) = inView d.
Proof.
  intros Hnow [H0 [[Hv Hn]|(Hv & z & Hz & Hp & Hzt)]]; unfold tick; rewrite Hv.
  - simpl. split; [|exact Hv]. split; [exact H0 | left; auto].
  - rewrite Hz. simpl. replace (Z.eqb z 0) with false by (symmetry; apply Z.eqb_neq; lia).
    simpl. split; [|reflexivity]. split; simpl; [lia|].
    right. split; [reflexivity|]. exists now. repeat split; [exact Hnow | lia].
Qed.

Lemma interval_flush_ok now d :
  V1Host.okData now d -> V1Host.okData now (flush now d) /\ inView (flush now d) = false.
Proof.
  intros [H0 [[Hv Hn]|(Hv & z & Hz & Hp & Hzt)]]; unfold flush; rewrite Hv.
  - simpl. split; [|exact Hv]. split; [exact H0 | left; auto].
  - rewrite Hz. simpl. replace (Z.eqb z 0) with false by (symmetry; apply Z.eqb_neq; lia).
    simpl. split; [|reflexivity]. split; simpl; [lia | left; auto].
Qed.

Lemma interval_onEntry_ok now e d :
  (0 < now)%Z -> V1Host.okData now d -> V1Host.okData now (onEntry now e d).
Proof.
  intros Hnow [H0 [[Hv Hn]|(Hv & z & Hz & Hp & Hzt)]]; unfold onEntry; rewrite Hv.
  - destruct (Qle_bool _ _); simpl.
    + split; simpl; [exact H0|]. right. split; [reflexivity|].
      exists now. repeat split; [exact Hnow | lia].
    + split; [exact H0 | left; auto].
  - rewrite Hz. destruct (Qle_bool _ _); simpl.
    + split; [exact H0|]. right. split; [exact Hv|]. exists z. auto.
    + replace (Z.eqb z 0) with false by (symmetry; apply Z.eqb_neq; lia).
      simpl. split; simpl; [lia | left; auto].
Qed.

Lemma interval_initData_Forall (P : string * Data -> Prop) (ps : list Element) : forall i ed,
  (forall p j, P (paragraphId j, V1Host.freshData p j)) ->
  Forall P ed -> Forall P (initData ps i ed).
Proof.
  induction ps as [|q ps IH]; intros i ed Hf Hed; cbn [initData]; [exact Hed|].
  apply IH; [exact Hf|]. apply aset_Forall; [exact Hed | apply Hf].
Qed.

Lemma step_ok1 t s c :
  V1Host.okState t s -> V1Host.hostOk t [c] = true ->
  V1Host.okState (default t (V1Host.callTime c)) (V1Host.step s c).
Proof.
  intros Hok Hc. pose proof Hok as (Hd & Hi & Hs). destruct c as [found| |now|now|now entries];
    cbn [V1Host.callTime default V1Host.step]; cbn [V1Host.hostOk V1Host.callTime] in Hc.
  - destruct found as [ps|]; [|exact Hok].
    unfold init. repeat split; cbn [engagementData isTracking trackingInterval].
    + apply interval_initData_Forall; [|exact Hd]. intros p j. simpl.
      split; [simpl; lia | left; auto].
    + exact Hi.
    + intros E. apply interval_initData_Forall; [|exact (Hs E)]. reflexivity.
  - unfold startTracking. destruct (isTracking s) eqn:E; [exact Hok|].
    repeat split; cbn [engagementData isTracking trackingInterval];
      [exact Hd | discriminate].
  - rewrite andb_true_r in Hc. apply andb_true_iff in Hc as [Hp%Z.ltb_lt Hle%Z.leb_le].
    unfold stopTracking. destruct (isTracking s) eqn:E; simpl.
    + repeat split; cbn [engagementData isTracking trackingInterval].
      * unfold amap. apply Forall_map. eapply Forall_impl; [exact Hd|].
        intros kd H. simpl. apply interval_flush_ok. eapply interval_okData_mono; [exact Hle | exact H].
      * intros _. unfold amap. apply Forall_map. eapply Forall_impl; [exact Hd|].
        intros kd H. simpl. apply interval_flush_ok. eapply interval_okData_mono; [exact Hle | exact H].
    + apply (interval_okState_mono t); [exact Hle | exact Hok].
  - rewrite andb_true_r in Hc. apply andb_true_iff in Hc as [Hp%Z.ltb_lt Hle%Z.leb_le].
    destruct (trackingInterval s) eqn:Et;
      [|apply (interval_okState_mono t); [exact Hle | exact Hok]].
    unfold checkVisibility, withData.
    repeat split; cbn [engagementData isTracking trackingInterval].
    + unfold amap. apply Forall_map. eapply Forall_impl; [exact Hd|].
      intros kd H. simpl. apply interval_tick_ok; [exact Hp|].
      eapply interval_okData_mono; [exact Hle | exact H].
    + rewrite Et. exact Hi.
    + intros E. rewrite E in Hi. discriminate.
  - rewrite andb_true_r in Hc. apply andb_true_iff in Hc as [Hp%Z.ltb_lt Hle%Z.leb_le].
    unfold handleIntersection. destruct (isTracking s) eqn:E; simpl;
      [|apply (interval_okState_mono t); [exact Hle | exact Hok]].
    unfold withData. repeat split; cbn [engagementData isTracking trackingInterval].
    + apply (fold_left_preserves (Forall (fun kd => V1Host.okData now (snd kd)))).
      * intros ed e Hed. destruct (aget ed (targetId e)) as [d|] eqn:Eg; [|exact Hed].
        apply aset_Forall; [exact Hed|]. simpl. apply interval_onEntry_ok; [exact Hp|].
        apply aget_In in Eg.
        exact (proj1 (List.Forall_forall _ _) Hed _ Eg).
      * eapply Forall_impl; [exact Hd|]. intros kd. apply interval_okData_mono, Hle.
    + rewrite Hi, E. reflexivity.
    + rewrite E. discriminate.
Qed.

Lemma run_ok1 calls : forall t s,
  V1Host.okState t s -> V1Host.hostOk t calls = true ->
  exists t', V1Host.okState t' (V1Host.run s calls).
Proof.
  induction calls as [|c calls IH]; intros t s Hs Hc.
  - exists t. exact Hs.
  - cbn [V1Host.run fold_left].
    assert (H1 : V1Host.hostOk t [c] = true
                 /\ V1Host.hostOk (default t (V1Host.callTime c)) calls = true).
    { cbn [V1Host.hostOk] in *. destruct (V1Host.callTime c) as [now|]; simpl.
      - apply andb_true_iff in Hc as [Hc1 Hc2]. rewrite Hc1. auto.
      - auto. }
    destruct H1 as [Hone Hrest].
    exact (IH _ _ (step_ok1 t s c Hs Hone) Hrest).
Qed.

(** X16.  In every state the interval edition reaches from a constructed
    tracker, through any sequence of calls made by a host whose clock reads
    positive instants and does not go back, every record has a time credited
    that is not negative, is in view exactly when it has an open interval,
    and is out of view when the tracker is stopped. *)
Theorem interval_accounting
    (opts : JsObj) (s0 : State) (calls : list V1Host.Call) (k : string) (d : Data) :
  constructor opts = Ret s0 ->
  V1Host.hostOk 0 calls = true ->
  aget (engagementData (V1Host.run s0 calls)) k = Some d ->
  (0 <= timeSpent d)%Z
  /\ inView d = openInterval d
  /\ (isTracking (V1Host.run s0 calls) = false -> inView d = false).
Proof.
  intros Hc Hh Hk.
  assert (H0 : V1Host.okState 0 s0).
  { unfold constructor in Hc.
    destruct (_ && _)%bool; [discriminate|]. destruct (_ && _)%bool; [discriminate|].
    injection Hc as <-. repeat split; constructor. }
  destruct (run_ok1 calls 0%Z s0 H0 Hh) as (t' & Hd & Hi & Hs).
  apply aget_In in Hk.
  pose proof (proj1 (List.Forall_forall _ _) Hd _ Hk) as [Hsp Hcase]. simpl in Hcase.
  split; [exact Hsp|]. split.
  - unfold openInterval. destruct Hcase as [[-> _]|(-> & z & -> & Hp & _)]; [reflexivity|].
    simpl. symmetry. apply negb_true_iff, Z.eqb_neq. lia.
  - intros E. exact (proj1 (List.Forall_forall _ _) (Hs E) _ Hk).
Qed.

Lemma interval_accounting_witness :
  exists s0,
    constructor [] = Ret s0
    /\ let calls := [V1Host.CallInit (Some [mkElement "First paragraph."]);
                     V1Host.CallStartTracking;
                     V1Host.CallHandleIntersection 1000 [mkEntry "p-0" 1];
                     V1Host.CallTimer 1200;
                     V1Host.CallStopTracking 1500] in
       exists d,
         aget (engagementData (V1Host.run s0 calls)) "p-0" = Some d
         /\ (0 <= timeSpent d)%Z
         /\ inView d = openInterval d
         /\ (isTracking (V1Host.run s0 calls) = false -> inView d = false).
Proof.
  eexists. split; [reflexivity|]. intros calls.
  eexists. split; [reflexivity|].
  eapply (interval_accounting [] _ calls "p-0"); reflexivity.
Defined.
End IntervalFacts.

(** ** Teardown *)

Section TeardownFacts.
Import V2 Props Examples.

Local Ltac split_emit :=
  match goal with
  | |- context [emit ?ev ?t] =>
      let r := fresh "r" in
      let Hr := fresh "Hr" in
      destruct (emit_cases ev t) as [r Hr]; rewrite Hr; destruct r as [?|?]
  end.

(** X17.  Whatever [destroy] meets, it leaves tracking off, and it never
    touches the page nodes (the [highlightId] attributes stay), the
    listeners registered on the tracker, the options or the running maximum.
    When the tracker was stopped already, or no listener on
    ["trackingStopped"] throws, it also empties the tracked set and the
    accounting and drops the observer and the heat map mount. *)
Theorem destroy_teardown (now : Q) (s : State) :
  let s' := snd (destroy now s) in
  isTracking s' = false
  /\ dom s' = dom s
  /\ listeners s' = listeners s
  /\ options s' = options s
  /\ maxEngagement s' = maxEngagement s
  /\ (isTracking s = false \/ callAll (listenersOf "trackingStopped" s) = None ->
      paragraphs s' = [] /\ engagementData s' = ∅ /\ observer s' = None
      /\ heatmapContainer s' = NoMount).
Proof.
  cbv zeta. unfold destroy, tryCatch, stopTracking.
  cbv [mbind M_bind bind modify mret M_ret ret].
  destruct (isTracking s) eqn:E; cbn [negb].
  - destruct (emit_cases (EvTrackingStopped (now - trackingStartTime s))
                (set_rafId false (set_isTracking false s))) as [r Hr].
    rewrite Hr. destruct r as [b|e].
    + repeat split_emit; simpl; repeat split; auto.
    + split_emit; simpl; repeat split; auto;
        match goal with
        | H : _ \/ _ |- _ => destruct H as [H|H]; [discriminate|]
        end;
        destruct (emit_quiet (EvTrackingStopped (now - trackingStartTime s))
                    (set_rafId false (set_isTracking false s)) H eq_refl) as [b Hb];
        rewrite Hb in Hr; discriminate.
  - repeat split_emit; simpl; repeat split; auto; intros _; repeat split.
Qed.

Lemma destroy_teardown_witness :
  let s' := snd (destroy 4000 withFailingListener) in
  isTracking s' = false
  /\ dom s' = dom withFailingListener
  /\ listeners s' = listeners withFailingListener
  /\ options s' = options withFailingListener
  /\ maxEngagement s' = maxEngagement withFailingListener
  /\ paragraphs s' = [] /\ engagementData s' = ∅ /\ observer s' = None
  /\ heatmapContainer s' = NoMount.
Proof.
  destruct (destroy_teardown 4000 withFailingListener) as (H1 & H2 & H3 & H4 & H5 & H6).
  repeat (split; [assumption|]). apply H6. right. reflexivity.
Defined.
End TeardownFacts.

(** ** Time in the background *)

Section Background.
Import V2 Props Examples.

Lemma stampAll_record now (ps : list Elem) : forall (ed : gmap Elem Data) p,
  fold_left (fun ed p => alter (stamp now) p ed) ps ed !! p
  = (if bool_decide (p ∈ ps) then stamp now else id) <$> ed !! p.
Proof.
  induction ps as [|q ps IH]; intros ed p.
  - cbn [fold_left]. case_bool_decide as Hin.
    + apply elem_of_nil in Hin. contradiction.
    + destruct (ed !! p); reflexivity.
  - cbn [fold_left]. rewrite IH. destruct (decide (q = p)) as [->|Hne].
    + rewrite lookup_alter_eq.
      rewrite (bool_decide_eq_true_2 (p ∈ p :: ps)) by (apply elem_of_cons; auto).
      destruct (ed !! p) as [d|]; case_bool_decide; reflexivity.
    + rewrite lookup_alter_ne by exact Hne.
      rewrite (bool_decide_ext (p ∈ q :: ps) (p ∈ ps)); [reflexivity|].
      rewrite elem_of_cons. split; [intros [?|?]; [congruence | assumption] | auto].
Qed.

Lemma handleVisibilityChange_state now visible s :
  snd (handleVisibilityChange now visible s)
  = set_emitted (EvVisibilityChange visible :: emitted s)
      ((if visible then stampAll now else id) (set_tabVisible visible s)).
Proof.
  unfold handleVisibilityChange. cbv [mbind M_bind bind modify mret M_ret ret when].
  destruct visible; simpl;
    match goal with
    | |- context [emit ?ev ?t] =>
        destruct (emit_cases ev t) as [r Hr]; rewrite Hr; destruct r
    end; reflexivity.
Qed.

(** While the tab is hidden the periodic callbacks leave the accounting,
    the tracked set and the flags alone. *)
Lemma periodic_hidden (calls : list Call) : forall s,
  tabVisible s = false ->
  forallb periodic calls = true ->
  tabVisible (run s calls) = false
  /\ engagementData (run s calls) = engagementData s
  /\ paragraphs (run s calls) = paragraphs s
  /\ isTracking (run s calls) = isTracking s
  /\ maxEngagement (run s calls) = maxEngagement s.
Proof.
  induction calls as [|c calls IH]; intros s Hv Hc; [auto|].
  cbn [forallb] in Hc. apply andb_true_iff in Hc as [Hc Hcs].
  cbn [run fold_left]. fold (run (step s c) calls).
  assert (Hstep : tabVisible (step s c) = false
                  /\ engagementData (step s c) = engagementData s
                  /\ paragraphs (step s c) = paragraphs s
                  /\ isTracking (step s c) = isTracking s
                  /\ maxEngagement (step s c) = maxEngagement s).
  { destruct c; try discriminate; cbn [step].
    - unfold trackingFrame. rewrite Hv, orb_true_r. auto.
    - rewrite handleIntersection_hidden by exact Hv. auto. }
  destruct Hstep as (H1 & H2 & H3 & H4 & H5).
  destruct (IH (step s c) H1 Hcs) as (K1 & K2 & K3 & K4 & K5).
  repeat split; congruence.
Qed.

(** X18.  Time passed in the background is not credited by the reports.
    When the tab is hidden, then (after any number of frames and visibility
    reports, which are ignored meanwhile) shown again at [regained], the next
    report that finds a tracked paragraph intersecting while tracking is on
    credits it the time since [regained] only, weighted by the ratio of the
    report, whatever the stamp of its record was before. *)
Theorem background_time_not_credited
    (hidden regained now : Q) (middle : list Call) (s : State)
    (entry : Entry) (data : Data) :
  isTracking s = true ->
  target entry ∈ paragraphs s ->
  engagementData s !! target entry = Some data ->
  isIntersecting entry = true ->
  live (Some regained) = true ->
  forallb periodic middle = true ->
  engagementData
    (run s (CallHandleVisibilityChange hidden false
            :: middle
            ++ [CallHandleVisibilityChange regained true;
                CallHandleIntersection now [entry]]))
  !! target entry
  = Some {| visibleRatio := intersectionRatio entry;
            timeSpent := timeSpent data + (now - regained);
            weightedTime := weightedTime data + (now - regained) * intersectionRatio entry;
            lastUpdate := Some now;
            inView := true |}.
Proof.
  intros Ht Hin He Hseen Hlive Hmid.
  unfold run. cbn [fold_left]. rewrite fold_left_app.
  set (s1 := step s (CallHandleVisibilityChange hidden false)).
  fold (run s1 middle).
  assert (H1 : tabVisible s1 = false /\ engagementData s1 = engagementData s
               /\ paragraphs s1 = paragraphs s /\ isTracking s1 = isTracking s).
  { unfold s1. cbn [step]. rewrite handleVisibilityChange_state. simpl. auto. }
  destruct H1 as (Hv1 & Hd1 & Hp1 & Ht1).
  destruct (periodic_hidden middle s1 Hv1 Hmid) as (Hv2 & Hd2 & Hp2 & Ht2 & _).
  set (s2 := run s1 middle) in *.
  cbn [fold_left step]. rewrite handleVisibilityChange_state.
  unfold handleIntersection. cbn [tabVisible set_emitted stampAll set_engagementData
    set_tabVisible negb fold_left].
  unfold onEntry.
  cbn [engagementData set_emitted stampAll set_engagementData set_tabVisible
       paragraphs isTracking maxEngagement].
  rewrite stampAll_record, Hp2, Hp1, Hd2, Hd1, He, Ht2, Ht1, Ht, Hseen.
  rewrite bool_decide_eq_true_2 by exact Hin.
  cbn [fmap option_fmap option_map stamp lastUpdate timeSpent weightedTime default].
  rewrite Hlive. cbn [andb].
  destruct (JsNum.Qltb _ _); cbn [engagementData set_maxEngagement set_engagementData];
    rewrite lookup_insert_eq; reflexivity.
Qed.

Lemma background_time_not_credited_witness :
  engagementData
    (run (run fresh oneInView)
       (CallHandleVisibilityChange 2000 false
        :: [CallTrackingFrame 2500; CallHandleIntersection 3000 [mkEntry 1 0 false]]
        ++ [CallHandleVisibilityChange 9000 true;
            CallHandleIntersection 9500 [mkEntry 1 (1 # 2) true]]))
  !! 1%nat
  = Some {| visibleRatio := 1 # 2;
            timeSpent := 0 + (9500 - 9000);
            weightedTime := 0 + (9500 - 9000) * (1 # 2);
            lastUpdate := Some 9500%Q;
            inView := true |}.
Proof.
  apply (background_time_not_credited 2000 9000 9500
           [CallTrackingFrame 2500; CallHandleIntersection 3000 [mkEntry 1 0 false]]
           (run fresh oneInView) (mkEntry 1 (1 # 2) true)
           {| visibleRatio := 1; timeSpent := 0; weightedTime := 0;
              lastUpdate := Some 1000%Q; inView := true |});
    try reflexivity.
  vm_compute. apply elem_of_cons. left. reflexivity.
Defined.
End Background.

(** ** Paragraphs added to the page *)

Section MutationAdds.
Import V2 Props Examples.

Lemma addNode_registers dateNow now tracking node m t :
  observing tracking node t ->
  exists t', addNode dateNow now m t = (Ret tt, t')
             /\ observing tracking node t'
             /\ (registered tracking now node t -> registered tracking now node t')
             /\ (m = node -> registered tracking now node t').
Proof.
  intros (Ht & Hname & [targets Hobs]). unfold addNode.
  destruct (String.eqb (nodeName (nodeAt t m)) "P") eqn:Em.
  - rewrite Hobs. eexists. split; [reflexivity|].
    assert (Hnode : forall n, nodeName (nodeAt
              (set_observer (Some (targets ++ [m]))
                 (set_engagementData
                    (<[m := emptyData (if isTracking t then Some now else None)]>
                       (engagementData t))
                    (set_paragraphs (paragraphs t ++ [m])
                       (set_dom (<[m := setId (Some (freshId dateNow (length (paragraphs t))))
                                          (nodeAt t m)]> (dom t)) t)))) n)
              = nodeName (nodeAt t n)).
    { intros n. unfold nodeAt. simpl. destruct (decide (m = n)) as [->|Hne].
      - rewrite lookup_insert_eq. reflexivity.
      - rewrite lookup_insert_ne by exact Hne. reflexivity. }
    assert (Hself : registered tracking now m
              (set_observer (Some (targets ++ [m]))
                 (set_engagementData
                    (<[m := emptyData (if isTracking t then Some now else None)]>
                       (engagementData t))
                    (set_paragraphs (paragraphs t ++ [m])
                       (set_dom (<[m := setId (Some (freshId dateNow (length (paragraphs t))))
                                          (nodeAt t m)]> (dom t)) t))))).
    { unfold registered, nodeAt. simpl. rewrite !lookup_insert_eq, Ht. simpl.
      split; [apply elem_of_app; right; apply elem_of_cons; left; reflexivity|].
      repeat split. exists (targets ++ [m]). split; [reflexivity|].
      apply elem_of_app. right. apply elem_of_cons. left. reflexivity. }
    split; [|split].
    + split; [exact Ht|]. split; [rewrite Hnode; exact Hname | simpl; eauto].
    + intros (Hp & Hr & Hi & tg & Htg & Hin). destruct (decide (m = node)) as [->|Hne];
        [exact Hself|].
      unfold registered, nodeAt in *. simpl.
      rewrite !lookup_insert_ne by exact Hne.
      split; [apply elem_of_app; left; exact Hp|].
      repeat split; [exact Hr | exact Hi|].
      exists (targets ++ [m]). split; [reflexivity|].
      rewrite Hobs in Htg. injection Htg as <-. apply elem_of_app. left. exact Hin.
    + intros ->. exact Hself.
  - exists t. split; [reflexivity|]. split; [|split].
    + split; [exact Ht|]. split; [exact Hname | eauto].
    + auto.
    + intros ->. rewrite Hname in Em. discriminate.
Qed.

Lemma forEach_addNode_registers dateNow now tracking node (l : list Elem) : forall t,
  observing tracking node t ->
  exists t', forEach (addNode dateNow now) l t = (Ret tt, t')
             /\ observing tracking node t'
             /\ (registered tracking now node t -> registered tracking now node t')
             /\ (node ∈ l -> registered tracking now node t').
Proof.
  induction l as [|m l IH]; intros t Ht.
  - exists t. split; [reflexivity|]. split; [exact Ht|]. split; [auto|].
    intros Hin. apply elem_of_nil in Hin. contradiction.
  - destruct (addNode_registers dateNow now tracking node m t Ht)
      as (t1 & H1 & Ho1 & Hk1 & Hn1).
    destruct (IH t1 Ho1) as (t2 & H2 & Ho2 & Hk2 & Hn2).
    exists t2. split.
    { cbn [forEach]. unfold mbind, M_bind, bind. rewrite H1. exact H2. }
    split; [exact Ho2|]. split; [auto|].
    intros [->|Hin]%elem_of_cons; auto.
Qed.

Lemma delete_keeps (l : list Elem) : forall i p x,
  l !! i = Some p -> p <> x -> x ∈ l -> x ∈ delete i l.
Proof.
  induction l as [|y l IH]; intros i p x Hi Hne Hin; [exact Hin|].
  destruct i as [|i]; simpl in *.
  - injection Hi as ->. apply elem_of_cons in Hin as [->|Hin]; [contradiction | exact Hin].
  - apply elem_of_cons in Hin as [->|Hin]; apply elem_of_cons; [left; reflexivity|].
    right. exact (IH i p x Hi Hne Hin).
Qed.

Lemma forallb_same {A} (f g : A -> bool) (l : list A) :
  (forall a, f a = g a) -> forallb f l = forallb g l.
Proof.
  intros H. induction l as [|a l IH]; [reflexivity|].
  cbn [forallb]. rewrite H, IH. reflexivity.
Qed.

Lemma removeNode_dom r t : dom (removeNode r t) = dom t.
Proof.
  unfold removeNode. destruct (_ && _)%bool; [|reflexivity].
  destruct (list_find _ _) as [[index p]|]; reflexivity.
Qed.

Lemma removeNodes_dom (rs : list Elem) : forall t,
  dom (fold_left (fun s r => removeNode r s) rs t) = dom t.
Proof.
  induction rs as [|r rs IH]; intros t; [reflexivity|].
  cbn [fold_left]. rewrite IH. apply removeNode_dom.
Qed.

(** Removing a node that does not carry the identifier of [node] leaves
    [node] registered. *)
Lemma removeNode_registered tracking now node r t :
  sharesId t r node = false ->
  registered tracking now node t -> registered tracking now node (removeNode r t).
Proof.
  intros Hid (Hp & Hr & Hi & Hobs).
  assert (Hids : highlightId (nodeAt t r) <> highlightId (nodeAt t node)).
  { unfold sharesId in Hid. apply bool_decide_eq_false in Hid. exact Hid. }
  assert (Hne : r <> node) by (intros ->; apply Hids; reflexivity).
  unfold removeNode.
  destruct (_ && _)%bool; [|repeat split; assumption].
  destruct (list_find _ _) as [[index p]|] eqn:Ef; [|repeat split; assumption].
  apply list_find_Some in Ef as (Hlook & Hsame & _).
  unfold registered, nodeAt. simpl. rewrite lookup_delete_ne by exact Hne.
  split; [|repeat split; assumption].
  apply (delete_keeps _ index p node Hlook); [|exact Hp].
  intros ->. apply Hids. symmetry. exact Hsame.
Qed.

Lemma removeNodes_registered tracking now node (rs : list Elem) : forall t,
  forallb (fun r => negb (sharesId t r node)) rs = true ->
  registered tracking now node t ->
  registered tracking now node (fold_left (fun s r => removeNode r s) rs t)
  /\ dom (fold_left (fun s r => removeNode r s) rs t) = dom t.
Proof.
  induction rs as [|r rs IH]; intros t Hrs Hreg; [split; [exact Hreg | reflexivity]|].
  cbn [forallb] in Hrs. apply andb_true_iff in Hrs as [Hr Hrs].
  apply negb_true_iff in Hr. cbn [fold_left].
  assert (Hsame : forall a b, sharesId (removeNode r t) a b = sharesId t a b).
  { intros a b. unfold sharesId, nodeAt. rewrite removeNode_dom. reflexivity. }
  destruct (IH (removeNode r t)) as [H1 H2].
  - rewrite <- Hrs. apply forallb_same. intros a. rewrite Hsame. reflexivity.
  - apply removeNode_registered; assumption.
  - split; [exact H1|]. rewrite H2. apply removeNode_dom.
Qed.

(** X19.  While the observer is attached, [handleDOMChanges] returns
    normally and registers a [P] node that is among the added nodes of the
    mutation, provided that no removed node carries, when the call ends, the
    [highlightId] the node was given (in particular the node is not among
    the removed ones): the node is in the tracked set, it has an empty
    record (stamped with the instant of the call when tracking is on,
    whatever the node had accounted before), it has a non-empty
    [highlightId], and it is observed. *)
Theorem added_paragraph_registered
    (dateNow : Z) (now : Q) (mutation : Mutation) (s : State) (node : Elem) :
  is_Some (observer s) ->
  nodeName (nodeAt s node) = "P" ->
  node ∈ addedNodes mutation ->
  forallb (fun r => negb (sharesId (snd (handleDOMChanges dateNow now mutation s)) r node))
    (removedNodes mutation) = true ->
  returns (handleDOMChanges dateNow now mutation) s
    (fun _ s' => registered (isTracking s) now node s').
Proof.
  intros Hobs Hname Hin Hrem.
  destruct (forEach_addNode_registers dateNow now (isTracking s) node
              (addedNodes mutation) s) as (t & Ht & _ & _ & Hreg).
  { repeat split; assumption. }
  assert (Hrun : handleDOMChanges dateNow now mutation s
                 = (Ret tt, fold_left (fun s r => removeNode r s) (removedNodes mutation) t)).
  { unfold handleDOMChanges, mbind, M_bind, bind. rewrite Ht. reflexivity. }
  rewrite Hrun in Hrem. cbn [snd] in Hrem.
  assert (Hdom : dom (fold_left (fun s r => removeNode r s) (removedNodes mutation) t)
                 = dom t).
  { apply removeNodes_dom. }
  assert (Hrem' : forallb (fun r => negb (sharesId t r node)) (removedNodes mutation)
                  = true).
  { rewrite <- Hrem. apply forallb_same.
    intros a. unfold sharesId, nodeAt. rewrite Hdom. reflexivity. }
  exists tt. eexists. split; [exact Hrun|].
  exact (proj1 (removeNodes_registered (isTracking s) now node
                  (removedNodes mutation) t Hrem' (Hreg Hin))).
Qed.

Lemma added_paragraph_registered_witness :
  returns (handleDOMChanges 1701 6000 (mkMutation [1%nat; 7%nat] [2%nat]))
    (run fresh beforeRemoval)
    (fun _ s' => registered true 6000 1%nat s').
Proof.
  apply (added_paragraph_registered 1701 6000 (mkMutation [1%nat; 7%nat] [2%nat])
           (run fresh beforeRemoval) 1%nat).
  - vm_compute. eauto.
  - reflexivity.
  - simpl. apply elem_of_cons. left. reflexivity.
  - vm_compute. reflexivity.
Defined.
End MutationAdds.

(** ** Unload, and the batch below the threshold *)

Section Periodic.
Import V2 Props Examples.

Lemma exportData_emitted now s : emitted (snd (exportData now s)) = emitted s.
Proof.
  unfold exportData.
  apply (fold_left_preserves
           (fun acc : list (string * JsObj) * State => emitted (snd acc) = emitted s));
    [|reflexivity].
  intros [r t] p H. unfold exportOne.
  destruct (engagementData t !! p); exact H.
Qed.

(** X20.  [handleUnload] never throws, whatever the listeners on ["unload"]
    do: while tracking it emits ["unload"] with the report of [exportData]
    and swallows the error of a listener; when the tracker is stopped it
    emits nothing. *)
Theorem handleUnload_silent (now : Q) (s : State) :
  fst (handleUnload now s) = Ret tt
  /\ emitted (snd (handleUnload now s))
     = if isTracking s then EvUnload (fst (exportData now s)) :: emitted s
       else emitted s.
Proof.
  unfold handleUnload. destruct (isTracking s); [|split; reflexivity].
  unfold tryCatch. cbv [mbind M_bind bind mret M_ret ret].
  pose proof (exportData_emitted now s) as Hlog.
  destruct (exportData now s) as [r t]. simpl in Hlog. simpl fst.
  destruct (emit_cases (EvUnload r) t) as [o Ho]. rewrite Ho.
  destruct o; simpl; rewrite Hlog; split; reflexivity.
Qed.

Lemma processOne_below now s i e data :
  engagementData s !! e = Some data ->
  JsNum.ge (Fin (visibleRatio data)) (visibilityThreshold s) = false ->
  exists data',
    engagementData (processOne now s i) !! e = Some data'
    /\ accounted data' = accounted data
    /\ visibleRatio data' = visibleRatio data
    /\ inView data' = inView data
    /\ options (processOne now s i) = options s.
Proof.
  intros He Hlow. unfold processOne.
  destruct (_ ≫= _) as [paragraph|]; [|eauto 6].
  destruct (engagementData s !! paragraph) as [d|] eqn:Ep; [|eauto 6].
  destruct (decide (paragraph = e)) as [->|Hne].
  - rewrite He in Ep. injection Ep as <-. rewrite Hlow. cbn [andb].
    eexists. simpl. rewrite lookup_insert_eq. split; [reflexivity|]. auto.
  - exists data.
    destruct (_ && _)%bool; [destruct (JsNum.Qltb _ _)|]; simpl;
      rewrite lookup_insert_ne by exact Hne; auto.
Qed.

(** X21.  [processBatch] credits no time to a paragraph whose stored ratio
    does not compare at or above the visibility threshold (the threshold
    converted to a number, so also when that is [NaN]): whatever the size of
    the batch (an endless one apart), the two accounted times, the ratio and
    the in-view flag of its record stay; only its stamp may move. *)
Theorem processBatch_below_threshold
    (now : Q) (size : num) (s : State) (e : Elem) (data : Data) :
  validCall (CallProcessBatch now size) = true ->
  engagementData s !! e = Some data ->
  JsNum.ge (Fin (visibleRatio data)) (visibilityThreshold s) = false ->
  exists data',
    engagementData (step s (CallProcessBatch now size)) !! e = Some data'
    /\ accounted data' = accounted data
    /\ visibleRatio data' = visibleRatio data
    /\ inView data' = inView data.
Proof.
  intros _ He Hlow. cbn [step]. unfold processBatch. cbv zeta.
  cbn [engagementData set_lastProcessedIndex].
  assert (H : exists data',
            engagementData (fold_left (processOne now) (seq 0 (JsNum.loopCount size)) s) !! e
            = Some data'
            /\ accounted data' = accounted data
            /\ visibleRatio data' = visibleRatio data
            /\ inView data' = inView data
            /\ options (fold_left (processOne now) (seq 0 (JsNum.loopCount size)) s)
               = options s).
  { apply (fold_left_preserves
             (fun t => exists data',
                engagementData t !! e = Some data'
                /\ accounted data' = accounted data
                /\ visibleRatio data' = visibleRatio data
                /\ inView data' = inView data
                /\ options t = options s)); [|eauto 6].
    intros t i (d & Hd & Ha & Hr & Hv & Ho).
    destruct (processOne_below now t i e d Hd) as (d' & Hd' & Ha' & Hr' & Hv' & Ho').
    { unfold visibilityThreshold in *. rewrite Ho, Hr. exact Hlow. }
    exists d'. repeat split; congruence. }
  destruct H as (d & Hd & Ha & Hr & Hv & _). eauto 6.
Qed.

Lemma processBatch_below_threshold_witness :
  lastProcessedIndex (run fresh belowThreshold) = Fin 0
  /\ (exists data',
        engagementData (step (run fresh belowThreshold) (CallProcessBatch 5000 (Fin 1)))
        !! 1%nat = Some data'
        /\ accounted data' = (0 + (2000 - 1000), 0 + (2000 - 1000) * (1 # 4))%Q
        /\ lastUpdate data' = Some 5000%Q)
  /\ (spentOf (run fresh aboveThreshold) 1%nat == 1000)%Q
  /\ (spentOf (step (run fresh aboveThreshold) (CallProcessBatch 5000 (Fin 1))) 1%nat
      == 4000)%Q.
Proof.
  split; [reflexivity|]. split; [|split; vm_compute; reflexivity].
  destruct (processBatch_below_threshold 5000 (Fin 1) (run fresh belowThreshold) 1%nat
              {| visibleRatio := 1 # 4; timeSpent := 0 + (2000 - 1000);
                 weightedTime := 0 + (2000 - 1000) * (1 # 4);
                 lastUpdate := Some 2000%Q; inView := true |})
    as (d & Hd & Ha & _); [reflexivity | reflexivity | reflexivity|].
  exists d. split; [exact Hd|]. split; [exact Ha|].
  clear Ha. revert Hd. vm_compute. intros [= <-]. reflexivity.
Defined.
End Periodic.

(** ** Time before tracking starts *)

Section Start.
Import V2 Props Examples.

Lemma trackingFrame_without_frameTime now s :
  lastFrameTime s = None ->
  engagementData (trackingFrame now s) = engagementData s
  /\ paragraphs (trackingFrame now s) = paragraphs s
  /\ isTracking (trackingFrame now s) = isTracking s
  /\ tabVisible (trackingFrame now s) = tabVisible s.
Proof.
  intros Hf. unfold trackingFrame.
  destruct (_ || _)%bool; [auto|].
  assert (Hb : batchSize now s = NaN).
  { unfold batchSize, readFrameTime. rewrite Hf. reflexivity. }
  rewrite Hb. unfold processBatch. simpl. auto.
Qed.

Lemma startTracking_state now s :
  isTracking s = false ->
  let t := trackingFrame now
             (stampAll now (set_trackingStartTime now (set_isTracking true s))) in
  snd (startTracking now s) = set_emitted (EvTrackingStarted :: emitted t) t.
Proof.
  intros Ht t. unfold startTracking. rewrite Ht.
  cbv [mbind M_bind bind modify mret M_ret ret].
  fold t. destruct (emit_cases EvTrackingStarted t) as [r Hr]. rewrite Hr.
  destruct r; reflexivity.
Qed.

(** X22.  Time before [startTracking] is not credited.  In a state reached
    from a new tracker, with tracking off and the tab visible, starting at
    [started] and then delivering a report that finds a tracked paragraph
    intersecting credits it the time since [started] only, whatever the
    stamp of its record was before. *)
Theorem tracking_starts_afresh
    (opts : JsObj) (calls : list Call) (started now : Q) (entry : Entry) (data : Data) :
  let s := run (initializeState opts) calls in
  isTracking s = false ->
  tabVisible s = true ->
  target entry ∈ paragraphs s ->
  engagementData s !! target entry = Some data ->
  isIntersecting entry = true ->
  live (Some started) = true ->
  engagementData (run s [CallStartTracking started; CallHandleIntersection now [entry]])
  !! target entry
  = Some {| visibleRatio := intersectionRatio entry;
            timeSpent := timeSpent data + (now - started);
            weightedTime := weightedTime data + (now - started) * intersectionRatio entry;
            lastUpdate := Some now;
            inView := true |}.
Proof.
  intros s Ht Hv Hin He Hseen Hlive.
  assert (Hf : lastFrameTime s = None).
  { apply (run_frameTime None). reflexivity. }
  cbn [run fold_left step]. rewrite startTracking_state by exact Ht. cbv zeta.
  set (s1 := stampAll started (set_trackingStartTime started (set_isTracking true s))).
  destruct (trackingFrame_without_frameTime started s1 Hf) as (Hd & Hp & Hk & Hvis).
  unfold handleIntersection. cbn [tabVisible set_emitted]. rewrite Hvis.
  change (tabVisible s1) with (tabVisible s). rewrite Hv. cbn [negb fold_left].
  unfold onEntry. cbn [engagementData set_emitted isTracking maxEngagement].
  rewrite Hd, Hk.
  change (engagementData s1)
    with (fold_left (fun ed p => alter (stamp started) p ed) (paragraphs s)
            (engagementData s)).
  rewrite stampAll_record, He. rewrite bool_decide_eq_true_2 by exact Hin.
  change (isTracking s1) with true. rewrite Hseen.
  cbn [fmap option_fmap option_map stamp lastUpdate timeSpent weightedTime default].
  rewrite Hlive. cbn [andb].
  destruct (JsNum.Qltb _ _); cbn [engagementData set_maxEngagement set_engagementData];
    rewrite lookup_insert_eq; reflexivity.
Qed.

Lemma tracking_starts_afresh_witness :
  engagementData
    (run (run (initializeState defaultOptions) (oneInView ++ [CallStopTracking 3000]))
       [CallStartTracking 8000; CallHandleIntersection 8400 [mkEntry 1 1 true]])
  !! 1%nat
  = Some {| visibleRatio := 1;
            timeSpent := 0 + (8400 - 8000);
            weightedTime := 0 + (8400 - 8000) * 1;
            lastUpdate := Some 8400%Q;
            inView := true |}.
Proof.
  apply (tracking_starts_afresh defaultOptions (oneInView ++ [CallStopTracking 3000])
           8000 8400 (mkEntry 1 1 true)
           {| visibleRatio := 1; timeSpent := 0; weightedTime := 0;
              lastUpdate := Some 1000%Q; inView := true |});
    try reflexivity.
  vm_compute. apply elem_of_cons. left. reflexivity.
Defined.
End Start.

(** ** The heat map of the interval edition *)

Section IntervalHeat.
Import V1 V1Host V1Heat.












End IntervalHeat.
